(** * Vehicle parameter resolution (velox::models::setup_vehicle_parameters)

    A shallow embedding of [src/parameters/vehicle_parameters.cpp] and
    [src/parameters/vehicle_parameters.hpp]: the construction of the two
    document paths, the existence checks, the loading of the two YAML
    documents and the population of a default-constructed
    [VehicleParameters] from them.

    The program is written against two libraries that are not part of the
    repository: [std::filesystem] and yaml-cpp.  The parts of their
    behaviour that the program relies on are modelled in the modules
    [fs] and [YAML] below; every such operation carries a comment naming
    the library function it stands for. *)

From Stdlib Require Import String Ascii List ZArith Bool Lia.
From Stdlib Require Import SpecFloat DecimalString DecimalZ DecimalFacts.
Import ListNotations.
Local Open Scope list_scope.
Local Open Scope string_scope.

(** ** Scalars *)

(** A C++ [double] is an IEEE 754 binary64 datum; [spec_float] is the
    Standard Library's description of such data.  No arithmetic is ever
    performed on the parameters, they are only stored. *)
Definition double : Type := spec_float.

(** The value of a value-initialised double ([double x{}]): [+0.0]. *)
Definition zero : double := S754_zero false.

(** ** Exceptions and results *)

Module YAML.

(** [YAML::Mark]: the position of a node in the text it was parsed from.
    yaml-cpp's exceptions carry the mark of the node they complain
    about and print it as "line L, column C". *)
Record Mark : Type := mkMark { pos : Z; line : Z; column : Z }.

(** The content of a parsed document ([YAML::detail::node]): the four
    node types a parser produces.  A map is kept as the sequence of its
    key/value pairs in document order, keys being nodes themselves. *)
#[warnings="-register-all"] Inductive Tree : Type :=
| Null (mk : Mark)
| Scalar (mk : Mark) (text : string)
| Sequence (mk : Mark) (items : list Tree)
| Map (mk : Mark) (entries : list (Tree * Tree)).

Definition mark (t : Tree) : Mark :=
  match t with
  | Null mk | Scalar mk _ | Sequence mk _ | Map mk _ => mk
  end.

(** [YAML::Node] is a handle.  The handle [operator[] const] returns for a
    key that is not found is the invalid ("zombie") node, which remembers
    the key it was looked up with; every other handle the program meets
    points into a parsed document and is therefore defined. *)
Inductive Node : Type :=
| Invalid (key : string)
| Handle (t : Tree).

End YAML.

(** What the resolver can throw.  [runtime_error] is
    [std::runtime_error]; [filesystem_error] is
    [std::filesystem::filesystem_error] with the message of its error
    code and the path it concerns; the others are yaml-cpp's exception
    classes with the data their messages are built from. *)
Inductive Exception : Type :=
| runtime_error (what : string)
| InvalidNode (key : string)
| BadSubscript (mk : YAML.Mark) (key : string)
| TypedBadConversion (mk : YAML.Mark)
| ParserException (mk : YAML.Mark) (msg : string)
| BadFile (filename : string)
| filesystem_error (message : string) (path1 : string).

(** The outcome of a call: it returns a value or throws. *)
Inductive Result (A : Type) : Type :=
| Return (a : A)
| Throw (e : Exception).
Arguments Return {A} a.
Arguments Throw {A} e.

Definition bind {A B : Type} (c : Result A) (k : A -> Result B) : Result B :=
  match c with
  | Return a => k a
  | Throw e => Throw e
  end.

Notation "x <- c ;; k" := (bind c (fun x => k))
  (at level 61, c at next level, right associativity).

(** ** The yaml-cpp operations the resolver uses *)

Module YAMLOps.
Import YAML.

(** [Node::IsDefined], also the meaning of [if (node)] and [!node]. *)
Definition IsDefined (n : Node) : bool :=
  match n with
  | Invalid _ => false
  | Handle _ => true
  end.

(** [Node::IsMap], that is [Type() == NodeType::Map]; [Type] throws
    [InvalidNode] on an invalid handle. *)
Definition IsMap (n : Node) : Result bool :=
  match n with
  | Invalid key => Throw (InvalidNode key)
  | Handle (Map _ _) => Return true
  | Handle _ => Return false
  end.

(** [node::equals] for a C string: a key node matches when it is a scalar
    with that text. *)
Definition key_equals (k : Tree) (key : string) : bool :=
  match k with
  | Scalar _ text => String.eqb text key
  | _ => false
  end.

(** The [std::find_if] of [node_data::get]: the value of the first entry
    whose key matches. *)
Fixpoint find_entry (entries : list (Tree * Tree)) (key : string) : option Tree :=
  match entries with
  | [] => None
  | (k, v) :: rest => if key_equals k key then Some v else find_entry rest key
  end.

(** What a string key finds in a tree that is not a scalar: an entry of a
    map, and nothing in a null node or in a sequence. *)
Definition find_key (t : Tree) (key : string) : option Tree :=
  match t with
  | Map _ entries => find_entry entries key
  | _ => None
  end.

(** [Node::operator[](key) const] with a string key.  A key that is not
    found yields the invalid handle; subscripting a scalar throws
    [BadSubscript]; subscripting an invalid handle throws [InvalidNode]. *)
Definition index (n : Node) (key : string) : Result Node :=
  match n with
  | Invalid k => Throw (InvalidNode k)
  | Handle (Scalar mk _) => Throw (BadSubscript mk key)
  | Handle t =>
      match find_key t key with
      | Some v => Return (Handle v)
      | None => Return (Invalid key)
      end
  end.

(** [Node::operator=(const Node&)].  Assigning to (or from) an invalid
    handle throws [InvalidNode] with the key remembered by the left-hand
    side.  Otherwise the left-hand side becomes a handle on the
    right-hand side's node.  (The node the left-hand side pointed to is
    made an alias of it as well; the resolver never reads that node
    again.) *)
Definition assign (lhs rhs : Node) : Result Node :=
  match lhs, rhs with
  | Handle _, Handle t => Return (Handle t)
  | Invalid key, _ => Throw (InvalidNode key)
  | Handle _, Invalid _ => Throw (InvalidNode "")
  end.

Section Conversion.

(** The text-to-double conversion of [YAML::convert<double>::decode]
    (stream extraction plus the spellings of infinity and NaN); [None]
    when the text is not a number. *)
Variable decode : string -> option double.

(** [Node::as<double>()]: only a scalar whose text converts yields a
    value, everything else throws [TypedBadConversion<double>] with the
    node's mark. *)
Definition as_double (n : Node) : Result double :=
  match n with
  | Invalid key => Throw (InvalidNode key)
  | Handle (Scalar mk text) =>
      match decode text with
      | Some v => Return v
      | None => Throw (TypedBadConversion mk)
      end
  | Handle t => Throw (TypedBadConversion (mark t))
  end.

End Conversion.

End YAMLOps.

(** ** The part of std::filesystem the resolver uses *)

Module fs.

Definition path : Type := string.

Fixpoint ends_with_separator (p : path) : bool :=
  match p with
  | EmptyString => false
  | String c EmptyString => Ascii.eqb c "/"
  | String _ rest => ends_with_separator rest
  end.

(** [path::has_filename]: the path is not empty and does not end in a
    directory separator. *)
Definition has_filename (p : path) : bool :=
  match p with
  | EmptyString => false
  | _ => negb (ends_with_separator p)
  end.

Definition is_absolute (p : path) : bool :=
  match p with
  | String c _ => Ascii.eqb c "/"
  | EmptyString => false
  end.

(** [operator/] on POSIX paths: an absolute right-hand side replaces the
    left-hand side; otherwise it is appended, after a separator when the
    left-hand side has a filename. *)
Definition div (p q : path) : path :=
  if is_absolute q then q
  else if has_filename p then p ++ "/" ++ q
  else p ++ q.

(** The file system as the resolver sees it: a path either does not
    exist, or it exists and [YAML::LoadFile] on it yields a document or
    throws. *)
Definition FileSystem : Type := path -> option (Result YAML.Tree).

End fs.

Notation "p / q" := (fs.div p q) : string_scope.

(** [std::to_string(int)]: the decimal digits, preceded by a minus sign
    for a negative number. *)
Definition to_string (n : Z) : string :=
  NilZero.string_of_int (Z.to_int n).

(** ** The parameter structures *)

Module SteeringParameters.

(** Modelled from the spec: the structure [utils::SteeringParameters] is declared
    in [models/steering_parameters.hpp], which is not among the sources.
    Its fields are the ones the loader assigns, each a double. *)
Record t : Type := mk {
  min : double;
  max : double;
  v_min : double;
  v_max : double;
  kappa_dot_max : double;
  kappa_dot_dot_max : double
}.

(** Modelled from the spec: the value-initialised structure
    ([SteeringParameters{}]); every scalar field defaults to zero. *)
Definition default : t :=
  mk zero zero zero zero zero zero.

Definition set_min (v : double) (s : t) : t :=
  let 'mk x0 x1 x2 x3 x4 x5 := s in
  mk v x1 x2 x3 x4 x5.

Definition set_max (v : double) (s : t) : t :=
  let 'mk x0 x1 x2 x3 x4 x5 := s in
  mk x0 v x2 x3 x4 x5.

Definition set_v_min (v : double) (s : t) : t :=
  let 'mk x0 x1 x2 x3 x4 x5 := s in
  mk x0 x1 v x3 x4 x5.

Definition set_v_max (v : double) (s : t) : t :=
  let 'mk x0 x1 x2 x3 x4 x5 := s in
  mk x0 x1 x2 v x4 x5.

Definition set_kappa_dot_max (v : double) (s : t) : t :=
  let 'mk x0 x1 x2 x3 x4 x5 := s in
  mk x0 x1 x2 x3 v x5.

Definition set_kappa_dot_dot_max (v : double) (s : t) : t :=
  let 'mk x0 x1 x2 x3 x4 x5 := s in
  mk x0 x1 x2 x3 x4 v.

End SteeringParameters.

Module LongitudinalParameters.

(** Modelled from the spec: the structure [utils::LongitudinalParameters] is declared
    in [models/longitudinal_parameters.hpp], which is not among the sources.
    Its fields are the ones the loader assigns, each a double. *)
Record t : Type := mk {
  v_min : double;
  v_max : double;
  v_switch : double;
  a_max : double;
  j_max : double;
  j_dot_max : double
}.

(** Modelled from the spec: the value-initialised structure
    ([LongitudinalParameters{}]); every scalar field defaults to zero. *)
Definition default : t :=
  mk zero zero zero zero zero zero.

Definition set_v_min (v : double) (lp : t) : t :=
  let 'mk x0 x1 x2 x3 x4 x5 := lp in
  mk v x1 x2 x3 x4 x5.

Definition set_v_max (v : double) (lp : t) : t :=
  let 'mk x0 x1 x2 x3 x4 x5 := lp in
  mk x0 v x2 x3 x4 x5.

Definition set_v_switch (v : double) (lp : t) : t :=
  let 'mk x0 x1 x2 x3 x4 x5 := lp in
  mk x0 x1 v x3 x4 x5.

Definition set_a_max (v : double) (lp : t) : t :=
  let 'mk x0 x1 x2 x3 x4 x5 := lp in
  mk x0 x1 x2 v x4 x5.

Definition set_j_max (v : double) (lp : t) : t :=
  let 'mk x0 x1 x2 x3 x4 x5 := lp in
  mk x0 x1 x2 x3 v x5.

Definition set_j_dot_max (v : double) (lp : t) : t :=
  let 'mk x0 x1 x2 x3 x4 x5 := lp in
  mk x0 x1 x2 x3 x4 v.

End LongitudinalParameters.

Module TrailerParameters.

(** Modelled from the spec: the structure [utils::TrailerParameters] is declared
    in [models/trailer_parameters.hpp], which is not among the sources.
    Its fields are the ones the loader assigns, each a double. *)
Record t : Type := mk {
  l : double;
  w : double;
  l_hitch : double;
  l_total : double;
  l_wb : double
}.

(** Modelled from the spec: the value-initialised structure
    ([TrailerParameters{}]); every scalar field defaults to zero. *)
Definition default : t :=
  mk zero zero zero zero zero.

Definition set_l (v : double) (tr : t) : t :=
  let 'mk x0 x1 x2 x3 x4 := tr in
  mk v x1 x2 x3 x4.

Definition set_w (v : double) (tr : t) : t :=
  let 'mk x0 x1 x2 x3 x4 := tr in
  mk x0 v x2 x3 x4.

Definition set_l_hitch (v : double) (tr : t) : t :=
  let 'mk x0 x1 x2 x3 x4 := tr in
  mk x0 x1 v x3 x4.

Definition set_l_total (v : double) (tr : t) : t :=
  let 'mk x0 x1 x2 x3 x4 := tr in
  mk x0 x1 x2 v x4.

Definition set_l_wb (v : double) (tr : t) : t :=
  let 'mk x0 x1 x2 x3 x4 := tr in
  mk x0 x1 x2 x3 v.

End TrailerParameters.

Module TireParameters.

(** Modelled from the spec: the structure [utils::TireParameters] is declared
    in [models/tireParameters.hpp], which is not among the sources.
    Its fields are the ones the loader assigns, each a double. *)
Record t : Type := mk {
  p_cx1 : double;
  p_dx1 : double;
  p_dx3 : double;
  p_ex1 : double;
  p_kx1 : double;
  p_hx1 : double;
  p_vx1 : double;
  r_bx1 : double;
  r_bx2 : double;
  r_cx1 : double;
  r_ex1 : double;
  r_hx1 : double;
  p_cy1 : double;
  p_dy1 : double;
  p_dy3 : double;
  p_ey1 : double;
  p_ky1 : double;
  p_hy1 : double;
  p_hy3 : double;
  p_vy1 : double;
  p_vy3 : double;
  r_by1 : double;
  r_by2 : double;
  r_by3 : double;
  r_cy1 : double;
  r_ey1 : double;
  r_hy1 : double;
  r_vy1 : double;
  r_vy3 : double;
  r_vy4 : double;
  r_vy5 : double;
  r_vy6 : double
}.

(** Modelled from the spec: the value-initialised structure
    ([TireParameters{}]); every scalar field defaults to zero. *)
Definition default : t :=
  mk zero zero zero zero zero zero zero zero zero zero zero zero zero zero
  zero zero zero zero zero zero zero zero zero zero zero zero zero zero zero
  zero zero zero.

Definition set_p_cx1 (v : double) (tp : t) : t :=
  let 'mk x0 x1 x2 x3 x4 x5 x6 x7 x8 x9 x10 x11 x12 x13 x14 x15 x16 x17 x18
  x19 x20 x21 x22 x23 x24 x25 x26 x27 x28 x29 x30 x31 := tp in
  mk v x1 x2 x3 x4 x5 x6 x7 x8 x9 x10 x11 x12 x13 x14 x15 x16 x17 x18 x19 x20
  x21 x22 x23 x24 x25 x26 x27 x28 x29 x30 x31.

Definition set_p_dx1 (v : double) (tp : t) : t :=
  let 'mk x0 x1 x2 x3 x4 x5 x6 x7 x8 x9 x10 x11 x12 x13 x14 x15 x16 x17 x18
  x19 x20 x21 x22 x23 x24 x25 x26 x27 x28 x29 x30 x31 := tp in
  mk x0 v x2 x3 x4 x5 x6 x7 x8 x9 x10 x11 x12 x13 x14 x15 x16 x17 x18 x19 x20
  x21 x22 x23 x24 x25 x26 x27 x28 x29 x30 x31.

Definition set_p_dx3 (v : double) (tp : t) : t :=
  let 'mk x0 x1 x2 x3 x4 x5 x6 x7 x8 x9 x10 x11 x12 x13 x14 x15 x16 x17 x18
  x19 x20 x21 x22 x23 x24 x25 x26 x27 x28 x29 x30 x31 := tp in
  mk x0 x1 v x3 x4 x5 x6 x7 x8 x9 x10 x11 x12 x13 x14 x15 x16 x17 x18 x19 x20
  x21 x22 x23 x24 x25 x26 x27 x28 x29 x30 x31.

Definition set_p_ex1 (v : double) (tp : t) : t :=
  let 'mk x0 x1 x2 x3 x4 x5 x6 x7 x8 x9 x10 x11 x12 x13 x14 x15 x16 x17 x18
  x19 x20 x21 x22 x23 x24 x25 x26 x27 x28 x29 x30 x31 := tp in
  mk x0 x1 x2 v x4 x5 x6 x7 x8 x9 x10 x11 x12 x13 x14 x15 x16 x17 x18 x19 x20
  x21 x22 x23 x24 x25 x26 x27 x28 x29 x30 x31.

Definition set_p_kx1 (v : double) (tp : t) : t :=
  let 'mk x0 x1 x2 x3 x4 x5 x6 x7 x8 x9 x10 x11 x12 x13 x14 x15 x16 x17 x18
  x19 x20 x21 x22 x23 x24 x25 x26 x27 x28 x29 x30 x31 := tp in
  mk x0 x1 x2 x3 v x5 x6 x7 x8 x9 x10 x11 x12 x13 x14 x15 x16 x17 x18 x19 x20
  x21 x22 x23 x24 x25 x26 x27 x28 x29 x30 x31.

Definition set_p_hx1 (v : double) (tp : t) : t :=
  let 'mk x0 x1 x2 x3 x4 x5 x6 x7 x8 x9 x10 x11 x12 x13 x14 x15 x16 x17 x18
  x19 x20 x21 x22 x23 x24 x25 x26 x27 x28 x29 x30 x31 := tp in
  mk x0 x1 x2 x3 x4 v x6 x7 x8 x9 x10 x11 x12 x13 x14 x15 x16 x17 x18 x19 x20
  x21 x22 x23 x24 x25 x26 x27 x28 x29 x30 x31.

Definition set_p_vx1 (v : double) (tp : t) : t :=
  let 'mk x0 x1 x2 x3 x4 x5 x6 x7 x8 x9 x10 x11 x12 x13 x14 x15 x16 x17 x18
  x19 x20 x21 x22 x23 x24 x25 x26 x27 x28 x29 x30 x31 := tp in
  mk x0 x1 x2 x3 x4 x5 v x7 x8 x9 x10 x11 x12 x13 x14 x15 x16 x17 x18 x19 x20
  x21 x22 x23 x24 x25 x26 x27 x28 x29 x30 x31.

Definition set_r_bx1 (v : double) (tp : t) : t :=
  let 'mk x0 x1 x2 x3 x4 x5 x6 x7 x8 x9 x10 x11 x12 x13 x14 x15 x16 x17 x18
  x19 x20 x21 x22 x23 x24 x25 x26 x27 x28 x29 x30 x31 := tp in
  mk x0 x1 x2 x3 x4 x5 x6 v x8 x9 x10 x11 x12 x13 x14 x15 x16 x17 x18 x19 x20
  x21 x22 x23 x24 x25 x26 x27 x28 x29 x30 x31.

Definition set_r_bx2 (v : double) (tp : t) : t :=
  let 'mk x0 x1 x2 x3 x4 x5 x6 x7 x8 x9 x10 x11 x12 x13 x14 x15 x16 x17 x18
  x19 x20 x21 x22 x23 x24 x25 x26 x27 x28 x29 x30 x31 := tp in
  mk x0 x1 x2 x3 x4 x5 x6 x7 v x9 x10 x11 x12 x13 x14 x15 x16 x17 x18 x19 x20
  x21 x22 x23 x24 x25 x26 x27 x28 x29 x30 x31.

Definition set_r_cx1 (v : double) (tp : t) : t :=
  let 'mk x0 x1 x2 x3 x4 x5 x6 x7 x8 x9 x10 x11 x12 x13 x14 x15 x16 x17 x18
  x19 x20 x21 x22 x23 x24 x25 x26 x27 x28 x29 x30 x31 := tp in
  mk x0 x1 x2 x3 x4 x5 x6 x7 x8 v x10 x11 x12 x13 x14 x15 x16 x17 x18 x19 x20
  x21 x22 x23 x24 x25 x26 x27 x28 x29 x30 x31.

Definition set_r_ex1 (v : double) (tp : t) : t :=
  let 'mk x0 x1 x2 x3 x4 x5 x6 x7 x8 x9 x10 x11 x12 x13 x14 x15 x16 x17 x18
  x19 x20 x21 x22 x23 x24 x25 x26 x27 x28 x29 x30 x31 := tp in
  mk x0 x1 x2 x3 x4 x5 x6 x7 x8 x9 v x11 x12 x13 x14 x15 x16 x17 x18 x19 x20
  x21 x22 x23 x24 x25 x26 x27 x28 x29 x30 x31.

Definition set_r_hx1 (v : double) (tp : t) : t :=
  let 'mk x0 x1 x2 x3 x4 x5 x6 x7 x8 x9 x10 x11 x12 x13 x14 x15 x16 x17 x18
  x19 x20 x21 x22 x23 x24 x25 x26 x27 x28 x29 x30 x31 := tp in
  mk x0 x1 x2 x3 x4 x5 x6 x7 x8 x9 x10 v x12 x13 x14 x15 x16 x17 x18 x19 x20
  x21 x22 x23 x24 x25 x26 x27 x28 x29 x30 x31.

Definition set_p_cy1 (v : double) (tp : t) : t :=
  let 'mk x0 x1 x2 x3 x4 x5 x6 x7 x8 x9 x10 x11 x12 x13 x14 x15 x16 x17 x18
  x19 x20 x21 x22 x23 x24 x25 x26 x27 x28 x29 x30 x31 := tp in
  mk x0 x1 x2 x3 x4 x5 x6 x7 x8 x9 x10 x11 v x13 x14 x15 x16 x17 x18 x19 x20
  x21 x22 x23 x24 x25 x26 x27 x28 x29 x30 x31.

Definition set_p_dy1 (v : double) (tp : t) : t :=
  let 'mk x0 x1 x2 x3 x4 x5 x6 x7 x8 x9 x10 x11 x12 x13 x14 x15 x16 x17 x18
  x19 x20 x21 x22 x23 x24 x25 x26 x27 x28 x29 x30 x31 := tp in
  mk x0 x1 x2 x3 x4 x5 x6 x7 x8 x9 x10 x11 x12 v x14 x15 x16 x17 x18 x19 x20
  x21 x22 x23 x24 x25 x26 x27 x28 x29 x30 x31.

Definition set_p_dy3 (v : double) (tp : t) : t :=
  let 'mk x0 x1 x2 x3 x4 x5 x6 x7 x8 x9 x10 x11 x12 x13 x14 x15 x16 x17 x18
  x19 x20 x21 x22 x23 x24 x25 x26 x27 x28 x29 x30 x31 := tp in
  mk x0 x1 x2 x3 x4 x5 x6 x7 x8 x9 x10 x11 x12 x13 v x15 x16 x17 x18 x19 x20
  x21 x22 x23 x24 x25 x26 x27 x28 x29 x30 x31.

Definition set_p_ey1 (v : double) (tp : t) : t :=
  let 'mk x0 x1 x2 x3 x4 x5 x6 x7 x8 x9 x10 x11 x12 x13 x14 x15 x16 x17 x18
  x19 x20 x21 x22 x23 x24 x25 x26 x27 x28 x29 x30 x31 := tp in
  mk x0 x1 x2 x3 x4 x5 x6 x7 x8 x9 x10 x11 x12 x13 x14 v x16 x17 x18 x19 x20
  x21 x22 x23 x24 x25 x26 x27 x28 x29 x30 x31.

Definition set_p_ky1 (v : double) (tp : t) : t :=
  let 'mk x0 x1 x2 x3 x4 x5 x6 x7 x8 x9 x10 x11 x12 x13 x14 x15 x16 x17 x18
  x19 x20 x21 x22 x23 x24 x25 x26 x27 x28 x29 x30 x31 := tp in
  mk x0 x1 x2 x3 x4 x5 x6 x7 x8 x9 x10 x11 x12 x13 x14 x15 v x17 x18 x19 x20
  x21 x22 x23 x24 x25 x26 x27 x28 x29 x30 x31.

Definition set_p_hy1 (v : double) (tp : t) : t :=
  let 'mk x0 x1 x2 x3 x4 x5 x6 x7 x8 x9 x10 x11 x12 x13 x14 x15 x16 x17 x18
  x19 x20 x21 x22 x23 x24 x25 x26 x27 x28 x29 x30 x31 := tp in
  mk x0 x1 x2 x3 x4 x5 x6 x7 x8 x9 x10 x11 x12 x13 x14 x15 x16 v x18 x19 x20
  x21 x22 x23 x24 x25 x26 x27 x28 x29 x30 x31.

Definition set_p_hy3 (v : double) (tp : t) : t :=
  let 'mk x0 x1 x2 x3 x4 x5 x6 x7 x8 x9 x10 x11 x12 x13 x14 x15 x16 x17 x18
  x19 x20 x21 x22 x23 x24 x25 x26 x27 x28 x29 x30 x31 := tp in
  mk x0 x1 x2 x3 x4 x5 x6 x7 x8 x9 x10 x11 x12 x13 x14 x15 x16 x17 v x19 x20
  x21 x22 x23 x24 x25 x26 x27 x28 x29 x30 x31.

Definition set_p_vy1 (v : double) (tp : t) : t :=
  let 'mk x0 x1 x2 x3 x4 x5 x6 x7 x8 x9 x10 x11 x12 x13 x14 x15 x16 x17 x18
  x19 x20 x21 x22 x23 x24 x25 x26 x27 x28 x29 x30 x31 := tp in
  mk x0 x1 x2 x3 x4 x5 x6 x7 x8 x9 x10 x11 x12 x13 x14 x15 x16 x17 x18 v x20
  x21 x22 x23 x24 x25 x26 x27 x28 x29 x30 x31.

Definition set_p_vy3 (v : double) (tp : t) : t :=
  let 'mk x0 x1 x2 x3 x4 x5 x6 x7 x8 x9 x10 x11 x12 x13 x14 x15 x16 x17 x18
  x19 x20 x21 x22 x23 x24 x25 x26 x27 x28 x29 x30 x31 := tp in
  mk x0 x1 x2 x3 x4 x5 x6 x7 x8 x9 x10 x11 x12 x13 x14 x15 x16 x17 x18 x19 v
  x21 x22 x23 x24 x25 x26 x27 x28 x29 x30 x31.

Definition set_r_by1 (v : double) (tp : t) : t :=
  let 'mk x0 x1 x2 x3 x4 x5 x6 x7 x8 x9 x10 x11 x12 x13 x14 x15 x16 x17 x18
  x19 x20 x21 x22 x23 x24 x25 x26 x27 x28 x29 x30 x31 := tp in
  mk x0 x1 x2 x3 x4 x5 x6 x7 x8 x9 x10 x11 x12 x13 x14 x15 x16 x17 x18 x19 x20
  v x22 x23 x24 x25 x26 x27 x28 x29 x30 x31.

Definition set_r_by2 (v : double) (tp : t) : t :=
  let 'mk x0 x1 x2 x3 x4 x5 x6 x7 x8 x9 x10 x11 x12 x13 x14 x15 x16 x17 x18
  x19 x20 x21 x22 x23 x24 x25 x26 x27 x28 x29 x30 x31 := tp in
  mk x0 x1 x2 x3 x4 x5 x6 x7 x8 x9 x10 x11 x12 x13 x14 x15 x16 x17 x18 x19 x20
  x21 v x23 x24 x25 x26 x27 x28 x29 x30 x31.

Definition set_r_by3 (v : double) (tp : t) : t :=
  let 'mk x0 x1 x2 x3 x4 x5 x6 x7 x8 x9 x10 x11 x12 x13 x14 x15 x16 x17 x18
  x19 x20 x21 x22 x23 x24 x25 x26 x27 x28 x29 x30 x31 := tp in
  mk x0 x1 x2 x3 x4 x5 x6 x7 x8 x9 x10 x11 x12 x13 x14 x15 x16 x17 x18 x19 x20
  x21 x22 v x24 x25 x26 x27 x28 x29 x30 x31.

Definition set_r_cy1 (v : double) (tp : t) : t :=
  let 'mk x0 x1 x2 x3 x4 x5 x6 x7 x8 x9 x10 x11 x12 x13 x14 x15 x16 x17 x18
  x19 x20 x21 x22 x23 x24 x25 x26 x27 x28 x29 x30 x31 := tp in
  mk x0 x1 x2 x3 x4 x5 x6 x7 x8 x9 x10 x11 x12 x13 x14 x15 x16 x17 x18 x19 x20
  x21 x22 x23 v x25 x26 x27 x28 x29 x30 x31.

Definition set_r_ey1 (v : double) (tp : t) : t :=
  let 'mk x0 x1 x2 x3 x4 x5 x6 x7 x8 x9 x10 x11 x12 x13 x14 x15 x16 x17 x18
  x19 x20 x21 x22 x23 x24 x25 x26 x27 x28 x29 x30 x31 := tp in
  mk x0 x1 x2 x3 x4 x5 x6 x7 x8 x9 x10 x11 x12 x13 x14 x15 x16 x17 x18 x19 x20
  x21 x22 x23 x24 v x26 x27 x28 x29 x30 x31.

Definition set_r_hy1 (v : double) (tp : t) : t :=
  let 'mk x0 x1 x2 x3 x4 x5 x6 x7 x8 x9 x10 x11 x12 x13 x14 x15 x16 x17 x18
  x19 x20 x21 x22 x23 x24 x25 x26 x27 x28 x29 x30 x31 := tp in
  mk x0 x1 x2 x3 x4 x5 x6 x7 x8 x9 x10 x11 x12 x13 x14 x15 x16 x17 x18 x19 x20
  x21 x22 x23 x24 x25 v x27 x28 x29 x30 x31.

Definition set_r_vy1 (v : double) (tp : t) : t :=
  let 'mk x0 x1 x2 x3 x4 x5 x6 x7 x8 x9 x10 x11 x12 x13 x14 x15 x16 x17 x18
  x19 x20 x21 x22 x23 x24 x25 x26 x27 x28 x29 x30 x31 := tp in
  mk x0 x1 x2 x3 x4 x5 x6 x7 x8 x9 x10 x11 x12 x13 x14 x15 x16 x17 x18 x19 x20
  x21 x22 x23 x24 x25 x26 v x28 x29 x30 x31.

Definition set_r_vy3 (v : double) (tp : t) : t :=
  let 'mk x0 x1 x2 x3 x4 x5 x6 x7 x8 x9 x10 x11 x12 x13 x14 x15 x16 x17 x18
  x19 x20 x21 x22 x23 x24 x25 x26 x27 x28 x29 x30 x31 := tp in
  mk x0 x1 x2 x3 x4 x5 x6 x7 x8 x9 x10 x11 x12 x13 x14 x15 x16 x17 x18 x19 x20
  x21 x22 x23 x24 x25 x26 x27 v x29 x30 x31.

Definition set_r_vy4 (v : double) (tp : t) : t :=
  let 'mk x0 x1 x2 x3 x4 x5 x6 x7 x8 x9 x10 x11 x12 x13 x14 x15 x16 x17 x18
  x19 x20 x21 x22 x23 x24 x25 x26 x27 x28 x29 x30 x31 := tp in
  mk x0 x1 x2 x3 x4 x5 x6 x7 x8 x9 x10 x11 x12 x13 x14 x15 x16 x17 x18 x19 x20
  x21 x22 x23 x24 x25 x26 x27 x28 v x30 x31.

Definition set_r_vy5 (v : double) (tp : t) : t :=
  let 'mk x0 x1 x2 x3 x4 x5 x6 x7 x8 x9 x10 x11 x12 x13 x14 x15 x16 x17 x18
  x19 x20 x21 x22 x23 x24 x25 x26 x27 x28 x29 x30 x31 := tp in
  mk x0 x1 x2 x3 x4 x5 x6 x7 x8 x9 x10 x11 x12 x13 x14 x15 x16 x17 x18 x19 x20
  x21 x22 x23 x24 x25 x26 x27 x28 x29 v x31.

Definition set_r_vy6 (v : double) (tp : t) : t :=
  let 'mk x0 x1 x2 x3 x4 x5 x6 x7 x8 x9 x10 x11 x12 x13 x14 x15 x16 x17 x18
  x19 x20 x21 x22 x23 x24 x25 x26 x27 x28 x29 x30 x31 := tp in
  mk x0 x1 x2 x3 x4 x5 x6 x7 x8 x9 x10 x11 x12 x13 x14 x15 x16 x17 x18 x19 x20
  x21 x22 x23 x24 x25 x26 x27 x28 x29 x30 v.

End TireParameters.

Module VehicleParameters.

(** [struct VehicleParameters]: every member has the initialiser [{}]. *)
Record t : Type := mk {
  l : double;
  w : double;
  steering : SteeringParameters.t;
  longitudinal : LongitudinalParameters.t;
  m : double;
  m_s : double;
  m_uf : double;
  m_ur : double;
  a : double;
  b : double;
  I_Phi_s : double;
  I_y_s : double;
  I_z : double;
  I_xz_s : double;
  K_sf : double;
  K_sdf : double;
  K_sr : double;
  K_sdr : double;
  T_f : double;
  T_r : double;
  K_ras : double;
  K_tsf : double;
  K_tsr : double;
  K_rad : double;
  K_zt : double;
  h_cg : double;
  h_raf : double;
  h_rar : double;
  h_s : double;
  I_uf : double;
  I_ur : double;
  I_y_w : double;
  K_lt : double;
  R_w : double;
  T_sb : double;
  T_se : double;
  D_f : double;
  D_r : double;
  E_f : double;
  E_r : double;
  tire : TireParameters.t;
  trailer : TrailerParameters.t
}.

(** The default-constructed structure ([VehicleParameters p;]): every
    scalar member is value-initialised, every group is its own default. *)
Definition default : t :=
  mk zero zero SteeringParameters.default LongitudinalParameters.default zero
  zero zero zero zero zero zero zero zero zero zero zero zero zero zero zero
  zero zero zero zero zero zero zero zero zero zero zero zero zero zero zero
  zero zero zero zero zero TireParameters.default TrailerParameters.default.

Definition set_l (v : double) (p : t) : t :=
  let 'mk x0 x1 x2 x3 x4 x5 x6 x7 x8 x9 x10 x11 x12 x13 x14 x15 x16 x17 x18
  x19 x20 x21 x22 x23 x24 x25 x26 x27 x28 x29 x30 x31 x32 x33 x34 x35 x36 x37
  x38 x39 x40 x41 := p in
  mk v x1 x2 x3 x4 x5 x6 x7 x8 x9 x10 x11 x12 x13 x14 x15 x16 x17 x18 x19 x20
  x21 x22 x23 x24 x25 x26 x27 x28 x29 x30 x31 x32 x33 x34 x35 x36 x37 x38 x39
  x40 x41.

Definition set_w (v : double) (p : t) : t :=
  let 'mk x0 x1 x2 x3 x4 x5 x6 x7 x8 x9 x10 x11 x12 x13 x14 x15 x16 x17 x18
  x19 x20 x21 x22 x23 x24 x25 x26 x27 x28 x29 x30 x31 x32 x33 x34 x35 x36 x37
  x38 x39 x40 x41 := p in
  mk x0 v x2 x3 x4 x5 x6 x7 x8 x9 x10 x11 x12 x13 x14 x15 x16 x17 x18 x19 x20
  x21 x22 x23 x24 x25 x26 x27 x28 x29 x30 x31 x32 x33 x34 x35 x36 x37 x38 x39
  x40 x41.

Definition set_steering (v : SteeringParameters.t) (p : t) : t :=
  let 'mk x0 x1 x2 x3 x4 x5 x6 x7 x8 x9 x10 x11 x12 x13 x14 x15 x16 x17 x18
  x19 x20 x21 x22 x23 x24 x25 x26 x27 x28 x29 x30 x31 x32 x33 x34 x35 x36 x37
  x38 x39 x40 x41 := p in
  mk x0 x1 v x3 x4 x5 x6 x7 x8 x9 x10 x11 x12 x13 x14 x15 x16 x17 x18 x19 x20
  x21 x22 x23 x24 x25 x26 x27 x28 x29 x30 x31 x32 x33 x34 x35 x36 x37 x38 x39
  x40 x41.

Definition set_longitudinal (v : LongitudinalParameters.t) (p : t) : t :=
  let 'mk x0 x1 x2 x3 x4 x5 x6 x7 x8 x9 x10 x11 x12 x13 x14 x15 x16 x17 x18
  x19 x20 x21 x22 x23 x24 x25 x26 x27 x28 x29 x30 x31 x32 x33 x34 x35 x36 x37
  x38 x39 x40 x41 := p in
  mk x0 x1 x2 v x4 x5 x6 x7 x8 x9 x10 x11 x12 x13 x14 x15 x16 x17 x18 x19 x20
  x21 x22 x23 x24 x25 x26 x27 x28 x29 x30 x31 x32 x33 x34 x35 x36 x37 x38 x39
  x40 x41.

Definition set_m (v : double) (p : t) : t :=
  let 'mk x0 x1 x2 x3 x4 x5 x6 x7 x8 x9 x10 x11 x12 x13 x14 x15 x16 x17 x18
  x19 x20 x21 x22 x23 x24 x25 x26 x27 x28 x29 x30 x31 x32 x33 x34 x35 x36 x37
  x38 x39 x40 x41 := p in
  mk x0 x1 x2 x3 v x5 x6 x7 x8 x9 x10 x11 x12 x13 x14 x15 x16 x17 x18 x19 x20
  x21 x22 x23 x24 x25 x26 x27 x28 x29 x30 x31 x32 x33 x34 x35 x36 x37 x38 x39
  x40 x41.

Definition set_m_s (v : double) (p : t) : t :=
  let 'mk x0 x1 x2 x3 x4 x5 x6 x7 x8 x9 x10 x11 x12 x13 x14 x15 x16 x17 x18
  x19 x20 x21 x22 x23 x24 x25 x26 x27 x28 x29 x30 x31 x32 x33 x34 x35 x36 x37
  x38 x39 x40 x41 := p in
  mk x0 x1 x2 x3 x4 v x6 x7 x8 x9 x10 x11 x12 x13 x14 x15 x16 x17 x18 x19 x20
  x21 x22 x23 x24 x25 x26 x27 x28 x29 x30 x31 x32 x33 x34 x35 x36 x37 x38 x39
  x40 x41.

Definition set_m_uf (v : double) (p : t) : t :=
  let 'mk x0 x1 x2 x3 x4 x5 x6 x7 x8 x9 x10 x11 x12 x13 x14 x15 x16 x17 x18
  x19 x20 x21 x22 x23 x24 x25 x26 x27 x28 x29 x30 x31 x32 x33 x34 x35 x36 x37
  x38 x39 x40 x41 := p in
  mk x0 x1 x2 x3 x4 x5 v x7 x8 x9 x10 x11 x12 x13 x14 x15 x16 x17 x18 x19 x20
  x21 x22 x23 x24 x25 x26 x27 x28 x29 x30 x31 x32 x33 x34 x35 x36 x37 x38 x39
  x40 x41.

Definition set_m_ur (v : double) (p : t) : t :=
  let 'mk x0 x1 x2 x3 x4 x5 x6 x7 x8 x9 x10 x11 x12 x13 x14 x15 x16 x17 x18
  x19 x20 x21 x22 x23 x24 x25 x26 x27 x28 x29 x30 x31 x32 x33 x34 x35 x36 x37
  x38 x39 x40 x41 := p in
  mk x0 x1 x2 x3 x4 x5 x6 v x8 x9 x10 x11 x12 x13 x14 x15 x16 x17 x18 x19 x20
  x21 x22 x23 x24 x25 x26 x27 x28 x29 x30 x31 x32 x33 x34 x35 x36 x37 x38 x39
  x40 x41.

Definition set_a (v : double) (p : t) : t :=
  let 'mk x0 x1 x2 x3 x4 x5 x6 x7 x8 x9 x10 x11 x12 x13 x14 x15 x16 x17 x18
  x19 x20 x21 x22 x23 x24 x25 x26 x27 x28 x29 x30 x31 x32 x33 x34 x35 x36 x37
  x38 x39 x40 x41 := p in
  mk x0 x1 x2 x3 x4 x5 x6 x7 v x9 x10 x11 x12 x13 x14 x15 x16 x17 x18 x19 x20
  x21 x22 x23 x24 x25 x26 x27 x28 x29 x30 x31 x32 x33 x34 x35 x36 x37 x38 x39
  x40 x41.

Definition set_b (v : double) (p : t) : t :=
  let 'mk x0 x1 x2 x3 x4 x5 x6 x7 x8 x9 x10 x11 x12 x13 x14 x15 x16 x17 x18
  x19 x20 x21 x22 x23 x24 x25 x26 x27 x28 x29 x30 x31 x32 x33 x34 x35 x36 x37
  x38 x39 x40 x41 := p in
  mk x0 x1 x2 x3 x4 x5 x6 x7 x8 v x10 x11 x12 x13 x14 x15 x16 x17 x18 x19 x20
  x21 x22 x23 x24 x25 x26 x27 x28 x29 x30 x31 x32 x33 x34 x35 x36 x37 x38 x39
  x40 x41.

Definition set_I_Phi_s (v : double) (p : t) : t :=
  let 'mk x0 x1 x2 x3 x4 x5 x6 x7 x8 x9 x10 x11 x12 x13 x14 x15 x16 x17 x18
  x19 x20 x21 x22 x23 x24 x25 x26 x27 x28 x29 x30 x31 x32 x33 x34 x35 x36 x37
  x38 x39 x40 x41 := p in
  mk x0 x1 x2 x3 x4 x5 x6 x7 x8 x9 v x11 x12 x13 x14 x15 x16 x17 x18 x19 x20
  x21 x22 x23 x24 x25 x26 x27 x28 x29 x30 x31 x32 x33 x34 x35 x36 x37 x38 x39
  x40 x41.

Definition set_I_y_s (v : double) (p : t) : t :=
  let 'mk x0 x1 x2 x3 x4 x5 x6 x7 x8 x9 x10 x11 x12 x13 x14 x15 x16 x17 x18
  x19 x20 x21 x22 x23 x24 x25 x26 x27 x28 x29 x30 x31 x32 x33 x34 x35 x36 x37
  x38 x39 x40 x41 := p in
  mk x0 x1 x2 x3 x4 x5 x6 x7 x8 x9 x10 v x12 x13 x14 x15 x16 x17 x18 x19 x20
  x21 x22 x23 x24 x25 x26 x27 x28 x29 x30 x31 x32 x33 x34 x35 x36 x37 x38 x39
  x40 x41.

Definition set_I_z (v : double) (p : t) : t :=
  let 'mk x0 x1 x2 x3 x4 x5 x6 x7 x8 x9 x10 x11 x12 x13 x14 x15 x16 x17 x18
  x19 x20 x21 x22 x23 x24 x25 x26 x27 x28 x29 x30 x31 x32 x33 x34 x35 x36 x37
  x38 x39 x40 x41 := p in
  mk x0 x1 x2 x3 x4 x5 x6 x7 x8 x9 x10 x11 v x13 x14 x15 x16 x17 x18 x19 x20
  x21 x22 x23 x24 x25 x26 x27 x28 x29 x30 x31 x32 x33 x34 x35 x36 x37 x38 x39
  x40 x41.

Definition set_I_xz_s (v : double) (p : t) : t :=
  let 'mk x0 x1 x2 x3 x4 x5 x6 x7 x8 x9 x10 x11 x12 x13 x14 x15 x16 x17 x18
  x19 x20 x21 x22 x23 x24 x25 x26 x27 x28 x29 x30 x31 x32 x33 x34 x35 x36 x37
  x38 x39 x40 x41 := p in
  mk x0 x1 x2 x3 x4 x5 x6 x7 x8 x9 x10 x11 x12 v x14 x15 x16 x17 x18 x19 x20
  x21 x22 x23 x24 x25 x26 x27 x28 x29 x30 x31 x32 x33 x34 x35 x36 x37 x38 x39
  x40 x41.

Definition set_K_sf (v : double) (p : t) : t :=
  let 'mk x0 x1 x2 x3 x4 x5 x6 x7 x8 x9 x10 x11 x12 x13 x14 x15 x16 x17 x18
  x19 x20 x21 x22 x23 x24 x25 x26 x27 x28 x29 x30 x31 x32 x33 x34 x35 x36 x37
  x38 x39 x40 x41 := p in
  mk x0 x1 x2 x3 x4 x5 x6 x7 x8 x9 x10 x11 x12 x13 v x15 x16 x17 x18 x19 x20
  x21 x22 x23 x24 x25 x26 x27 x28 x29 x30 x31 x32 x33 x34 x35 x36 x37 x38 x39
  x40 x41.

Definition set_K_sdf (v : double) (p : t) : t :=
  let 'mk x0 x1 x2 x3 x4 x5 x6 x7 x8 x9 x10 x11 x12 x13 x14 x15 x16 x17 x18
  x19 x20 x21 x22 x23 x24 x25 x26 x27 x28 x29 x30 x31 x32 x33 x34 x35 x36 x37
  x38 x39 x40 x41 := p in
  mk x0 x1 x2 x3 x4 x5 x6 x7 x8 x9 x10 x11 x12 x13 x14 v x16 x17 x18 x19 x20
  x21 x22 x23 x24 x25 x26 x27 x28 x29 x30 x31 x32 x33 x34 x35 x36 x37 x38 x39
  x40 x41.

Definition set_K_sr (v : double) (p : t) : t :=
  let 'mk x0 x1 x2 x3 x4 x5 x6 x7 x8 x9 x10 x11 x12 x13 x14 x15 x16 x17 x18
  x19 x20 x21 x22 x23 x24 x25 x26 x27 x28 x29 x30 x31 x32 x33 x34 x35 x36 x37
  x38 x39 x40 x41 := p in
  mk x0 x1 x2 x3 x4 x5 x6 x7 x8 x9 x10 x11 x12 x13 x14 x15 v x17 x18 x19 x20
  x21 x22 x23 x24 x25 x26 x27 x28 x29 x30 x31 x32 x33 x34 x35 x36 x37 x38 x39
  x40 x41.

Definition set_K_sdr (v : double) (p : t) : t :=
  let 'mk x0 x1 x2 x3 x4 x5 x6 x7 x8 x9 x10 x11 x12 x13 x14 x15 x16 x17 x18
  x19 x20 x21 x22 x23 x24 x25 x26 x27 x28 x29 x30 x31 x32 x33 x34 x35 x36 x37
  x38 x39 x40 x41 := p in
  mk x0 x1 x2 x3 x4 x5 x6 x7 x8 x9 x10 x11 x12 x13 x14 x15 x16 v x18 x19 x20
  x21 x22 x23 x24 x25 x26 x27 x28 x29 x30 x31 x32 x33 x34 x35 x36 x37 x38 x39
  x40 x41.

Definition set_T_f (v : double) (p : t) : t :=
  let 'mk x0 x1 x2 x3 x4 x5 x6 x7 x8 x9 x10 x11 x12 x13 x14 x15 x16 x17 x18
  x19 x20 x21 x22 x23 x24 x25 x26 x27 x28 x29 x30 x31 x32 x33 x34 x35 x36 x37
  x38 x39 x40 x41 := p in
  mk x0 x1 x2 x3 x4 x5 x6 x7 x8 x9 x10 x11 x12 x13 x14 x15 x16 x17 v x19 x20
  x21 x22 x23 x24 x25 x26 x27 x28 x29 x30 x31 x32 x33 x34 x35 x36 x37 x38 x39
  x40 x41.

Definition set_T_r (v : double) (p : t) : t :=
  let 'mk x0 x1 x2 x3 x4 x5 x6 x7 x8 x9 x10 x11 x12 x13 x14 x15 x16 x17 x18
  x19 x20 x21 x22 x23 x24 x25 x26 x27 x28 x29 x30 x31 x32 x33 x34 x35 x36 x37
  x38 x39 x40 x41 := p in
  mk x0 x1 x2 x3 x4 x5 x6 x7 x8 x9 x10 x11 x12 x13 x14 x15 x16 x17 x18 v x20
  x21 x22 x23 x24 x25 x26 x27 x28 x29 x30 x31 x32 x33 x34 x35 x36 x37 x38 x39
  x40 x41.

Definition set_K_ras (v : double) (p : t) : t :=
  let 'mk x0 x1 x2 x3 x4 x5 x6 x7 x8 x9 x10 x11 x12 x13 x14 x15 x16 x17 x18
  x19 x20 x21 x22 x23 x24 x25 x26 x27 x28 x29 x30 x31 x32 x33 x34 x35 x36 x37
  x38 x39 x40 x41 := p in
  mk x0 x1 x2 x3 x4 x5 x6 x7 x8 x9 x10 x11 x12 x13 x14 x15 x16 x17 x18 x19 v
  x21 x22 x23 x24 x25 x26 x27 x28 x29 x30 x31 x32 x33 x34 x35 x36 x37 x38 x39
  x40 x41.

Definition set_K_tsf (v : double) (p : t) : t :=
  let 'mk x0 x1 x2 x3 x4 x5 x6 x7 x8 x9 x10 x11 x12 x13 x14 x15 x16 x17 x18
  x19 x20 x21 x22 x23 x24 x25 x26 x27 x28 x29 x30 x31 x32 x33 x34 x35 x36 x37
  x38 x39 x40 x41 := p in
  mk x0 x1 x2 x3 x4 x5 x6 x7 x8 x9 x10 x11 x12 x13 x14 x15 x16 x17 x18 x19 x20
  v x22 x23 x24 x25 x26 x27 x28 x29 x30 x31 x32 x33 x34 x35 x36 x37 x38 x39
  x40 x41.

Definition set_K_tsr (v : double) (p : t) : t :=
  let 'mk x0 x1 x2 x3 x4 x5 x6 x7 x8 x9 x10 x11 x12 x13 x14 x15 x16 x17 x18
  x19 x20 x21 x22 x23 x24 x25 x26 x27 x28 x29 x30 x31 x32 x33 x34 x35 x36 x37
  x38 x39 x40 x41 := p in
  mk x0 x1 x2 x3 x4 x5 x6 x7 x8 x9 x10 x11 x12 x13 x14 x15 x16 x17 x18 x19 x20
  x21 v x23 x24 x25 x26 x27 x28 x29 x30 x31 x32 x33 x34 x35 x36 x37 x38 x39
  x40 x41.

Definition set_K_rad (v : double) (p : t) : t :=
  let 'mk x0 x1 x2 x3 x4 x5 x6 x7 x8 x9 x10 x11 x12 x13 x14 x15 x16 x17 x18
  x19 x20 x21 x22 x23 x24 x25 x26 x27 x28 x29 x30 x31 x32 x33 x34 x35 x36 x37
  x38 x39 x40 x41 := p in
  mk x0 x1 x2 x3 x4 x5 x6 x7 x8 x9 x10 x11 x12 x13 x14 x15 x16 x17 x18 x19 x20
  x21 x22 v x24 x25 x26 x27 x28 x29 x30 x31 x32 x33 x34 x35 x36 x37 x38 x39
  x40 x41.

Definition set_K_zt (v : double) (p : t) : t :=
  let 'mk x0 x1 x2 x3 x4 x5 x6 x7 x8 x9 x10 x11 x12 x13 x14 x15 x16 x17 x18
  x19 x20 x21 x22 x23 x24 x25 x26 x27 x28 x29 x30 x31 x32 x33 x34 x35 x36 x37
  x38 x39 x40 x41 := p in
  mk x0 x1 x2 x3 x4 x5 x6 x7 x8 x9 x10 x11 x12 x13 x14 x15 x16 x17 x18 x19 x20
  x21 x22 x23 v x25 x26 x27 x28 x29 x30 x31 x32 x33 x34 x35 x36 x37 x38 x39
  x40 x41.

Definition set_h_cg (v : double) (p : t) : t :=
  let 'mk x0 x1 x2 x3 x4 x5 x6 x7 x8 x9 x10 x11 x12 x13 x14 x15 x16 x17 x18
  x19 x20 x21 x22 x23 x24 x25 x26 x27 x28 x29 x30 x31 x32 x33 x34 x35 x36 x37
  x38 x39 x40 x41 := p in
  mk x0 x1 x2 x3 x4 x5 x6 x7 x8 x9 x10 x11 x12 x13 x14 x15 x16 x17 x18 x19 x20
  x21 x22 x23 x24 v x26 x27 x28 x29 x30 x31 x32 x33 x34 x35 x36 x37 x38 x39
  x40 x41.

Definition set_h_raf (v : double) (p : t) : t :=
  let 'mk x0 x1 x2 x3 x4 x5 x6 x7 x8 x9 x10 x11 x12 x13 x14 x15 x16 x17 x18
  x19 x20 x21 x22 x23 x24 x25 x26 x27 x28 x29 x30 x31 x32 x33 x34 x35 x36 x37
  x38 x39 x40 x41 := p in
  mk x0 x1 x2 x3 x4 x5 x6 x7 x8 x9 x10 x11 x12 x13 x14 x15 x16 x17 x18 x19 x20
  x21 x22 x23 x24 x25 v x27 x28 x29 x30 x31 x32 x33 x34 x35 x36 x37 x38 x39
  x40 x41.

Definition set_h_rar (v : double) (p : t) : t :=
  let 'mk x0 x1 x2 x3 x4 x5 x6 x7 x8 x9 x10 x11 x12 x13 x14 x15 x16 x17 x18
  x19 x20 x21 x22 x23 x24 x25 x26 x27 x28 x29 x30 x31 x32 x33 x34 x35 x36 x37
  x38 x39 x40 x41 := p in
  mk x0 x1 x2 x3 x4 x5 x6 x7 x8 x9 x10 x11 x12 x13 x14 x15 x16 x17 x18 x19 x20
  x21 x22 x23 x24 x25 x26 v x28 x29 x30 x31 x32 x33 x34 x35 x36 x37 x38 x39
  x40 x41.

Definition set_h_s (v : double) (p : t) : t :=
  let 'mk x0 x1 x2 x3 x4 x5 x6 x7 x8 x9 x10 x11 x12 x13 x14 x15 x16 x17 x18
  x19 x20 x21 x22 x23 x24 x25 x26 x27 x28 x29 x30 x31 x32 x33 x34 x35 x36 x37
  x38 x39 x40 x41 := p in
  mk x0 x1 x2 x3 x4 x5 x6 x7 x8 x9 x10 x11 x12 x13 x14 x15 x16 x17 x18 x19 x20
  x21 x22 x23 x24 x25 x26 x27 v x29 x30 x31 x32 x33 x34 x35 x36 x37 x38 x39
  x40 x41.

Definition set_I_uf (v : double) (p : t) : t :=
  let 'mk x0 x1 x2 x3 x4 x5 x6 x7 x8 x9 x10 x11 x12 x13 x14 x15 x16 x17 x18
  x19 x20 x21 x22 x23 x24 x25 x26 x27 x28 x29 x30 x31 x32 x33 x34 x35 x36 x37
  x38 x39 x40 x41 := p in
  mk x0 x1 x2 x3 x4 x5 x6 x7 x8 x9 x10 x11 x12 x13 x14 x15 x16 x17 x18 x19 x20
  x21 x22 x23 x24 x25 x26 x27 x28 v x30 x31 x32 x33 x34 x35 x36 x37 x38 x39
  x40 x41.

Definition set_I_ur (v : double) (p : t) : t :=
  let 'mk x0 x1 x2 x3 x4 x5 x6 x7 x8 x9 x10 x11 x12 x13 x14 x15 x16 x17 x18
  x19 x20 x21 x22 x23 x24 x25 x26 x27 x28 x29 x30 x31 x32 x33 x34 x35 x36 x37
  x38 x39 x40 x41 := p in
  mk x0 x1 x2 x3 x4 x5 x6 x7 x8 x9 x10 x11 x12 x13 x14 x15 x16 x17 x18 x19 x20
  x21 x22 x23 x24 x25 x26 x27 x28 x29 v x31 x32 x33 x34 x35 x36 x37 x38 x39
  x40 x41.

Definition set_I_y_w (v : double) (p : t) : t :=
  let 'mk x0 x1 x2 x3 x4 x5 x6 x7 x8 x9 x10 x11 x12 x13 x14 x15 x16 x17 x18
  x19 x20 x21 x22 x23 x24 x25 x26 x27 x28 x29 x30 x31 x32 x33 x34 x35 x36 x37
  x38 x39 x40 x41 := p in
  mk x0 x1 x2 x3 x4 x5 x6 x7 x8 x9 x10 x11 x12 x13 x14 x15 x16 x17 x18 x19 x20
  x21 x22 x23 x24 x25 x26 x27 x28 x29 x30 v x32 x33 x34 x35 x36 x37 x38 x39
  x40 x41.

Definition set_K_lt (v : double) (p : t) : t :=
  let 'mk x0 x1 x2 x3 x4 x5 x6 x7 x8 x9 x10 x11 x12 x13 x14 x15 x16 x17 x18
  x19 x20 x21 x22 x23 x24 x25 x26 x27 x28 x29 x30 x31 x32 x33 x34 x35 x36 x37
  x38 x39 x40 x41 := p in
  mk x0 x1 x2 x3 x4 x5 x6 x7 x8 x9 x10 x11 x12 x13 x14 x15 x16 x17 x18 x19 x20
  x21 x22 x23 x24 x25 x26 x27 x28 x29 x30 x31 v x33 x34 x35 x36 x37 x38 x39
  x40 x41.

Definition set_R_w (v : double) (p : t) : t :=
  let 'mk x0 x1 x2 x3 x4 x5 x6 x7 x8 x9 x10 x11 x12 x13 x14 x15 x16 x17 x18
  x19 x20 x21 x22 x23 x24 x25 x26 x27 x28 x29 x30 x31 x32 x33 x34 x35 x36 x37
  x38 x39 x40 x41 := p in
  mk x0 x1 x2 x3 x4 x5 x6 x7 x8 x9 x10 x11 x12 x13 x14 x15 x16 x17 x18 x19 x20
  x21 x22 x23 x24 x25 x26 x27 x28 x29 x30 x31 x32 v x34 x35 x36 x37 x38 x39
  x40 x41.

Definition set_T_sb (v : double) (p : t) : t :=
  let 'mk x0 x1 x2 x3 x4 x5 x6 x7 x8 x9 x10 x11 x12 x13 x14 x15 x16 x17 x18
  x19 x20 x21 x22 x23 x24 x25 x26 x27 x28 x29 x30 x31 x32 x33 x34 x35 x36 x37
  x38 x39 x40 x41 := p in
  mk x0 x1 x2 x3 x4 x5 x6 x7 x8 x9 x10 x11 x12 x13 x14 x15 x16 x17 x18 x19 x20
  x21 x22 x23 x24 x25 x26 x27 x28 x29 x30 x31 x32 x33 v x35 x36 x37 x38 x39
  x40 x41.

Definition set_T_se (v : double) (p : t) : t :=
  let 'mk x0 x1 x2 x3 x4 x5 x6 x7 x8 x9 x10 x11 x12 x13 x14 x15 x16 x17 x18
  x19 x20 x21 x22 x23 x24 x25 x26 x27 x28 x29 x30 x31 x32 x33 x34 x35 x36 x37
  x38 x39 x40 x41 := p in
  mk x0 x1 x2 x3 x4 x5 x6 x7 x8 x9 x10 x11 x12 x13 x14 x15 x16 x17 x18 x19 x20
  x21 x22 x23 x24 x25 x26 x27 x28 x29 x30 x31 x32 x33 x34 v x36 x37 x38 x39
  x40 x41.

Definition set_D_f (v : double) (p : t) : t :=
  let 'mk x0 x1 x2 x3 x4 x5 x6 x7 x8 x9 x10 x11 x12 x13 x14 x15 x16 x17 x18
  x19 x20 x21 x22 x23 x24 x25 x26 x27 x28 x29 x30 x31 x32 x33 x34 x35 x36 x37
  x38 x39 x40 x41 := p in
  mk x0 x1 x2 x3 x4 x5 x6 x7 x8 x9 x10 x11 x12 x13 x14 x15 x16 x17 x18 x19 x20
  x21 x22 x23 x24 x25 x26 x27 x28 x29 x30 x31 x32 x33 x34 x35 v x37 x38 x39
  x40 x41.

Definition set_D_r (v : double) (p : t) : t :=
  let 'mk x0 x1 x2 x3 x4 x5 x6 x7 x8 x9 x10 x11 x12 x13 x14 x15 x16 x17 x18
  x19 x20 x21 x22 x23 x24 x25 x26 x27 x28 x29 x30 x31 x32 x33 x34 x35 x36 x37
  x38 x39 x40 x41 := p in
  mk x0 x1 x2 x3 x4 x5 x6 x7 x8 x9 x10 x11 x12 x13 x14 x15 x16 x17 x18 x19 x20
  x21 x22 x23 x24 x25 x26 x27 x28 x29 x30 x31 x32 x33 x34 x35 x36 v x38 x39
  x40 x41.

Definition set_E_f (v : double) (p : t) : t :=
  let 'mk x0 x1 x2 x3 x4 x5 x6 x7 x8 x9 x10 x11 x12 x13 x14 x15 x16 x17 x18
  x19 x20 x21 x22 x23 x24 x25 x26 x27 x28 x29 x30 x31 x32 x33 x34 x35 x36 x37
  x38 x39 x40 x41 := p in
  mk x0 x1 x2 x3 x4 x5 x6 x7 x8 x9 x10 x11 x12 x13 x14 x15 x16 x17 x18 x19 x20
  x21 x22 x23 x24 x25 x26 x27 x28 x29 x30 x31 x32 x33 x34 x35 x36 x37 v x39
  x40 x41.

Definition set_E_r (v : double) (p : t) : t :=
  let 'mk x0 x1 x2 x3 x4 x5 x6 x7 x8 x9 x10 x11 x12 x13 x14 x15 x16 x17 x18
  x19 x20 x21 x22 x23 x24 x25 x26 x27 x28 x29 x30 x31 x32 x33 x34 x35 x36 x37
  x38 x39 x40 x41 := p in
  mk x0 x1 x2 x3 x4 x5 x6 x7 x8 x9 x10 x11 x12 x13 x14 x15 x16 x17 x18 x19 x20
  x21 x22 x23 x24 x25 x26 x27 x28 x29 x30 x31 x32 x33 x34 x35 x36 x37 x38 v
  x40 x41.

Definition set_tire (v : TireParameters.t) (p : t) : t :=
  let 'mk x0 x1 x2 x3 x4 x5 x6 x7 x8 x9 x10 x11 x12 x13 x14 x15 x16 x17 x18
  x19 x20 x21 x22 x23 x24 x25 x26 x27 x28 x29 x30 x31 x32 x33 x34 x35 x36 x37
  x38 x39 x40 x41 := p in
  mk x0 x1 x2 x3 x4 x5 x6 x7 x8 x9 x10 x11 x12 x13 x14 x15 x16 x17 x18 x19 x20
  x21 x22 x23 x24 x25 x26 x27 x28 x29 x30 x31 x32 x33 x34 x35 x36 x37 x38 x39
  v x41.

Definition set_trailer (v : TrailerParameters.t) (p : t) : t :=
  let 'mk x0 x1 x2 x3 x4 x5 x6 x7 x8 x9 x10 x11 x12 x13 x14 x15 x16 x17 x18
  x19 x20 x21 x22 x23 x24 x25 x26 x27 x28 x29 x30 x31 x32 x33 x34 x35 x36 x37
  x38 x39 x40 x41 := p in
  mk x0 x1 x2 x3 x4 x5 x6 x7 x8 x9 x10 x11 x12 x13 x14 x15 x16 x17 x18 x19 x20
  x21 x22 x23 x24 x25 x26 x27 x28 x29 x30 x31 x32 x33 x34 x35 x36 x37 x38 x39
  x40 v.

End VehicleParameters.
(** ** The field tables

    The keys each loader reads, in the order it reads them, with the field
    each key is stored in.  They are used to state properties of all
    fields at once; the loaders below are written out as the source has
    them. *)

Definition vehicle_fields : list (string * (double -> VehicleParameters.t -> VehicleParameters.t)) :=
  [("l", VehicleParameters.set_l); ("w", VehicleParameters.set_w); ("m",
   VehicleParameters.set_m); ("m_s", VehicleParameters.set_m_s); ("m_uf",
   VehicleParameters.set_m_uf); ("m_ur", VehicleParameters.set_m_ur); ("a",
   VehicleParameters.set_a); ("b", VehicleParameters.set_b); ("I_Phi_s",
   VehicleParameters.set_I_Phi_s); ("I_y_s", VehicleParameters.set_I_y_s);
   ("I_z", VehicleParameters.set_I_z); ("I_xz_s",
   VehicleParameters.set_I_xz_s); ("K_sf", VehicleParameters.set_K_sf);
   ("K_sdf", VehicleParameters.set_K_sdf); ("K_sr",
   VehicleParameters.set_K_sr); ("K_sdr", VehicleParameters.set_K_sdr);
   ("T_f", VehicleParameters.set_T_f); ("T_r", VehicleParameters.set_T_r);
   ("K_ras", VehicleParameters.set_K_ras); ("K_tsf",
   VehicleParameters.set_K_tsf); ("K_tsr", VehicleParameters.set_K_tsr);
   ("K_rad", VehicleParameters.set_K_rad); ("K_zt",
   VehicleParameters.set_K_zt); ("h_cg", VehicleParameters.set_h_cg);
   ("h_raf", VehicleParameters.set_h_raf); ("h_rar",
   VehicleParameters.set_h_rar); ("h_s", VehicleParameters.set_h_s); ("I_uf",
   VehicleParameters.set_I_uf); ("I_ur", VehicleParameters.set_I_ur);
   ("I_y_w", VehicleParameters.set_I_y_w); ("K_lt",
   VehicleParameters.set_K_lt); ("R_w", VehicleParameters.set_R_w); ("T_sb",
   VehicleParameters.set_T_sb); ("T_se", VehicleParameters.set_T_se); ("D_f",
   VehicleParameters.set_D_f); ("D_r", VehicleParameters.set_D_r); ("E_f",
   VehicleParameters.set_E_f); ("E_r", VehicleParameters.set_E_r)].

Definition steering_fields : list (string * (double -> SteeringParameters.t -> SteeringParameters.t)) :=
  [("min", SteeringParameters.set_min); ("max", SteeringParameters.set_max);
   ("v_min", SteeringParameters.set_v_min); ("v_max",
   SteeringParameters.set_v_max); ("kappa_dot_max",
   SteeringParameters.set_kappa_dot_max); ("kappa_dot_dot_max",
   SteeringParameters.set_kappa_dot_dot_max)].

Definition longitudinal_fields : list (string * (double -> LongitudinalParameters.t -> LongitudinalParameters.t)) :=
  [("v_min", LongitudinalParameters.set_v_min); ("v_max",
   LongitudinalParameters.set_v_max); ("v_switch",
   LongitudinalParameters.set_v_switch); ("a_max",
   LongitudinalParameters.set_a_max); ("j_max",
   LongitudinalParameters.set_j_max); ("j_dot_max",
   LongitudinalParameters.set_j_dot_max)].

Definition trailer_fields : list (string * (double -> TrailerParameters.t -> TrailerParameters.t)) :=
  [("l", TrailerParameters.set_l); ("w", TrailerParameters.set_w); ("l_hitch",
   TrailerParameters.set_l_hitch); ("l_total", TrailerParameters.set_l_total);
   ("l_wb", TrailerParameters.set_l_wb)].

Definition tire_fields : list (string * (double -> TireParameters.t -> TireParameters.t)) :=
  [("p_cx1", TireParameters.set_p_cx1); ("p_dx1", TireParameters.set_p_dx1);
   ("p_dx3", TireParameters.set_p_dx3); ("p_ex1", TireParameters.set_p_ex1);
   ("p_kx1", TireParameters.set_p_kx1); ("p_hx1", TireParameters.set_p_hx1);
   ("p_vx1", TireParameters.set_p_vx1); ("r_bx1", TireParameters.set_r_bx1);
   ("r_bx2", TireParameters.set_r_bx2); ("r_cx1", TireParameters.set_r_cx1);
   ("r_ex1", TireParameters.set_r_ex1); ("r_hx1", TireParameters.set_r_hx1);
   ("p_cy1", TireParameters.set_p_cy1); ("p_dy1", TireParameters.set_p_dy1);
   ("p_dy3", TireParameters.set_p_dy3); ("p_ey1", TireParameters.set_p_ey1);
   ("p_ky1", TireParameters.set_p_ky1); ("p_hy1", TireParameters.set_p_hy1);
   ("p_hy3", TireParameters.set_p_hy3); ("p_vy1", TireParameters.set_p_vy1);
   ("p_vy3", TireParameters.set_p_vy3); ("r_by1", TireParameters.set_r_by1);
   ("r_by2", TireParameters.set_r_by2); ("r_by3", TireParameters.set_r_by3);
   ("r_cy1", TireParameters.set_r_cy1); ("r_ey1", TireParameters.set_r_ey1);
   ("r_hy1", TireParameters.set_r_hy1); ("r_vy1", TireParameters.set_r_vy1);
   ("r_vy3", TireParameters.set_r_vy3); ("r_vy4", TireParameters.set_r_vy4);
   ("r_vy5", TireParameters.set_r_vy5); ("r_vy6", TireParameters.set_r_vy6)].
(** ** The fields as lenses

    The same tables with, for each key, the projection that reads the
    field the key is stored in. *)

Definition vehicle_lenses : list (string * (double -> VehicleParameters.t -> VehicleParameters.t) * (VehicleParameters.t -> double)) :=
  [("l", VehicleParameters.set_l, VehicleParameters.l); ("w",
   VehicleParameters.set_w, VehicleParameters.w); ("m",
   VehicleParameters.set_m, VehicleParameters.m); ("m_s",
   VehicleParameters.set_m_s, VehicleParameters.m_s); ("m_uf",
   VehicleParameters.set_m_uf, VehicleParameters.m_uf); ("m_ur",
   VehicleParameters.set_m_ur, VehicleParameters.m_ur); ("a",
   VehicleParameters.set_a, VehicleParameters.a); ("b",
   VehicleParameters.set_b, VehicleParameters.b); ("I_Phi_s",
   VehicleParameters.set_I_Phi_s, VehicleParameters.I_Phi_s); ("I_y_s",
   VehicleParameters.set_I_y_s, VehicleParameters.I_y_s); ("I_z",
   VehicleParameters.set_I_z, VehicleParameters.I_z); ("I_xz_s",
   VehicleParameters.set_I_xz_s, VehicleParameters.I_xz_s); ("K_sf",
   VehicleParameters.set_K_sf, VehicleParameters.K_sf); ("K_sdf",
   VehicleParameters.set_K_sdf, VehicleParameters.K_sdf); ("K_sr",
   VehicleParameters.set_K_sr, VehicleParameters.K_sr); ("K_sdr",
   VehicleParameters.set_K_sdr, VehicleParameters.K_sdr); ("T_f",
   VehicleParameters.set_T_f, VehicleParameters.T_f); ("T_r",
   VehicleParameters.set_T_r, VehicleParameters.T_r); ("K_ras",
   VehicleParameters.set_K_ras, VehicleParameters.K_ras); ("K_tsf",
   VehicleParameters.set_K_tsf, VehicleParameters.K_tsf); ("K_tsr",
   VehicleParameters.set_K_tsr, VehicleParameters.K_tsr); ("K_rad",
   VehicleParameters.set_K_rad, VehicleParameters.K_rad); ("K_zt",
   VehicleParameters.set_K_zt, VehicleParameters.K_zt); ("h_cg",
   VehicleParameters.set_h_cg, VehicleParameters.h_cg); ("h_raf",
   VehicleParameters.set_h_raf, VehicleParameters.h_raf); ("h_rar",
   VehicleParameters.set_h_rar, VehicleParameters.h_rar); ("h_s",
   VehicleParameters.set_h_s, VehicleParameters.h_s); ("I_uf",
   VehicleParameters.set_I_uf, VehicleParameters.I_uf); ("I_ur",
   VehicleParameters.set_I_ur, VehicleParameters.I_ur); ("I_y_w",
   VehicleParameters.set_I_y_w, VehicleParameters.I_y_w); ("K_lt",
   VehicleParameters.set_K_lt, VehicleParameters.K_lt); ("R_w",
   VehicleParameters.set_R_w, VehicleParameters.R_w); ("T_sb",
   VehicleParameters.set_T_sb, VehicleParameters.T_sb); ("T_se",
   VehicleParameters.set_T_se, VehicleParameters.T_se); ("D_f",
   VehicleParameters.set_D_f, VehicleParameters.D_f); ("D_r",
   VehicleParameters.set_D_r, VehicleParameters.D_r); ("E_f",
   VehicleParameters.set_E_f, VehicleParameters.E_f); ("E_r",
   VehicleParameters.set_E_r, VehicleParameters.E_r)].

Definition steering_lenses : list (string * (double -> SteeringParameters.t -> SteeringParameters.t) * (SteeringParameters.t -> double)) :=
  [("min", SteeringParameters.set_min, SteeringParameters.min); ("max",
   SteeringParameters.set_max, SteeringParameters.max); ("v_min",
   SteeringParameters.set_v_min, SteeringParameters.v_min); ("v_max",
   SteeringParameters.set_v_max, SteeringParameters.v_max); ("kappa_dot_max",
   SteeringParameters.set_kappa_dot_max, SteeringParameters.kappa_dot_max);
   ("kappa_dot_dot_max", SteeringParameters.set_kappa_dot_dot_max,
   SteeringParameters.kappa_dot_dot_max)].

Definition longitudinal_lenses : list (string * (double -> LongitudinalParameters.t -> LongitudinalParameters.t) * (LongitudinalParameters.t -> double)) :=
  [("v_min", LongitudinalParameters.set_v_min, LongitudinalParameters.v_min);
   ("v_max", LongitudinalParameters.set_v_max, LongitudinalParameters.v_max);
   ("v_switch", LongitudinalParameters.set_v_switch,
   LongitudinalParameters.v_switch); ("a_max",
   LongitudinalParameters.set_a_max, LongitudinalParameters.a_max); ("j_max",
   LongitudinalParameters.set_j_max, LongitudinalParameters.j_max);
   ("j_dot_max", LongitudinalParameters.set_j_dot_max,
   LongitudinalParameters.j_dot_max)].

Definition trailer_lenses : list (string * (double -> TrailerParameters.t -> TrailerParameters.t) * (TrailerParameters.t -> double)) :=
  [("l", TrailerParameters.set_l, TrailerParameters.l); ("w",
   TrailerParameters.set_w, TrailerParameters.w); ("l_hitch",
   TrailerParameters.set_l_hitch, TrailerParameters.l_hitch); ("l_total",
   TrailerParameters.set_l_total, TrailerParameters.l_total); ("l_wb",
   TrailerParameters.set_l_wb, TrailerParameters.l_wb)].

Definition tire_lenses : list (string * (double -> TireParameters.t -> TireParameters.t) * (TireParameters.t -> double)) :=
  [("p_cx1", TireParameters.set_p_cx1, TireParameters.p_cx1); ("p_dx1",
   TireParameters.set_p_dx1, TireParameters.p_dx1); ("p_dx3",
   TireParameters.set_p_dx3, TireParameters.p_dx3); ("p_ex1",
   TireParameters.set_p_ex1, TireParameters.p_ex1); ("p_kx1",
   TireParameters.set_p_kx1, TireParameters.p_kx1); ("p_hx1",
   TireParameters.set_p_hx1, TireParameters.p_hx1); ("p_vx1",
   TireParameters.set_p_vx1, TireParameters.p_vx1); ("r_bx1",
   TireParameters.set_r_bx1, TireParameters.r_bx1); ("r_bx2",
   TireParameters.set_r_bx2, TireParameters.r_bx2); ("r_cx1",
   TireParameters.set_r_cx1, TireParameters.r_cx1); ("r_ex1",
   TireParameters.set_r_ex1, TireParameters.r_ex1); ("r_hx1",
   TireParameters.set_r_hx1, TireParameters.r_hx1); ("p_cy1",
   TireParameters.set_p_cy1, TireParameters.p_cy1); ("p_dy1",
   TireParameters.set_p_dy1, TireParameters.p_dy1); ("p_dy3",
   TireParameters.set_p_dy3, TireParameters.p_dy3); ("p_ey1",
   TireParameters.set_p_ey1, TireParameters.p_ey1); ("p_ky1",
   TireParameters.set_p_ky1, TireParameters.p_ky1); ("p_hy1",
   TireParameters.set_p_hy1, TireParameters.p_hy1); ("p_hy3",
   TireParameters.set_p_hy3, TireParameters.p_hy3); ("p_vy1",
   TireParameters.set_p_vy1, TireParameters.p_vy1); ("p_vy3",
   TireParameters.set_p_vy3, TireParameters.p_vy3); ("r_by1",
   TireParameters.set_r_by1, TireParameters.r_by1); ("r_by2",
   TireParameters.set_r_by2, TireParameters.r_by2); ("r_by3",
   TireParameters.set_r_by3, TireParameters.r_by3); ("r_cy1",
   TireParameters.set_r_cy1, TireParameters.r_cy1); ("r_ey1",
   TireParameters.set_r_ey1, TireParameters.r_ey1); ("r_hy1",
   TireParameters.set_r_hy1, TireParameters.r_hy1); ("r_vy1",
   TireParameters.set_r_vy1, TireParameters.r_vy1); ("r_vy3",
   TireParameters.set_r_vy3, TireParameters.r_vy3); ("r_vy4",
   TireParameters.set_r_vy4, TireParameters.r_vy4); ("r_vy5",
   TireParameters.set_r_vy5, TireParameters.r_vy5); ("r_vy6",
   TireParameters.set_r_vy6, TireParameters.r_vy6)].

(** A table of lenses is well formed when each projection reads what its
    own setter wrote and is blind to every other setter of the table. *)
Fixpoint lenses_wf {T : Type}
    (ls : list (string * (double -> T -> T) * (T -> double))) : Prop :=
  match ls with
  | [] => True
  | l :: rest =>
      (forall v x, snd l (snd (fst l) v x) = v) /\
      Forall (fun l' =>
                (forall v x, snd l' (snd (fst l) v x) = snd l' x) /\
                (forall v x, snd l (snd (fst l') v x) = snd l x)) rest /\
      lenses_wf rest
  end.

(** The key and setter of each lens: the loader's table. *)
Definition setters {T : Type}
    (ls : list (string * (double -> T -> T) * (T -> double)))
    : list (string * (double -> T -> T)) :=
  List.map fst ls.
(** ** Documents written without positions

    [Doc.map_of [(k1, v1); ...]] is the document [{k1: v1, ...}] and
    [Doc.scalar text] the scalar [text], every node carrying the same
    mark. *)

Module Doc.
Import YAML.

Definition nowhere : Mark := mkMark 0 0 0.
Definition scalar (text : string) : Tree := Scalar nowhere text.
Definition map_of (entries : list (string * Tree)) : Tree :=
  Map nowhere (List.map (fun e => (scalar (fst e), snd e)) entries).

End Doc.

(** ** Data for the closed examples *)

Module Sample.
Import YAML.

(** A few doubles, as sign, 53-bit mantissa and exponent. *)
Definition one : double := S754_finite false 4503599627370496 (-52).
Definition one_and_a_half : double := S754_finite false 6755399441055744 (-52).
Definition two : double := S754_finite false 4503599627370496 (-51).

(** A conversion that knows the texts the examples use. *)
Definition decode (text : string) : option double :=
  if String.eqb text "0" then Some zero
  else if String.eqb text "1" then Some one
  else if String.eqb text "1.5" then Some one_and_a_half
  else if String.eqb text "2" then Some two
  else None.

(** The two documents of vehicle 1 under the default root. *)
Definition vehicle1 : fs.path := "parameters/vehicle/parameters_vehicle1.yaml".
Definition tire : fs.path := "parameters/tire/parameters_tire.yaml".

Definition files (dv dt : Tree) : fs.FileSystem :=
  fun p =>
    if String.eqb p vehicle1 then Some (Return dv)
    else if String.eqb p tire then Some (Return dt)
    else None.

(** Vehicle and tire documents. *)
Definition no_field : Tree := Doc.map_of [].
Definition no_tire_field : Tree := Doc.map_of [("tire", Doc.map_of [])].
Definition flat_tire : Tree := Doc.map_of [("p_cx1", Doc.scalar "1.5")].
Definition nested_tire : Tree := Doc.map_of [("tire", flat_tire)].
Definition nested_and_flat_tire : Tree :=
  Doc.map_of [("p_cx1", Doc.scalar "2");
              ("tire", Doc.map_of [("p_cx1", Doc.scalar "1")])].
Definition scalar_tire_entry : Tree :=
  Doc.map_of [("tire", Doc.scalar "1"); ("p_cx1", Doc.scalar "1.5")].
Definition vehicle_with_tire_entries : Tree :=
  Doc.map_of [("tire", Doc.map_of [("p_cx1", Doc.scalar "2")]);
              ("p_cx1", Doc.scalar "2")].
Definition tire_one : Tree :=
  Doc.map_of [("tire", Doc.map_of [("p_cx1", Doc.scalar "1")])].
Definition vehicle_steering (text : string) : Tree :=
  Doc.map_of [("m", Doc.scalar "1");
              ("steering", Doc.map_of [("max", Doc.scalar text)])].
Definition vehicle_scalar_steering : Tree :=
  Doc.map_of [("m", Doc.scalar "1"); ("steering", Doc.scalar "2")].
Definition vehicle_bad_mass : Tree :=
  Map (mkMark 0 0 0)
    [(Scalar (mkMark 0 0 0) "m", Scalar (mkMark 3 0 3) "heavy")].

Definition no_files : fs.FileSystem := fun _ => None.
Definition only_vehicle (dv : Tree) : fs.FileSystem :=
  fun p => if String.eqb p vehicle1 then Some (Return dv) else None.

(** Status queries: none fails, or every one fails on the length of the
    name. *)
Definition no_failure : fs.path -> option string := fun _ => None.
Definition name_too_long : fs.path -> option string :=
  fun _ => Some "File name too long".


(** More documents and file systems. *)
Definition null_document : Tree := Null Doc.nowhere.
Definition vehicle_two_fields : Tree :=
  Doc.map_of [("m", Doc.scalar "1"); ("a", Doc.scalar "2")].
Definition vehicle_two_fields_reordered : Tree :=
  Doc.map_of [("a", Doc.scalar "2"); ("note", Doc.scalar "spare");
              ("m", Doc.scalar "1"); ("m", Doc.scalar "heavy")].
Definition tire_with_siblings : Tree :=
  Doc.map_of [("p_cx1", Doc.scalar "heavy"); ("tire", flat_tire)].

Definition syntax_error : Exception :=
  ParserException (mkMark 7 1 2) "end of map not found".

Definition malformed_vehicle (dt : Tree) : fs.FileSystem :=
  fun p =>
    if String.eqb p vehicle1 then Some (Throw syntax_error)
    else if String.eqb p tire then Some (Return dt)
    else None.

Definition malformed_tire (dv : Tree) : fs.FileSystem :=
  fun p =>
    if String.eqb p vehicle1 then Some (Return dv)
    else if String.eqb p tire then Some (Throw syntax_error)
    else None.

(** The documents of vehicle 3 under another root. *)
Definition elsewhere (dv dt : Tree) : fs.FileSystem :=
  fun p =>
    if String.eqb p "cfg/vehicle/parameters_vehicle3.yaml" then Some (Return dv)
    else if String.eqb p "cfg/tire/parameters_tire.yaml" then Some (Return dt)
    else None.

(** A file system in which every other path exists as well. *)
Definition crowded (dv dt : Tree) : fs.FileSystem :=
  fun p =>
    if String.eqb p vehicle1 then Some (Return dv)
    else if String.eqb p tire then Some (Return dt)
    else Some (Return null_document).

End Sample.

(** ** The resolver *)

(** The file system accesses a call performs, in order. *)
Inductive Event : Type :=
| EvExists (p : fs.path)
| EvLoadFile (p : fs.path).

(** A call that accesses the file system: its outcome and its accesses. *)
Definition IO (A : Type) : Type := fs.FileSystem -> Result A * list Event.

Definition io_bind {A B : Type} (c : IO A) (k : A -> IO B) : IO B :=
  fun files =>
    match c files with
    | (Return a, t1) => let (r, t2) := k a files in (r, (t1 ++ t2)%list)
    | (Throw e, t1) => (Throw e, t1)
    end.

Definition io_lift {A : Type} (r : Result A) : IO A := fun _ => (r, []).

Notation "x <~ c ;; k" := (io_bind c (fun x => k))
  (at level 61, c at next level, right associativity).

(** [fs::exists].  It queries the status of the path: it is true when a
    file is found, false when the operating system reports that there is
    none (ENOENT, ENOTDIR), and it throws [filesystem_error] when the
    query fails in any other way (a name that is too long, a loop of
    symbolic links, a directory that may not be searched).  [failure]
    gives, for a path at which no file is found, the message of such a
    failure if there is one. *)
Definition fs_exists (failure : fs.path -> option string) (p : fs.path)
    : IO bool :=
  fun files =>
    (match files p with
     | Some _ => Return true
     | None =>
         match failure p with
         | Some message => Throw (filesystem_error message p)
         | None => Return false
         end
     end,
     [EvExists p]).

(** [YAML::LoadFile]: the parsed document, or the parser's exception;
    [BadFile] when the file cannot be opened. *)
Definition LoadFile (p : fs.path) : IO YAML.Node :=
  fun files =>
    (match files p with
     | Some (Return t) => Return (YAML.Handle t)
     | Some (Throw e) => Throw e
     | None => Throw (BadFile p)
     end,
     [EvLoadFile p]).

(** The macro [VELOX_PARAM_ROOT] as the source defines it when the build
    does not. *)
Definition VELOX_PARAM_ROOT : string := "parameters".

Definition empty (s : string) : bool :=
  match s with
  | EmptyString => true
  | _ => false
  end.

Section Resolver.

Import YAML YAMLOps.

(** The conversion of a scalar's text to a double ([YAMLOps.as_double]). *)
Variable decode : string -> option double.

(** The status queries that fail ([fs_exists]). *)
Variable stat_failure : fs.path -> option string.

(** [assign_if_present(node, key, target)]: the reference [target] is
    the field that [set] writes. *)
Definition assign_if_present {T : Type} (node : Node) (key : string)
    (set : double -> T -> T) (target : T) : Result T :=
  c <- index node key;;
  if IsDefined c then
    x <- index node key;;
    v <- as_double decode x;;
    Return (set v target)
  else Return target.

(** The test [!n || !n.IsMap()]; [IsMap] is not evaluated when [!n]
    holds. *)
Definition undefined_or_not_map (n : Node) : Result bool :=
  if negb (IsDefined n) then Return true
  else b <- IsMap n;; Return (negb b).

(** [load_steering]: the nested steering parameters, from [root["steering"]] when that is a map. *)
Definition load_steering (root : Node) (s : SteeringParameters.t) : Result SteeringParameters.t :=
  n <- index root "steering";;
  c <- undefined_or_not_map n;;
  if c then Return s else
  s <- assign_if_present n "min" SteeringParameters.set_min s;;
  s <- assign_if_present n "max" SteeringParameters.set_max s;;
  s <- assign_if_present n "v_min" SteeringParameters.set_v_min s;;
  s <- assign_if_present n "v_max" SteeringParameters.set_v_max s;;
  s <- assign_if_present n "kappa_dot_max" SteeringParameters.set_kappa_dot_max s;;
  s <- assign_if_present n "kappa_dot_dot_max" SteeringParameters.set_kappa_dot_dot_max s;;
  Return s.

(** [load_longitudinal]: the nested longitudinal parameters, from [root["longitudinal"]] when that is a map. *)
Definition load_longitudinal (root : Node) (lp : LongitudinalParameters.t) : Result LongitudinalParameters.t :=
  n <- index root "longitudinal";;
  c <- undefined_or_not_map n;;
  if c then Return lp else
  lp <- assign_if_present n "v_min" LongitudinalParameters.set_v_min lp;;
  lp <- assign_if_present n "v_max" LongitudinalParameters.set_v_max lp;;
  lp <- assign_if_present n "v_switch" LongitudinalParameters.set_v_switch lp;;
  lp <- assign_if_present n "a_max" LongitudinalParameters.set_a_max lp;;
  lp <- assign_if_present n "j_max" LongitudinalParameters.set_j_max lp;;
  lp <- assign_if_present n "j_dot_max" LongitudinalParameters.set_j_dot_max lp;;
  Return lp.

(** [load_trailer]: the nested trailer parameters, from [root["trailer"]] when that is a map. *)
Definition load_trailer (root : Node) (tr : TrailerParameters.t) : Result TrailerParameters.t :=
  n <- index root "trailer";;
  c <- undefined_or_not_map n;;
  if c then Return tr else
  tr <- assign_if_present n "l" TrailerParameters.set_l tr;;
  tr <- assign_if_present n "w" TrailerParameters.set_w tr;;
  tr <- assign_if_present n "l_hitch" TrailerParameters.set_l_hitch tr;;
  tr <- assign_if_present n "l_total" TrailerParameters.set_l_total tr;;
  tr <- assign_if_present n "l_wb" TrailerParameters.set_l_wb tr;;
  Return tr.

(** [load_tire]: the tire coefficients, from [root["tire"]] when that
    is a map and from [root] itself otherwise.  The fallback is the
    assignment [n = root]. *)
Definition load_tire (root : Node) (tp : TireParameters.t) : Result TireParameters.t :=
  n <- index root "tire";;
  c <- undefined_or_not_map n;;
  n <- (if c then assign n root else Return n);;
  c <- undefined_or_not_map n;;
  if c then Return tp else
  tp <- assign_if_present n "p_cx1" TireParameters.set_p_cx1 tp;;
  tp <- assign_if_present n "p_dx1" TireParameters.set_p_dx1 tp;;
  tp <- assign_if_present n "p_dx3" TireParameters.set_p_dx3 tp;;
  tp <- assign_if_present n "p_ex1" TireParameters.set_p_ex1 tp;;
  tp <- assign_if_present n "p_kx1" TireParameters.set_p_kx1 tp;;
  tp <- assign_if_present n "p_hx1" TireParameters.set_p_hx1 tp;;
  tp <- assign_if_present n "p_vx1" TireParameters.set_p_vx1 tp;;
  tp <- assign_if_present n "r_bx1" TireParameters.set_r_bx1 tp;;
  tp <- assign_if_present n "r_bx2" TireParameters.set_r_bx2 tp;;
  tp <- assign_if_present n "r_cx1" TireParameters.set_r_cx1 tp;;
  tp <- assign_if_present n "r_ex1" TireParameters.set_r_ex1 tp;;
  tp <- assign_if_present n "r_hx1" TireParameters.set_r_hx1 tp;;
  tp <- assign_if_present n "p_cy1" TireParameters.set_p_cy1 tp;;
  tp <- assign_if_present n "p_dy1" TireParameters.set_p_dy1 tp;;
  tp <- assign_if_present n "p_dy3" TireParameters.set_p_dy3 tp;;
  tp <- assign_if_present n "p_ey1" TireParameters.set_p_ey1 tp;;
  tp <- assign_if_present n "p_ky1" TireParameters.set_p_ky1 tp;;
  tp <- assign_if_present n "p_hy1" TireParameters.set_p_hy1 tp;;
  tp <- assign_if_present n "p_hy3" TireParameters.set_p_hy3 tp;;
  tp <- assign_if_present n "p_vy1" TireParameters.set_p_vy1 tp;;
  tp <- assign_if_present n "p_vy3" TireParameters.set_p_vy3 tp;;
  tp <- assign_if_present n "r_by1" TireParameters.set_r_by1 tp;;
  tp <- assign_if_present n "r_by2" TireParameters.set_r_by2 tp;;
  tp <- assign_if_present n "r_by3" TireParameters.set_r_by3 tp;;
  tp <- assign_if_present n "r_cy1" TireParameters.set_r_cy1 tp;;
  tp <- assign_if_present n "r_ey1" TireParameters.set_r_ey1 tp;;
  tp <- assign_if_present n "r_hy1" TireParameters.set_r_hy1 tp;;
  tp <- assign_if_present n "r_vy1" TireParameters.set_r_vy1 tp;;
  tp <- assign_if_present n "r_vy3" TireParameters.set_r_vy3 tp;;
  tp <- assign_if_present n "r_vy4" TireParameters.set_r_vy4 tp;;
  tp <- assign_if_present n "r_vy5" TireParameters.set_r_vy5 tp;;
  tp <- assign_if_present n "r_vy6" TireParameters.set_r_vy6 tp;;
  Return tp.

(** [load_vehicle_scalars]: the plain fields of the vehicle document. *)
Definition load_vehicle_scalars (n : Node) (p : VehicleParameters.t) : Result VehicleParameters.t :=
  p <- assign_if_present n "l" VehicleParameters.set_l p;;
  p <- assign_if_present n "w" VehicleParameters.set_w p;;
  p <- assign_if_present n "m" VehicleParameters.set_m p;;
  p <- assign_if_present n "m_s" VehicleParameters.set_m_s p;;
  p <- assign_if_present n "m_uf" VehicleParameters.set_m_uf p;;
  p <- assign_if_present n "m_ur" VehicleParameters.set_m_ur p;;
  p <- assign_if_present n "a" VehicleParameters.set_a p;;
  p <- assign_if_present n "b" VehicleParameters.set_b p;;
  p <- assign_if_present n "I_Phi_s" VehicleParameters.set_I_Phi_s p;;
  p <- assign_if_present n "I_y_s" VehicleParameters.set_I_y_s p;;
  p <- assign_if_present n "I_z" VehicleParameters.set_I_z p;;
  p <- assign_if_present n "I_xz_s" VehicleParameters.set_I_xz_s p;;
  p <- assign_if_present n "K_sf" VehicleParameters.set_K_sf p;;
  p <- assign_if_present n "K_sdf" VehicleParameters.set_K_sdf p;;
  p <- assign_if_present n "K_sr" VehicleParameters.set_K_sr p;;
  p <- assign_if_present n "K_sdr" VehicleParameters.set_K_sdr p;;
  p <- assign_if_present n "T_f" VehicleParameters.set_T_f p;;
  p <- assign_if_present n "T_r" VehicleParameters.set_T_r p;;
  p <- assign_if_present n "K_ras" VehicleParameters.set_K_ras p;;
  p <- assign_if_present n "K_tsf" VehicleParameters.set_K_tsf p;;
  p <- assign_if_present n "K_tsr" VehicleParameters.set_K_tsr p;;
  p <- assign_if_present n "K_rad" VehicleParameters.set_K_rad p;;
  p <- assign_if_present n "K_zt" VehicleParameters.set_K_zt p;;
  p <- assign_if_present n "h_cg" VehicleParameters.set_h_cg p;;
  p <- assign_if_present n "h_raf" VehicleParameters.set_h_raf p;;
  p <- assign_if_present n "h_rar" VehicleParameters.set_h_rar p;;
  p <- assign_if_present n "h_s" VehicleParameters.set_h_s p;;
  p <- assign_if_present n "I_uf" VehicleParameters.set_I_uf p;;
  p <- assign_if_present n "I_ur" VehicleParameters.set_I_ur p;;
  p <- assign_if_present n "I_y_w" VehicleParameters.set_I_y_w p;;
  p <- assign_if_present n "K_lt" VehicleParameters.set_K_lt p;;
  p <- assign_if_present n "R_w" VehicleParameters.set_R_w p;;
  p <- assign_if_present n "T_sb" VehicleParameters.set_T_sb p;;
  p <- assign_if_present n "T_se" VehicleParameters.set_T_se p;;
  p <- assign_if_present n "D_f" VehicleParameters.set_D_f p;;
  p <- assign_if_present n "D_r" VehicleParameters.set_D_r p;;
  p <- assign_if_present n "E_f" VehicleParameters.set_E_f p;;
  p <- assign_if_present n "E_r" VehicleParameters.set_E_r p;;
  Return p.
(** The body of [setup_vehicle_parameters] once both documents are
    loaded: a fresh structure is filled from the vehicle document, then
    from the tire document. *)
Definition populate (conf_vehicle conf_tire : Node) : Result VehicleParameters.t :=
  let p := VehicleParameters.default in
  p <- load_vehicle_scalars conf_vehicle p;;
  s <- load_steering conf_vehicle (VehicleParameters.steering p);;
  let p := VehicleParameters.set_steering s p in
  lp <- load_longitudinal conf_vehicle (VehicleParameters.longitudinal p);;
  let p := VehicleParameters.set_longitudinal lp p in
  tr <- load_trailer conf_vehicle (VehicleParameters.trailer p);;
  let p := VehicleParameters.set_trailer tr p in
  tp <- load_tire conf_tire (VehicleParameters.tire p);;
  let p := VehicleParameters.set_tire tp p in
  Return p.

(** The parameter root and the two document paths. *)
Definition param_root (dir_params : string) : fs.path :=
  if empty dir_params then VELOX_PARAM_ROOT else dir_params.

Definition vehicle_yaml (vehicle_id : Z) (dir_params : string) : fs.path :=
  param_root dir_params / "vehicle" /
    ("parameters_vehicle" ++ to_string vehicle_id ++ ".yaml").

Definition tire_yaml (dir_params : string) : fs.path :=
  param_root dir_params / "tire" / "parameters_tire.yaml".

Definition setup_vehicle_parameters (vehicle_id : Z) (dir_params : string)
    : IO VehicleParameters.t :=
  let vehicle_yaml := vehicle_yaml vehicle_id dir_params in
  let tire_yaml := tire_yaml dir_params in
  found <~ fs_exists stat_failure vehicle_yaml;;
  if negb found then
    io_lift (Throw (runtime_error
                      ("Vehicle parameter file not found: " ++ vehicle_yaml)))
  else
  found <~ fs_exists stat_failure tire_yaml;;
  if negb found then
    io_lift (Throw (runtime_error
                      ("Tire parameter file not found: " ++ tire_yaml)))
  else
  conf_vehicle <~ LoadFile vehicle_yaml;;
  conf_tire <~ LoadFile tire_yaml;;
  io_lift (populate conf_vehicle conf_tire).

(** The field tables of the five loaders: the keys each one reads, in the
    order it reads them, with the field each key is stored in. *)
Fixpoint assign_fields {T : Type} (n : Node)
    (fields : list (string * (double -> T -> T))) (target : T) : Result T :=
  match fields with
  | [] => Return target
  | (key, set) :: rest =>
      target <- assign_if_present n key set target;;
      assign_fields n rest target
  end.

(** A decimal numeral is padded when a zero precedes another digit. *)
Definition zero_padded (s : string) : bool :=
  match s with
  | String "0" (String _ _) => true
  | String "-" (String "0" (String _ _)) => true
  | _ => false
  end.

(** The node types of a tree ([Node::IsScalar], [Node::IsMap]). *)
Definition is_scalar (t : Tree) : bool :=
  match t with
  | Scalar _ _ => true
  | _ => false
  end.

Definition is_map (t : Tree) : bool :=
  match t with
  | Map _ _ => true
  | _ => false
  end.

(** The double a tree converts to, if any: what [as<double>] returns on
    a handle to it. *)
Definition converted (x : Tree) : option double :=
  match x with
  | Scalar _ text => decode text
  | _ => None
  end.

Definition unconvertible (x : Tree) : bool :=
  match converted x with
  | Some _ => false
  | None => true
  end.

(** The values the keys of a table find in a tree, in table order. *)
Fixpoint read_values {T : Type} (fields : list (string * (double -> T -> T)))
    (t : Tree) : list Tree :=
  match fields with
  | [] => []
  | f :: rest =>
      match find_key t (fst f) with
      | Some x => x :: read_values rest t
      | None => read_values rest t
      end
  end.

(** Fields that are not assigned keep their value: [proj] is any part of
    the structure that no setter of the table touches. *)
Definition untouched {T X : Type} (proj : T -> X)
    (fields : list (string * (double -> T -> T))) : Prop :=
  Forall (fun f => forall v target, proj (snd f v target) = proj target) fields.

(** The structure with its four groups replaced. *)
Definition with_groups (s : SteeringParameters.t) (lp : LongitudinalParameters.t)
    (tr : TrailerParameters.t) (tp : TireParameters.t)
    (p : VehicleParameters.t) : VehicleParameters.t :=
  VehicleParameters.set_tire tp
    (VehicleParameters.set_trailer tr
       (VehicleParameters.set_longitudinal lp
          (VehicleParameters.set_steering s p))).

(** A key under which a tree holds no map: the key is absent, or its
    value is not a map. *)
Definition no_map_under (t : Tree) (key : string) : bool :=
  match find_key t key with
  | Some (Map _ _) => false
  | _ => true
  end.

(** Two trees that find the same thing under every key but one. *)
Definition same_except (key : string) (d d' : Tree) : Prop :=
  forall k, k <> key -> find_key d k = find_key d' k.

(** The values a call converts, in the order it converts them: the
    top-level scalars of the vehicle document, the fields of each of its
    groups that is a map, and the tire fields, taken from the map under
    ["tire"] or, when the tire document holds something else under that
    key, from its top level.  A tire document without a ["tire"] entry is
    turned down before any of its fields is read, and so is a vehicle
    document that is a bare scalar, before the tire document is looked
    at. *)
Definition group_values {T : Type} (fields : list (string * (double -> T -> T)))
    (dv : Tree) (group : string) : list Tree :=
  match find_key dv group with
  | Some (Map mk entries) => read_values fields (Map mk entries)
  | _ => []
  end.

Definition tire_values (dt : Tree) : list Tree :=
  match find_key dt "tire" with
  | Some (Map mk entries) => read_values tire_fields (Map mk entries)
  | Some _ => read_values tire_fields dt
  | None => []
  end.

Definition present_values (dv dt : Tree) : list Tree :=
  (read_values vehicle_fields dv
   ++ group_values steering_fields dv "steering"
   ++ group_values longitudinal_fields dv "longitudinal"
   ++ group_values trailer_fields dv "trailer"
   ++ (if is_scalar dv then [] else tire_values dt))%list.

Definition is_bad_conversion (e : Exception) : bool :=
  match e with
  | TypedBadConversion _ => true
  | _ => false
  end.

(** What a stage of the population does, given the values it converts:
    it throws the conversion error of the first value that does not
    convert; when every value converts it returns ([converting]), or
    possibly throws something else ([stage_outcome]). *)
Definition converting {A : Type} (c : Result A) (values : list Tree) : Prop :=
  match List.find unconvertible values with
  | Some x => c = Throw (TypedBadConversion (mark x))
  | None => exists a, c = Return a
  end.

Definition stage_outcome {A : Type} (c : Result A) (values : list Tree) : Prop :=
  match List.find unconvertible values with
  | Some x => c = Throw (TypedBadConversion (mark x))
  | None =>
      match c with
      | Return _ => True
      | Throw e => is_bad_conversion e = false
      end
  end.

(** ** The four vehicles

    [parameters_vehicle1] to [parameters_vehicle4]
    ([vehicle/parameters_vehicleN.hpp]): the resolver at a fixed
    identifier. *)
Definition parameters_vehicle1 (dir_params : string) : IO VehicleParameters.t :=
  setup_vehicle_parameters 1 dir_params.

Definition parameters_vehicle2 (dir_params : string) : IO VehicleParameters.t :=
  setup_vehicle_parameters 2 dir_params.

Definition parameters_vehicle3 (dir_params : string) : IO VehicleParameters.t :=
  setup_vehicle_parameters 3 dir_params.

Definition parameters_vehicle4 (dir_params : string) : IO VehicleParameters.t :=
  setup_vehicle_parameters 4 dir_params.

(** The value a field is expected to hold after a tree has been read
    into a structure of zeros: what the first entry under its key
    converts to, and zero when there is no such entry. *)
Definition expected (t : Tree) (key : string) : option double :=
  match find_key t key with
  | Some x => converted x
  | None => Some zero
  end.

(** The tree a group is read from, if any: the map under the group's
    key. *)
Definition group_source (dv : Tree) (group : string) : option Tree :=
  match find_key dv group with
  | Some (Map mk entries) => Some (Map mk entries)
  | _ => None
  end.

(** The tree the tire group is read from: the map under ["tire"], or the
    document itself when it holds something else under that key. *)
Definition tire_source (dt : Tree) : option Tree :=
  match find_key dt "tire" with
  | Some (Map mk entries) => Some (Map mk entries)
  | Some _ => Some dt
  | None => None
  end.

Definition expected_in (source : option Tree) (key : string) : option double :=
  match source with
  | Some t => expected t key
  | None => Some zero
  end.

(** Two trees that find the same thing under every key of a table. *)
Definition same_fields {T : Type} (fields : list (string * (double -> T -> T)))
    (t t' : Tree) : Prop :=
  forall key, In key (List.map fst fields) -> find_key t key = find_key t' key.

(** Two optional sources that a loader cannot tell apart. *)
Definition same_source {T : Type} (fields : list (string * (double -> T -> T)))
    (s s' : option Tree) : Prop :=
  match s, s' with
  | Some t, Some t' => same_fields fields t t'
  | None, None => True
  | _, _ => False
  end.

(** Every file system access a call can make. *)
Definition document_accesses (vehicle_id : Z) (dir_params : string) : list Event :=
  [EvExists (vehicle_yaml vehicle_id dir_params);
   EvExists (tire_yaml dir_params);
   EvLoadFile (vehicle_yaml vehicle_id dir_params);
   EvLoadFile (tire_yaml dir_params)].

(** What a call throws when no file is found at a path: the error of the
    status query when that failed, and otherwise the "not found" error
    made of [what] and the path. *)
Definition not_found (what : string) (p : fs.path) : Exception :=
  match stat_failure p with
  | Some message => filesystem_error message p
  | None => runtime_error (what ++ p)
  end.



(** * Properties *)

(** ** The result monad *)

Lemma bind_Return_inv {A B : Type} (c : Result A) (k : A -> Result B) (b : B) :
  bind c k = Return b -> exists a, c = Return a /\ k a = Return b.
Proof.
  destruct c as [a | e]; simpl; intros H.
  - exists a. split; [reflexivity | exact H].
  - discriminate H.
Qed.

(** ** Paths *)

Lemma to_uint_not_padded (p : positive) :
  match Pos.to_uint p with
  | Decimal.Nil | Decimal.D0 _ => False
  | _ => True
  end.
Proof.
  pose proof (DecimalPos.Unsigned.to_uint_nonnil p) as Hnil.
  pose proof (DecimalPos.Unsigned.to_uint_nonzero p) as Hzero.
  pose proof (DecimalPos.Unsigned.of_to p) as Hof.
  pose proof (DecimalPos.Unsigned.to_of (Pos.to_uint p)) as Hto.
  rewrite Hof in Hto. simpl in Hto.
  destruct (Pos.to_uint p) as [ | d | d | d | d | d | d | d | d | d | d ] eqn:E;
    try exact I.
  - apply Hnil. reflexivity.
  - rewrite unorm_D0 in Hto.
    destruct (Decimal.nzhead d) as [ | d' | d' | d' | d' | d' | d' | d' | d' | d' | d' ] eqn:En.
    + apply Hzero. rewrite Hto. unfold Decimal.unorm. rewrite En. reflexivity.
    + exact (nzhead_nonzero d d' En).
    + unfold Decimal.unorm in Hto. rewrite En in Hto. discriminate Hto.
    + unfold Decimal.unorm in Hto. rewrite En in Hto. discriminate Hto.
    + unfold Decimal.unorm in Hto. rewrite En in Hto. discriminate Hto.
    + unfold Decimal.unorm in Hto. rewrite En in Hto. discriminate Hto.
    + unfold Decimal.unorm in Hto. rewrite En in Hto. discriminate Hto.
    + unfold Decimal.unorm in Hto. rewrite En in Hto. discriminate Hto.
    + unfold Decimal.unorm in Hto. rewrite En in Hto. discriminate Hto.
    + unfold Decimal.unorm in Hto. rewrite En in Hto. discriminate Hto.
    + unfold Decimal.unorm in Hto. rewrite En in Hto. discriminate Hto.
Qed.

Lemma string_of_uint_not_padded (d : Decimal.uint) :
  match d with
  | Decimal.Nil | Decimal.D0 _ => False
  | _ => True
  end ->
  match NilZero.string_of_uint d with
  | EmptyString => False
  | String c _ => c <> "0"%char /\ c <> "-"%char
  end.
Proof.
  destruct d; simpl; intros H; try contradiction; split; discriminate.
Qed.

Lemma to_string_not_padded (n : Z) : zero_padded (to_string n) = false.
Proof.
  unfold to_string. destruct n as [ | p | p ]; [reflexivity | | ].
  - simpl.
    pose proof (string_of_uint_not_padded _ (to_uint_not_padded p)) as H.
    destruct (NilZero.string_of_uint (Pos.to_uint p)) as [ | c s ];
      [contradiction | ].
    destruct H as [H0 Hm]. unfold zero_padded.
    destruct (Ascii.eqb_spec c "0"); [contradiction | ].
    destruct (Ascii.eqb_spec c "-"); [contradiction | ].
    destruct c as [[|] [|] [|] [|] [|] [|] [|] [|]]; try reflexivity;
      congruence.
  - simpl.
    pose proof (string_of_uint_not_padded _ (to_uint_not_padded p)) as H.
    destruct (NilZero.string_of_uint (Pos.to_uint p)) as [ | c s ];
      [contradiction | ].
    destruct H as [H0 Hm].
    destruct c as [[|] [|] [|] [|] [|] [|] [|] [|]]; try reflexivity;
      congruence.
Qed.

Lemma to_string_decimal (n : Z) :
  NilZero.int_of_string (to_string n) = Some (Z.to_int n).
Proof.
  unfold to_string. apply NilZero.isi;
    destruct n; simpl; intros H; try discriminate H;
    injection H as H; try discriminate H;
    exact (DecimalPos.Unsigned.to_uint_nonnil _ H).
Qed.

Lemma ends_with_separator_app (p q : string) (c : ascii) :
  fs.ends_with_separator (p ++ String c q) = fs.ends_with_separator (String c q).
Proof.
  induction p as [ | a p IH ]; [reflexivity | ].
  change (String a p ++ String c q) with (String a (p ++ String c q)).
  destruct p as [ | b p ]; exact IH.
Qed.

Lemma has_filename_app (p q : string) (c : ascii) :
  fs.has_filename (p ++ String c q) = negb (fs.ends_with_separator (String c q)).
Proof.
  unfold fs.has_filename. rewrite ends_with_separator_app.
  destruct p; reflexivity.
Qed.

Lemma append_assoc (s1 s2 s3 : string) : (s1 ++ s2) ++ s3 = s1 ++ (s2 ++ s3).
Proof.
  induction s1 as [ | c s1 IH ]; simpl; [reflexivity | now rewrite IH].
Qed.

(** The two paths spelled out as strings: a separator follows the root
    unless the root already ends in one. *)
Lemma vehicle_yaml_string (vehicle_id : Z) (dir_params : string) :
  vehicle_yaml vehicle_id dir_params =
    param_root dir_params
      ++ (if fs.has_filename (param_root dir_params) then "/" else "")
      ++ "vehicle/parameters_vehicle" ++ to_string vehicle_id ++ ".yaml".
Proof.
  unfold vehicle_yaml, fs.div at 1 2.
  change (fs.is_absolute "vehicle") with false.
  change (fs.is_absolute ("parameters_vehicle" ++ to_string vehicle_id ++ ".yaml"))
    with false.
  cbv iota.
  destruct (fs.has_filename (param_root dir_params)).
  - change ("/" ++ "vehicle") with "/vehicle".
    rewrite has_filename_app. simpl negb. cbv iota.
    rewrite !append_assoc. reflexivity.
  - rewrite has_filename_app. simpl negb. cbv iota.
    rewrite !append_assoc. reflexivity.
Qed.

Lemma tire_yaml_string (dir_params : string) :
  tire_yaml dir_params =
    param_root dir_params
      ++ (if fs.has_filename (param_root dir_params) then "/" else "")
      ++ "tire/parameters_tire.yaml".
Proof.
  unfold tire_yaml, fs.div at 1 2.
  change (fs.is_absolute "tire") with false.
  change (fs.is_absolute "parameters_tire.yaml") with false.
  cbv iota.
  destruct (fs.has_filename (param_root dir_params)).
  - change ("/" ++ "tire") with "/tire".
    rewrite has_filename_app. simpl negb. cbv iota.
    rewrite !append_assoc. reflexivity.
  - rewrite has_filename_app. simpl negb. cbv iota.
    rewrite !append_assoc. reflexivity.
Qed.

(** ** The file system accesses of a call *)

(** The four shapes a call can take, by what the file system holds. *)
Lemma setup_no_vehicle (vehicle_id : Z) (dir_params : string) (files : fs.FileSystem) :
  files (vehicle_yaml vehicle_id dir_params) = None ->
  setup_vehicle_parameters vehicle_id dir_params files =
    (Throw (not_found "Vehicle parameter file not found: "
              (vehicle_yaml vehicle_id dir_params)),
     [EvExists (vehicle_yaml vehicle_id dir_params)]).
Proof.
  intros Hv.
  cbv [setup_vehicle_parameters io_bind fs_exists io_lift negb not_found].
  rewrite Hv.
  destruct (stat_failure (vehicle_yaml vehicle_id dir_params)); reflexivity.
Qed.

Lemma setup_no_tire (vehicle_id : Z) (dir_params : string) (files : fs.FileSystem) :
  files (vehicle_yaml vehicle_id dir_params) <> None ->
  files (tire_yaml dir_params) = None ->
  setup_vehicle_parameters vehicle_id dir_params files =
    (Throw (not_found "Tire parameter file not found: " (tire_yaml dir_params)),
     [EvExists (vehicle_yaml vehicle_id dir_params);
      EvExists (tire_yaml dir_params)]).
Proof.
  intros Hv Ht.
  cbv [setup_vehicle_parameters io_bind fs_exists io_lift negb not_found].
  destruct (files (vehicle_yaml vehicle_id dir_params)) as [ r | ];
    [ | contradiction ].
  cbv beta iota zeta. rewrite Ht.
  destruct (stat_failure (tire_yaml dir_params)); reflexivity.
Qed.

Lemma setup_vehicle_unreadable (vehicle_id : Z) (dir_params : string)
    (files : fs.FileSystem) (e : Exception) (r : Result YAML.Tree) :
  files (vehicle_yaml vehicle_id dir_params) = Some (Throw e) ->
  files (tire_yaml dir_params) = Some r ->
  setup_vehicle_parameters vehicle_id dir_params files =
    (Throw e,
     [EvExists (vehicle_yaml vehicle_id dir_params);
      EvExists (tire_yaml dir_params);
      EvLoadFile (vehicle_yaml vehicle_id dir_params)]).
Proof.
  intros Hv Ht.
  cbv [setup_vehicle_parameters io_bind fs_exists io_lift LoadFile negb].
  repeat (rewrite ?Hv, ?Ht; cbv beta iota zeta). reflexivity.
Qed.

Lemma setup_loaded (vehicle_id : Z) (dir_params : string)
    (files : fs.FileSystem) (dv : YAML.Tree) (r : Result YAML.Tree) :
  files (vehicle_yaml vehicle_id dir_params) = Some (Return dv) ->
  files (tire_yaml dir_params) = Some r ->
  setup_vehicle_parameters vehicle_id dir_params files =
    (dt <- r;; populate (Handle dv) (Handle dt),
     [EvExists (vehicle_yaml vehicle_id dir_params);
      EvExists (tire_yaml dir_params);
      EvLoadFile (vehicle_yaml vehicle_id dir_params);
      EvLoadFile (tire_yaml dir_params)]).
Proof.
  intros Hv Ht.
  cbv [setup_vehicle_parameters io_bind fs_exists io_lift LoadFile negb].
  repeat (rewrite ?Hv, ?Ht; cbv beta iota zeta). destruct r as [ dt | e ]; simpl.
  - destruct (populate (Handle dv) (Handle dt)); reflexivity.
  - reflexivity.
Qed.

Lemma setup_populate (vehicle_id : Z) (dir_params : string)
    (files : fs.FileSystem) (dv dt : YAML.Tree) :
  files (vehicle_yaml vehicle_id dir_params) = Some (Return dv) ->
  files (tire_yaml dir_params) = Some (Return dt) ->
  fst (setup_vehicle_parameters vehicle_id dir_params files) =
    populate (Handle dv) (Handle dt).
Proof.
  intros Hv Ht. rewrite (setup_loaded _ _ _ _ _ Hv Ht). reflexivity.
Qed.

(** C8: the vehicle document is [root / "vehicle" /
    "parameters_vehicle<id>.yaml"], the identifier being written in plain
    decimal (it reads back as the identifier and carries no padding
    zero) and never checked against any bound: for every identifier the
    first thing a call does is to look for that very path.  The tire
    document is [root / "tire" / "parameters_tire.yaml"], whatever the
    identifier.  The root is ["parameters"] when [dir_params] is empty
    and [dir_params] itself otherwise. *)
Theorem C8_document_paths (vehicle_id : Z) (dir_params : string) :
  let root :=
    match dir_params with
    | EmptyString => "parameters"
    | String _ _ => dir_params
    end in
  param_root dir_params = root /\
  vehicle_yaml vehicle_id dir_params =
    root / "vehicle" / ("parameters_vehicle" ++ to_string vehicle_id ++ ".yaml") /\
  vehicle_yaml vehicle_id dir_params =
    root ++ (if fs.has_filename root then "/" else "")
      ++ "vehicle/parameters_vehicle" ++ to_string vehicle_id ++ ".yaml" /\
  NilZero.int_of_string (to_string vehicle_id) = Some (Z.to_int vehicle_id) /\
  Z.of_int (Z.to_int vehicle_id) = vehicle_id /\
  zero_padded (to_string vehicle_id) = false /\
  tire_yaml dir_params = root / "tire" / "parameters_tire.yaml" /\
  tire_yaml dir_params =
    root ++ (if fs.has_filename root then "/" else "")
      ++ "tire/parameters_tire.yaml" /\
  (forall files : fs.FileSystem,
      exists rest,
        snd (setup_vehicle_parameters vehicle_id dir_params files) =
          EvExists (vehicle_yaml vehicle_id dir_params) :: rest) /\
  (forall files : fs.FileSystem,
      match snd (setup_vehicle_parameters vehicle_id dir_params files) with
      | _ :: second :: _ => second = EvExists (tire_yaml dir_params)
      | _ => files (vehicle_yaml vehicle_id dir_params) = None
      end).
Proof.
  intros root.
  assert (Hroot : param_root dir_params = root)
    by (destruct dir_params; reflexivity).
  repeat split.
  - exact Hroot.
  - unfold vehicle_yaml. rewrite Hroot. reflexivity.
  - rewrite vehicle_yaml_string, Hroot. reflexivity.
  - apply to_string_decimal.
  - apply DecimalZ.of_to.
  - apply to_string_not_padded.
  - unfold tire_yaml. rewrite Hroot. reflexivity.
  - rewrite tire_yaml_string, Hroot. reflexivity.
  - intros files.
    destruct (files (vehicle_yaml vehicle_id dir_params)) as [ rv | ] eqn:Hv.
    + destruct (files (tire_yaml dir_params)) as [ rt | ] eqn:Ht.
      * destruct rv as [ dv | e ].
        -- rewrite (setup_loaded _ _ _ _ _ Hv Ht). eexists. reflexivity.
        -- rewrite (setup_vehicle_unreadable _ _ _ _ _ Hv Ht).
           eexists. reflexivity.
      * rewrite setup_no_tire; [ eexists; reflexivity | congruence | exact Ht ].
    + rewrite (setup_no_vehicle _ _ _ Hv). eexists. reflexivity.
  - intros files.
    destruct (files (vehicle_yaml vehicle_id dir_params)) as [ rv | ] eqn:Hv.
    + destruct (files (tire_yaml dir_params)) as [ rt | ] eqn:Ht.
      * destruct rv as [ dv | e ].
        -- rewrite (setup_loaded _ _ _ _ _ Hv Ht). reflexivity.
        -- rewrite (setup_vehicle_unreadable _ _ _ _ _ Hv Ht). reflexivity.
      * rewrite setup_no_tire; [ reflexivity | congruence | exact Ht ].
    + rewrite (setup_no_vehicle _ _ _ Hv). reflexivity.
Qed.

(** C2: a call that finds no file at the vehicle path throws an error
    that carries that path, having done nothing but look for it: the
    tire document is neither looked for nor read.  The error is the
    "not found" [runtime_error] whose message ends in the path when the
    operating system reports that there is no such file, and the
    [filesystem_error] of the path when the status query itself fails.
    A call that finds the vehicle document and no file at the tire path
    throws, in the same way, an error that carries the tire path.  And
    whatever the file system holds, no document is parsed before both
    paths have been looked for. *)
Theorem C2_missing_documents_fail_first (vehicle_id : Z) (dir_params : string)
    (files : fs.FileSystem) :
  let v := vehicle_yaml vehicle_id dir_params in
  let t := tire_yaml dir_params in
  (files v = None ->
   (stat_failure v = None ->
    setup_vehicle_parameters vehicle_id dir_params files =
      (Throw (runtime_error ("Vehicle parameter file not found: " ++ v)),
       [EvExists v])) /\
   (forall message,
       stat_failure v = Some message ->
       setup_vehicle_parameters vehicle_id dir_params files =
         (Throw (filesystem_error message v), [EvExists v]))) /\
  (files v <> None -> files t = None ->
   (stat_failure t = None ->
    setup_vehicle_parameters vehicle_id dir_params files =
      (Throw (runtime_error ("Tire parameter file not found: " ++ t)),
       [EvExists v; EvExists t])) /\
   (forall message,
       stat_failure t = Some message ->
       setup_vehicle_parameters vehicle_id dir_params files =
         (Throw (filesystem_error message t), [EvExists v; EvExists t]))) /\
  (forall before p after,
      snd (setup_vehicle_parameters vehicle_id dir_params files) =
        (before ++ EvLoadFile p :: after)%list ->
      exists between, before = EvExists v :: EvExists t :: between).
Proof.
  intros v t. split; [ | split ].
  - intros Hv. rewrite (setup_no_vehicle _ _ _ Hv). unfold not_found. fold v.
    split.
    + intros ->. reflexivity.
    + intros message ->. reflexivity.
  - intros Hv Ht. rewrite (setup_no_tire _ _ _ Hv Ht). unfold not_found.
    fold v t. split.
    + intros ->. reflexivity.
    + intros message ->. reflexivity.
  - intros before p after H.
    assert (Hshape :
      exists loads,
        snd (setup_vehicle_parameters vehicle_id dir_params files) = loads /\
        (loads = [EvExists v] \/ loads = [EvExists v; EvExists t] \/
         loads = [EvExists v; EvExists t; EvLoadFile v] \/
         loads = [EvExists v; EvExists t; EvLoadFile v; EvLoadFile t])).
    { destruct (files v) as [ rv | ] eqn:Hv.
      - destruct (files t) as [ rt | ] eqn:Ht.
        + destruct rv as [ dv | e ].
          * rewrite (setup_loaded _ _ _ _ _ Hv Ht). eexists. split;
              [ reflexivity | auto ].
          * rewrite (setup_vehicle_unreadable _ _ _ _ _ Hv Ht). eexists.
            split; [ reflexivity | auto ].
        + rewrite setup_no_tire; [ | fold v; congruence | exact Ht ].
          eexists. split; [ reflexivity | auto ].
      - rewrite (setup_no_vehicle _ _ _ Hv). eexists.
        split; [ reflexivity | auto ]. }
    destruct Hshape as (loads & Hsnd & Hloads).
    rewrite Hsnd in H. clear Hsnd.
    destruct before as [ | e1 [ | e2 between ] ].
    + simpl in H. destruct Hloads as [ -> | [ -> | [ -> | -> ] ] ];
        discriminate H.
    + simpl in H. destruct Hloads as [ -> | [ -> | [ -> | -> ] ] ];
        try discriminate H; destruct after; discriminate H.
    + exists between.
      destruct Hloads as [ -> | [ -> | [ -> | -> ] ] ]; simpl in H;
        try (destruct between; discriminate H);
        injection H as -> -> _; reflexivity.
Qed.

(** ** The loaders and their field tables *)

Lemma load_vehicle_scalars_fields (n : Node) (p : VehicleParameters.t) :
  load_vehicle_scalars n p = assign_fields n vehicle_fields p.
Proof. reflexivity. Qed.

Lemma load_steering_fields (root : Node) (s : SteeringParameters.t) :
  load_steering root s =
    (n <- index root "steering";;
     c <- undefined_or_not_map n;;
     if c then Return s else assign_fields n steering_fields s).
Proof. reflexivity. Qed.

Lemma load_longitudinal_fields (root : Node) (lp : LongitudinalParameters.t) :
  load_longitudinal root lp =
    (n <- index root "longitudinal";;
     c <- undefined_or_not_map n;;
     if c then Return lp else assign_fields n longitudinal_fields lp).
Proof. reflexivity. Qed.

Lemma load_trailer_fields (root : Node) (tr : TrailerParameters.t) :
  load_trailer root tr =
    (n <- index root "trailer";;
     c <- undefined_or_not_map n;;
     if c then Return tr else assign_fields n trailer_fields tr).
Proof. reflexivity. Qed.

Lemma load_tire_fields (root : Node) (tp : TireParameters.t) :
  load_tire root tp =
    (n <- index root "tire";;
     c <- undefined_or_not_map n;;
     n <- (if c then assign n root else Return n);;
     c <- undefined_or_not_map n;;
     if c then Return tp else assign_fields n tire_fields tp).
Proof. reflexivity. Qed.

(** What a nested group loader does, by what the key finds. *)
Lemma index_not_scalar (t : Tree) (key : string) :
  is_scalar t = false ->
  index (Handle t) key =
    Return (match find_key t key with
            | Some x => Handle x
            | None => Invalid key
            end).
Proof.
  destruct t as [ mk | mk text | mk items | mk entries ]; simpl; intros H;
    try discriminate H; try reflexivity.
  destruct (find_entry entries key); reflexivity.
Qed.

Lemma find_key_not_scalar (t x : Tree) (key : string) :
  find_key t key = Some x -> is_scalar t = false.
Proof. destruct t; simpl; intros H; try discriminate H; reflexivity. Qed.

(** The three shapes of a tire document. *)
Lemma load_tire_nested (dt : Tree) (mk : Mark) (entries : list (Tree * Tree))
    (tp : TireParameters.t) :
  find_key dt "tire" = Some (Map mk entries) ->
  load_tire (Handle dt) tp =
    assign_fields (Handle (Map mk entries)) tire_fields tp.
Proof.
  intros H. rewrite load_tire_fields.
  rewrite (index_not_scalar _ _ (find_key_not_scalar _ _ _ H)), H.
  reflexivity.
Qed.

Lemma load_tire_fallback (dt x : Tree) (tp : TireParameters.t) :
  find_key dt "tire" = Some x -> is_map x = false ->
  load_tire (Handle dt) tp = assign_fields (Handle dt) tire_fields tp.
Proof.
  intros H Hx. rewrite load_tire_fields.
  rewrite (index_not_scalar _ _ (find_key_not_scalar _ _ _ H)), H.
  destruct dt as [ mk | mk text | mk items | mk entries ];
    try discriminate H.
  destruct x; try discriminate Hx; reflexivity.
Qed.

Lemma load_tire_without_key (dt : Tree) (tp : TireParameters.t) :
  is_scalar dt = false -> find_key dt "tire" = None ->
  load_tire (Handle dt) tp = Throw (InvalidNode "tire").
Proof.
  intros Hs H. rewrite load_tire_fields.
  rewrite (index_not_scalar _ _ Hs), H. reflexivity.
Qed.

(** ** One assignment *)

Lemma assign_if_present_absent {T : Type} (t : Tree) (key : string)
    (set : double -> T -> T) (target : T) :
  is_scalar t = false -> find_key t key = None ->
  assign_if_present (Handle t) key set target = Return target.
Proof.
  intros Hs H. unfold assign_if_present.
  rewrite (index_not_scalar _ _ Hs), H. reflexivity.
Qed.

Lemma assign_if_present_found {T : Type} (t x : Tree) (key : string)
    (set : double -> T -> T) (target : T) :
  find_key t key = Some x ->
  assign_if_present (Handle t) key set target =
    (v <- as_double decode (Handle x);; Return (set v target)).
Proof.
  intros H. unfold assign_if_present.
  rewrite (index_not_scalar _ _ (find_key_not_scalar _ _ _ H)), H.
  reflexivity.
Qed.

Lemma as_double_convertible (x : Tree) :
  as_double decode (Handle x) =
    match converted x with
    | Some v => Return v
    | None => Throw (TypedBadConversion (mark x))
    end.
Proof.
  destruct x as [ mk | mk text | mk items | mk entries ]; reflexivity.
Qed.

(** ** A sequence of assignments *)

Lemma assign_if_present_Return {T : Type} (n : Node) (key : string)
    (set : double -> T -> T) (target target' : T) :
  assign_if_present n key set target = Return target' ->
  target' = target \/ exists v, target' = set v target.
Proof.
  unfold assign_if_present. intros H.
  apply bind_Return_inv in H. destruct H as (c & _ & H).
  destruct (IsDefined c).
  - apply bind_Return_inv in H. destruct H as (x & _ & H).
    apply bind_Return_inv in H. destruct H as (v & _ & H).
    injection H as <-. right. exists v. reflexivity.
  - injection H as <-. left. reflexivity.
Qed.

Lemma assign_fields_untouched {T X : Type} (proj : T -> X) (n : Node)
    (fields : list (string * (double -> T -> T))) :
  untouched proj fields ->
  forall target target',
    assign_fields n fields target = Return target' ->
    proj target' = proj target.
Proof.
  induction 1 as [ | [key set] rest Hset _ IH ]; simpl; intros target target' H.
  - injection H as <-. reflexivity.
  - apply bind_Return_inv in H. destruct H as (t1 & H1 & H).
    rewrite (IH _ _ H).
    apply assign_if_present_Return in H1.
    destruct H1 as [ -> | (v & ->) ]; [ reflexivity | apply Hset ].
Qed.

(** The outcome of a sequence of assignments depends on the node only
    through what the keys of the table find in it. *)
Lemma assign_fields_ext {T : Type} (n n' : Node)
    (fields : list (string * (double -> T -> T))) :
  (forall key, In key (List.map fst fields) -> index n key = index n' key) ->
  forall target, assign_fields n fields target = assign_fields n' fields target.
Proof.
  induction fields as [ | [key set] rest IH ]; intros H target.
  - reflexivity.
  - cbn [assign_fields]. unfold assign_if_present.
    rewrite (H key (or_introl eq_refl)).
    match goal with
    | |- bind ?c _ = bind ?c _ => destruct c as [ t1 | e ]
    end; simpl; [ | reflexivity ].
    apply IH. intros k Hk. apply H. right. exact Hk.
Qed.

(** The values a sequence of assignments converts, in order: those the
    keys of the table find. *)
Lemma assign_fields_outcome {T : Type} (t : Tree)
    (fields : list (string * (double -> T -> T))) :
  is_scalar t = false ->
  forall target,
    match List.find unconvertible (read_values fields t) with
    | Some x =>
        assign_fields (Handle t) fields target =
          Throw (TypedBadConversion (mark x))
    | None =>
        exists target', assign_fields (Handle t) fields target = Return target'
    end.
Proof.
  intros Hs.
  induction fields as [ | [key set] rest IH ]; intros target.
  - simpl. exists target. reflexivity.
  - cbn [read_values assign_fields fst].
    destruct (find_key t key) as [ x | ] eqn:Hk.
    + rewrite (assign_if_present_found _ _ _ _ _ Hk), as_double_convertible.
      cbn [List.app List.find]. unfold unconvertible at 1.
      destruct (converted x) as [ v | ]; simpl.
      * apply IH.
      * reflexivity.
    + rewrite (assign_if_present_absent _ _ _ _ Hs Hk). simpl. apply IH.
Qed.

(** ** The structure as a whole *)

Ltac untouched_by_table :=
  repeat (apply Forall_cons; [ intros v [ ]; reflexivity | ]);
  apply Forall_nil.

Lemma vehicle_fields_steering :
  untouched VehicleParameters.steering vehicle_fields.
Proof. unfold vehicle_fields. untouched_by_table. Qed.

Lemma vehicle_fields_longitudinal :
  untouched VehicleParameters.longitudinal vehicle_fields.
Proof. unfold vehicle_fields. untouched_by_table. Qed.

Lemma vehicle_fields_trailer :
  untouched VehicleParameters.trailer vehicle_fields.
Proof. unfold vehicle_fields. untouched_by_table. Qed.

Lemma vehicle_fields_tire :
  untouched VehicleParameters.tire vehicle_fields.
Proof. unfold vehicle_fields. untouched_by_table. Qed.

(** [load_vehicle_scalars] leaves the four groups as they are. *)
Lemma load_vehicle_scalars_groups (n : Node) (p p' : VehicleParameters.t) :
  load_vehicle_scalars n p = Return p' ->
  VehicleParameters.steering p' = VehicleParameters.steering p /\
  VehicleParameters.longitudinal p' = VehicleParameters.longitudinal p /\
  VehicleParameters.trailer p' = VehicleParameters.trailer p /\
  VehicleParameters.tire p' = VehicleParameters.tire p.
Proof.
  rewrite load_vehicle_scalars_fields. intros H. repeat split.
  - exact (assign_fields_untouched _ _ _ vehicle_fields_steering _ _ H).
  - exact (assign_fields_untouched _ _ _ vehicle_fields_longitudinal _ _ H).
  - exact (assign_fields_untouched _ _ _ vehicle_fields_trailer _ _ H).
  - exact (assign_fields_untouched _ _ _ vehicle_fields_tire _ _ H).
Qed.

(** [populate] as five independent loads: each group loader starts from
    the default group, since the scalars loaded before it touch no
    group. *)
Lemma populate_stages (cv ct : Node) :
  populate cv ct =
    (p <- load_vehicle_scalars cv VehicleParameters.default;;
     s <- load_steering cv SteeringParameters.default;;
     lp <- load_longitudinal cv LongitudinalParameters.default;;
     tr <- load_trailer cv TrailerParameters.default;;
     tp <- load_tire ct TireParameters.default;;
     Return (with_groups s lp tr tp p)).
Proof.
  unfold populate.
  destruct (load_vehicle_scalars cv VehicleParameters.default)
    as [ p | e ] eqn:Hp; [ | reflexivity ].
  apply load_vehicle_scalars_groups in Hp.
  destruct Hp as (Hs & Hl & Ht & Hr).
  cbn [bind]. rewrite Hs.
  change (VehicleParameters.steering VehicleParameters.default)
    with SteeringParameters.default.
  destruct (load_steering cv SteeringParameters.default) as [ s | e ];
    [ | reflexivity ].
  cbn [bind].
  replace (VehicleParameters.longitudinal (VehicleParameters.set_steering s p))
    with LongitudinalParameters.default
    by (destruct p; exact (eq_sym Hl)).
  destruct (load_longitudinal cv LongitudinalParameters.default) as [ lp | e ];
    [ | reflexivity ].
  cbn [bind].
  replace (VehicleParameters.trailer
             (VehicleParameters.set_longitudinal lp
                (VehicleParameters.set_steering s p)))
    with TrailerParameters.default
    by (destruct p; exact (eq_sym Ht)).
  destruct (load_trailer cv TrailerParameters.default) as [ tr | e ];
    [ | reflexivity ].
  cbn [bind].
  replace (VehicleParameters.tire
             (VehicleParameters.set_trailer tr
                (VehicleParameters.set_longitudinal lp
                   (VehicleParameters.set_steering s p))))
    with TireParameters.default
    by (destruct p; exact (eq_sym Hr)).
  reflexivity.
Qed.

Lemma populate_Return (cv ct : Node) (p : VehicleParameters.t) :
  populate cv ct = Return p ->
  exists p0 s lp tr tp,
    load_vehicle_scalars cv VehicleParameters.default = Return p0 /\
    load_steering cv SteeringParameters.default = Return s /\
    load_longitudinal cv LongitudinalParameters.default = Return lp /\
    load_trailer cv TrailerParameters.default = Return tr /\
    load_tire ct TireParameters.default = Return tp /\
    p = with_groups s lp tr tp p0.
Proof.
  rewrite populate_stages. intros H.
  apply bind_Return_inv in H. destruct H as (p0 & H0 & H).
  apply bind_Return_inv in H. destruct H as (s & H1 & H).
  apply bind_Return_inv in H. destruct H as (lp & H2 & H).
  apply bind_Return_inv in H. destruct H as (tr & H3 & H).
  apply bind_Return_inv in H. destruct H as (tp & H4 & H).
  injection H as <-.
  exists p0, s, lp, tr, tp. repeat split; assumption.
Qed.

Lemma with_groups_projections (s : SteeringParameters.t)
    (lp : LongitudinalParameters.t) (tr : TrailerParameters.t)
    (tp : TireParameters.t) (p : VehicleParameters.t) :
  VehicleParameters.steering (with_groups s lp tr tp p) = s /\
  VehicleParameters.longitudinal (with_groups s lp tr tp p) = lp /\
  VehicleParameters.trailer (with_groups s lp tr tp p) = tr /\
  VehicleParameters.tire (with_groups s lp tr tp p) = tp.
Proof. destruct p. repeat split; reflexivity. Qed.

(** ** The nested groups of the vehicle document *)

Lemma group_not_loaded (dv : Tree) (key : string)
    {T : Type} (target : T) (k : Node -> Result T) :
  is_scalar dv = false -> no_map_under dv key = true ->
  (n <- index (Handle dv) key;;
   c <- undefined_or_not_map n;;
   if c then Return target else k n) = Return target.
Proof.
  intros Hs H. rewrite (index_not_scalar _ _ Hs).
  unfold no_map_under in H.
  destruct (find_key dv key) as [ [ mk | mk text | mk items | mk entries ] | ];
    try discriminate H; reflexivity.
Qed.

(** C9: when the vehicle document holds no map under ["steering"]
    (the key is absent, or its value is not a map), [load_steering]
    returns the group it was given and throws nothing, and a call that
    returns leaves every steering field at zero; likewise for
    ["longitudinal"] and ["trailer"]. *)
Theorem C9_group_without_map_stays_default (vehicle_id : Z)
    (dir_params : string) (files : fs.FileSystem) (dv dt : Tree) :
  files (vehicle_yaml vehicle_id dir_params) = Some (Return dv) ->
  files (tire_yaml dir_params) = Some (Return dt) ->
  is_scalar dv = false ->
  (no_map_under dv "steering" = true ->
   (forall s, load_steering (Handle dv) s = Return s) /\
   (forall p,
       fst (setup_vehicle_parameters vehicle_id dir_params files) = Return p ->
       VehicleParameters.steering p =
         SteeringParameters.mk zero zero zero zero zero zero)) /\
  (no_map_under dv "longitudinal" = true ->
   (forall lp, load_longitudinal (Handle dv) lp = Return lp) /\
   (forall p,
       fst (setup_vehicle_parameters vehicle_id dir_params files) = Return p ->
       VehicleParameters.longitudinal p =
         LongitudinalParameters.mk zero zero zero zero zero zero)) /\
  (no_map_under dv "trailer" = true ->
   (forall tr, load_trailer (Handle dv) tr = Return tr) /\
   (forall p,
       fst (setup_vehicle_parameters vehicle_id dir_params files) = Return p ->
       VehicleParameters.trailer p =
         TrailerParameters.mk zero zero zero zero zero)).
Proof.
  intros Hv Ht Hs. rewrite (setup_populate _ _ _ _ _ Hv Ht).
  split; [ | split ]; intros H.
  - assert (Hload : forall s, load_steering (Handle dv) s = Return s).
    { intros s. rewrite load_steering_fields.
      apply (group_not_loaded dv "steering" s _ Hs H). }
    split; [ exact Hload | ].
    intros p Hp. apply populate_Return in Hp.
    destruct Hp as (p0 & s & lp & tr & tp & _ & H1 & _ & _ & _ & ->).
    rewrite Hload in H1. injection H1 as <-.
    apply with_groups_projections.
  - assert (Hload : forall lp, load_longitudinal (Handle dv) lp = Return lp).
    { intros lp. rewrite load_longitudinal_fields.
      apply (group_not_loaded dv "longitudinal" lp _ Hs H). }
    split; [ exact Hload | ].
    intros p Hp. apply populate_Return in Hp.
    destruct Hp as (p0 & s & lp & tr & tp & _ & _ & H2 & _ & _ & ->).
    rewrite Hload in H2. injection H2 as <-.
    apply with_groups_projections.
  - assert (Hload : forall tr, load_trailer (Handle dv) tr = Return tr).
    { intros tr. rewrite load_trailer_fields.
      apply (group_not_loaded dv "trailer" tr _ Hs H). }
    split; [ exact Hload | ].
    intros p Hp. apply populate_Return in Hp.
    destruct Hp as (p0 & s & lp & tr & tp & _ & _ & _ & H3 & _ & ->).
    rewrite Hload in H3. injection H3 as <-.
    apply with_groups_projections.
Qed.

(** ** The tire group *)

(** C1, as the code has it: the tire group comes from the tire document
    alone.  Whatever the vehicle document holds, tire entries included,
    a call that returns has the tire group that [load_tire] builds from
    the tire document; so two vehicle documents resolved against the
    same tire document give the same tire group. *)
Theorem C1_tire_group_from_tire_document_only (vehicle_id : Z)
    (dir_params : string) (files files' : fs.FileSystem) (dv dv' dt : Tree)
    (p p' : VehicleParameters.t) :
  files (vehicle_yaml vehicle_id dir_params) = Some (Return dv) ->
  files' (vehicle_yaml vehicle_id dir_params) = Some (Return dv') ->
  files (tire_yaml dir_params) = Some (Return dt) ->
  files' (tire_yaml dir_params) = Some (Return dt) ->
  fst (setup_vehicle_parameters vehicle_id dir_params files) = Return p ->
  fst (setup_vehicle_parameters vehicle_id dir_params files') = Return p' ->
  load_tire (Handle dt) TireParameters.default =
    Return (VehicleParameters.tire p) /\
  VehicleParameters.tire p' = VehicleParameters.tire p.
Proof.
  intros Hv Hv' Ht Ht'.
  rewrite (setup_populate _ _ _ _ _ Hv Ht), (setup_populate _ _ _ _ _ Hv' Ht').
  intros Hp Hp'.
  apply populate_Return in Hp.
  destruct Hp as (p0 & s & lp & tr & tp & _ & _ & _ & _ & H4 & ->).
  apply populate_Return in Hp'.
  destruct Hp' as (p0' & s' & lp' & tr' & tp' & _ & _ & _ & _ & H4' & ->).
  rewrite H4 in H4'. injection H4' as <-.
  destruct (with_groups_projections s lp tr tp p0) as (_ & _ & _ & ->).
  destruct (with_groups_projections s' lp' tr' tp p0') as (_ & _ & _ & ->).
  split; [ exact H4 | reflexivity ].
Qed.

(** No tire document without a ["tire"] entry resolves: the fallback
    [n = root] assigns to the invalid handle that the lookup returned. *)
Lemma setup_without_tire_entry (vehicle_id : Z) (dir_params : string)
    (files : fs.FileSystem) (dv dt : Tree) (p : VehicleParameters.t) :
  files (vehicle_yaml vehicle_id dir_params) = Some (Return dv) ->
  files (tire_yaml dir_params) = Some (Return dt) ->
  find_key dt "tire" = None ->
  fst (setup_vehicle_parameters vehicle_id dir_params files) <> Return p.
Proof.
  intros Hv Ht H. rewrite (setup_populate _ _ _ _ _ Hv Ht). intros Hp.
  apply populate_Return in Hp.
  destruct Hp as (p0 & s & lp & tr & tp & _ & _ & _ & _ & H4 & _).
  destruct (is_scalar dt) eqn:Hs.
  - destruct dt; try discriminate Hs. discriminate H4.
  - rewrite (load_tire_without_key _ _ Hs H) in H4. discriminate H4.
Qed.

Ltac each_field H :=
  simpl in H;
  repeat (destruct H as [ H | H ]; [ injection H as <- <- | ]);
  [ .. | contradiction H ].

(** ** Isolation of the groups *)

Lemma populate_Return_not_scalar (dv : Tree) (ct : Node)
    (p : VehicleParameters.t) :
  populate (Handle dv) ct = Return p -> is_scalar dv = false.
Proof.
  destruct dv; try reflexivity. intros H. discriminate H.
Qed.

Lemma load_vehicle_scalars_ext (d d' : Tree) (p : VehicleParameters.t) :
  is_scalar d = false -> is_scalar d' = false ->
  (forall k, In k (List.map fst vehicle_fields) -> find_key d k = find_key d' k) ->
  load_vehicle_scalars (Handle d) p = load_vehicle_scalars (Handle d') p.
Proof.
  intros Hs Hs' H. rewrite !load_vehicle_scalars_fields.
  apply assign_fields_ext. intros k Hk.
  rewrite (index_not_scalar _ _ Hs), (index_not_scalar _ _ Hs'), (H k Hk).
  reflexivity.
Qed.

Lemma vehicle_fields_no_group (k : string) :
  In k (List.map fst vehicle_fields) ->
  k <> "steering" /\ k <> "longitudinal" /\ k <> "trailer".
Proof.
  intros H. simpl in H.
  repeat (destruct H as [ <- | H ]; [ repeat split; discriminate | ]).
  contradiction H.
Qed.

Lemma load_steering_ext (d d' : Tree) (s : SteeringParameters.t) :
  is_scalar d = false -> is_scalar d' = false ->
  find_key d "steering" = find_key d' "steering" ->
  load_steering (Handle d) s = load_steering (Handle d') s.
Proof.
  intros Hs Hs' H. rewrite !load_steering_fields.
  rewrite (index_not_scalar _ _ Hs), (index_not_scalar _ _ Hs'), H.
  reflexivity.
Qed.

Lemma load_longitudinal_ext (d d' : Tree) (lp : LongitudinalParameters.t) :
  is_scalar d = false -> is_scalar d' = false ->
  find_key d "longitudinal" = find_key d' "longitudinal" ->
  load_longitudinal (Handle d) lp = load_longitudinal (Handle d') lp.
Proof.
  intros Hs Hs' H. rewrite !load_longitudinal_fields.
  rewrite (index_not_scalar _ _ Hs), (index_not_scalar _ _ Hs'), H.
  reflexivity.
Qed.

Lemma load_trailer_ext (d d' : Tree) (tr : TrailerParameters.t) :
  is_scalar d = false -> is_scalar d' = false ->
  find_key d "trailer" = find_key d' "trailer" ->
  load_trailer (Handle d) tr = load_trailer (Handle d') tr.
Proof.
  intros Hs Hs' H. rewrite !load_trailer_fields.
  rewrite (index_not_scalar _ _ Hs), (index_not_scalar _ _ Hs'), H.
  reflexivity.
Qed.

(** C6: two calls whose vehicle documents differ only under
    ["steering"] return structures that differ only in the steering
    group, and likewise for ["longitudinal"] and ["trailer"]; two calls
    that differ only in the tire document return structures that differ
    only in the tire group; and two calls whose vehicle documents agree
    under the three group keys return the same four groups, whatever
    their top-level scalars.  In particular [l] and [w] at the top of the
    vehicle document are stored in the structure's own [l] and [w], and
    [l] and [w] inside ["trailer"] in the trailer's. *)
Theorem C6_group_isolation (vehicle_id : Z) (dir_params : string)
    (files files' : fs.FileSystem) (dv dv' dt dt' : Tree)
    (p p' : VehicleParameters.t) :
  files (vehicle_yaml vehicle_id dir_params) = Some (Return dv) ->
  files (tire_yaml dir_params) = Some (Return dt) ->
  files' (vehicle_yaml vehicle_id dir_params) = Some (Return dv') ->
  files' (tire_yaml dir_params) = Some (Return dt') ->
  fst (setup_vehicle_parameters vehicle_id dir_params files) = Return p ->
  fst (setup_vehicle_parameters vehicle_id dir_params files') = Return p' ->
  (dt' = dt -> same_except "steering" dv dv' ->
   p' = VehicleParameters.set_steering (VehicleParameters.steering p') p) /\
  (dt' = dt -> same_except "longitudinal" dv dv' ->
   p' = VehicleParameters.set_longitudinal (VehicleParameters.longitudinal p') p) /\
  (dt' = dt -> same_except "trailer" dv dv' ->
   p' = VehicleParameters.set_trailer (VehicleParameters.trailer p') p) /\
  (dv' = dv ->
   p' = VehicleParameters.set_tire (VehicleParameters.tire p') p) /\
  (dt' = dt ->
   find_key dv "steering" = find_key dv' "steering" ->
   find_key dv "longitudinal" = find_key dv' "longitudinal" ->
   find_key dv "trailer" = find_key dv' "trailer" ->
   VehicleParameters.steering p' = VehicleParameters.steering p /\
   VehicleParameters.longitudinal p' = VehicleParameters.longitudinal p /\
   VehicleParameters.trailer p' = VehicleParameters.trailer p /\
   VehicleParameters.tire p' = VehicleParameters.tire p) /\
  (forall tl tw ttl ttw vl vw vtl vtw,
      decode tl = Some vl -> decode tw = Some vw ->
      decode ttl = Some vtl -> decode ttw = Some vtw ->
      dv = Doc.map_of
             [("l", Doc.scalar tl); ("w", Doc.scalar tw);
              ("trailer",
               Doc.map_of [("l", Doc.scalar ttl); ("w", Doc.scalar ttw)])] ->
      dt = Doc.map_of [("tire", Doc.map_of [])] ->
      p = VehicleParameters.set_l vl
            (VehicleParameters.set_w vw
               (VehicleParameters.set_trailer
                  (TrailerParameters.set_l vtl
                     (TrailerParameters.set_w vtw TrailerParameters.default))
                  VehicleParameters.default))).
Proof.
  intros Hv Ht Hv' Ht'.
  rewrite (setup_populate _ _ _ _ _ Hv Ht), (setup_populate _ _ _ _ _ Hv' Ht').
  intros Hp Hp'.
  pose proof (populate_Return_not_scalar _ _ _ Hp) as Hs.
  pose proof (populate_Return_not_scalar _ _ _ Hp') as Hs'.
  assert (Hscalars :
    forall key, (key = "steering" \/ key = "longitudinal" \/ key = "trailer") ->
    same_except key dv dv' ->
    forall q, load_vehicle_scalars (Handle dv) q = load_vehicle_scalars (Handle dv') q).
  { intros key Hkey Hsame q. apply load_vehicle_scalars_ext; try assumption.
    intros k Hk. apply Hsame.
    destruct (vehicle_fields_no_group k Hk) as (H1 & H2 & H3).
    destruct Hkey as [ -> | [ -> | -> ] ]; assumption. }
  repeat match goal with |- _ /\ _ => split end.
  - intros -> Hsame.
    apply populate_Return in Hp.
    destruct Hp as (p0 & s & lp & tr & tp & H0 & H1 & H2 & H3 & H4 & ->).
    apply populate_Return in Hp'.
    destruct Hp' as (p0' & s' & lp' & tr' & tp' & H0' & H1' & H2' & H3' & H4' & ->).
    rewrite (Hscalars "steering") in H0 by auto.
    rewrite (load_longitudinal_ext dv dv') in H2
      by (try assumption; apply Hsame; discriminate).
    rewrite (load_trailer_ext dv dv') in H3
      by (try assumption; apply Hsame; discriminate).
    rewrite H0 in H0'. injection H0' as <-.
    rewrite H2 in H2'. injection H2' as <-.
    rewrite H3 in H3'. injection H3' as <-.
    rewrite H4 in H4'. injection H4' as <-.
    destruct p0. reflexivity.
  - intros -> Hsame.
    apply populate_Return in Hp.
    destruct Hp as (p0 & s & lp & tr & tp & H0 & H1 & H2 & H3 & H4 & ->).
    apply populate_Return in Hp'.
    destruct Hp' as (p0' & s' & lp' & tr' & tp' & H0' & H1' & H2' & H3' & H4' & ->).
    rewrite (Hscalars "longitudinal") in H0 by auto.
    rewrite (load_steering_ext dv dv') in H1
      by (try assumption; apply Hsame; discriminate).
    rewrite (load_trailer_ext dv dv') in H3
      by (try assumption; apply Hsame; discriminate).
    rewrite H0 in H0'. injection H0' as <-.
    rewrite H1 in H1'. injection H1' as <-.
    rewrite H3 in H3'. injection H3' as <-.
    rewrite H4 in H4'. injection H4' as <-.
    destruct p0. reflexivity.
  - intros -> Hsame.
    apply populate_Return in Hp.
    destruct Hp as (p0 & s & lp & tr & tp & H0 & H1 & H2 & H3 & H4 & ->).
    apply populate_Return in Hp'.
    destruct Hp' as (p0' & s' & lp' & tr' & tp' & H0' & H1' & H2' & H3' & H4' & ->).
    rewrite (Hscalars "trailer") in H0 by auto.
    rewrite (load_steering_ext dv dv') in H1
      by (try assumption; apply Hsame; discriminate).
    rewrite (load_longitudinal_ext dv dv') in H2
      by (try assumption; apply Hsame; discriminate).
    rewrite H0 in H0'. injection H0' as <-.
    rewrite H1 in H1'. injection H1' as <-.
    rewrite H2 in H2'. injection H2' as <-.
    rewrite H4 in H4'. injection H4' as <-.
    destruct p0. reflexivity.
  - intros ->.
    apply populate_Return in Hp.
    destruct Hp as (p0 & s & lp & tr & tp & H0 & H1 & H2 & H3 & H4 & ->).
    apply populate_Return in Hp'.
    destruct Hp' as (p0' & s' & lp' & tr' & tp' & H0' & H1' & H2' & H3' & H4' & ->).
    rewrite H0 in H0'. injection H0' as <-.
    rewrite H1 in H1'. injection H1' as <-.
    rewrite H2 in H2'. injection H2' as <-.
    rewrite H3 in H3'. injection H3' as <-.
    destruct p0. reflexivity.
  - intros -> E1 E2 E3.
    apply populate_Return in Hp.
    destruct Hp as (p0 & s & lp & tr & tp & H0 & H1 & H2 & H3 & H4 & ->).
    apply populate_Return in Hp'.
    destruct Hp' as (p0' & s' & lp' & tr' & tp' & H0' & H1' & H2' & H3' & H4' & ->).
    rewrite (load_steering_ext dv dv') in H1 by assumption.
    rewrite (load_longitudinal_ext dv dv') in H2 by assumption.
    rewrite (load_trailer_ext dv dv') in H3 by assumption.
    rewrite H1 in H1'. injection H1' as <-.
    rewrite H2 in H2'. injection H2' as <-.
    rewrite H3 in H3'. injection H3' as <-.
    rewrite H4 in H4'. injection H4' as <-.
    destruct p0, p0'. repeat split; reflexivity.
  - intros tl tw ttl ttw vl vw vtl vtw Hl Hw Htl Htw -> ->.
    revert Hp. clear - Hl Hw Htl Htw. cbv.
    rewrite Hl, Hw, Htl, Htw. intros H. injection H as <-. reflexivity.
Qed.

(** ** Values that do not convert *)

Lemma find_app {A : Type} (f : A -> bool) (l1 l2 : list A) :
  List.find f (l1 ++ l2)%list =
    match List.find f l1 with
    | Some x => Some x
    | None => List.find f l2
    end.
Proof.
  induction l1 as [ | a l1 IH ]; simpl; [ reflexivity | ].
  destruct (f a); [ reflexivity | exact IH ].
Qed.

Lemma stage_outcome_bind {A B : Type} (c : Result A) (k : A -> Result B)
    (l1 l2 : list Tree) :
  converting c l1 ->
  (forall a, stage_outcome (k a) l2) ->
  stage_outcome (a <- c;; k a) (l1 ++ l2).
Proof.
  unfold converting, stage_outcome. rewrite find_app. intros H1 H2.
  destruct (List.find unconvertible l1) as [ x | ].
  - rewrite H1. reflexivity.
  - destruct H1 as (a & ->). apply H2.
Qed.

Lemma converting_fields {T : Type} (t : Tree)
    (fields : list (string * (double -> T -> T))) (target : T) :
  is_scalar t = false ->
  converting (assign_fields (Handle t) fields target) (read_values fields t).
Proof. intros Hs. exact (assign_fields_outcome t fields Hs target). Qed.

Lemma converting_group {T : Type} (dv : Tree) (group : string)
    (fields : list (string * (double -> T -> T))) (target : T) :
  is_scalar dv = false ->
  converting
    (n <- index (Handle dv) group;;
     c <- undefined_or_not_map n;;
     if c then Return target else assign_fields n fields target)
    (group_values fields dv group).
Proof.
  intros Hs. unfold group_values. rewrite (index_not_scalar _ _ Hs).
  destruct (find_key dv group) as [ [ mk | mk text | mk items | mk entries ] | ];
    try (exists target; reflexivity).
  apply (converting_fields (Map mk entries) fields target). reflexivity.
Qed.

Lemma converting_stage_outcome {A : Type} (c : Result A) (values : list Tree) :
  converting c values -> stage_outcome c values.
Proof.
  unfold converting, stage_outcome.
  destruct (List.find unconvertible values) as [ x | ]; [ auto | ].
  intros (a & ->). exact I.
Qed.

Lemma stage_outcome_tire (dt : Tree) (tp : TireParameters.t) :
  stage_outcome (load_tire (Handle dt) tp) (tire_values dt).
Proof.
  unfold tire_values.
  destruct (find_key dt "tire") as [ x | ] eqn:H.
  - apply converting_stage_outcome.
    destruct (is_map x) eqn:Hx.
    + destruct x as [ mk | mk text | mk items | mk entries ];
        try discriminate Hx.
      rewrite (load_tire_nested _ _ _ _ H).
      apply converting_fields. reflexivity.
    + rewrite (load_tire_fallback _ _ _ H Hx).
      replace (match x with
               | Map mk entries => read_values tire_fields (Map mk entries)
               | _ => read_values tire_fields dt
               end) with (read_values tire_fields dt)
        by (destruct x; try reflexivity; discriminate Hx).
      apply converting_fields. exact (find_key_not_scalar _ _ _ H).
  - destruct (is_scalar dt) eqn:Hs.
    + destruct dt as [ mk | mk text | mk items | mk entries ];
        try discriminate Hs.
      change (load_tire (Handle (Scalar mk text)) tp)
        with (@Throw TireParameters.t (BadSubscript mk "tire")).
      reflexivity.
    + rewrite (load_tire_without_key _ _ Hs H). reflexivity.
Qed.

Lemma read_values_scalar {T : Type} (mk : Mark) (text : string)
    (fields : list (string * (double -> T -> T))) :
  read_values fields (Scalar mk text) = [].
Proof. induction fields as [ | f rest IH ]; [ reflexivity | exact IH ]. Qed.

Lemma populate_scalar (mk : Mark) (text : string) (ct : Node) :
  populate (Handle (Scalar mk text)) ct = Throw (BadSubscript mk "l").
Proof. reflexivity. Qed.

Lemma present_values_scalar (mk : Mark) (text : string) (dt : Tree) :
  present_values (Scalar mk text) dt = [].
Proof.
  unfold present_values. rewrite read_values_scalar. reflexivity.
Qed.

Lemma stage_outcome_populate (dv dt : Tree) :
  stage_outcome (populate (Handle dv) (Handle dt)) (present_values dv dt).
Proof.
  destruct (is_scalar dv) eqn:Hs.
  - destruct dv as [ mk | mk text | mk items | mk entries ];
      try discriminate Hs.
    rewrite populate_scalar, present_values_scalar. reflexivity.
  - rewrite populate_stages. unfold present_values. rewrite Hs.
    apply stage_outcome_bind;
      [ rewrite load_vehicle_scalars_fields; apply converting_fields; exact Hs
      | intros p ].
    apply stage_outcome_bind;
      [ rewrite load_steering_fields; apply converting_group; exact Hs
      | intros s ].
    apply stage_outcome_bind;
      [ rewrite load_longitudinal_fields; apply converting_group; exact Hs
      | intros lp ].
    apply stage_outcome_bind;
      [ rewrite load_trailer_fields; apply converting_group; exact Hs
      | intros tr ].
    generalize (stage_outcome_tire dt TireParameters.default).
    unfold stage_outcome.
    destruct (List.find unconvertible (tire_values dt)) as [ x | ].
    + intros ->. reflexivity.
    + destruct (load_tire (Handle dt) TireParameters.default); auto.
Qed.

Lemma stage_outcome_first {A : Type} (c : Result A) (values : list Tree)
    (x : Tree) :
  stage_outcome c values ->
  List.find unconvertible values = Some x ->
  c = Throw (TypedBadConversion (mark x)).
Proof. unfold stage_outcome. intros H Hx. rewrite Hx in H. exact H. Qed.





(** * Further properties of the resolver *)

(** ** Which documents a call reads *)

Lemma append_cancel_l (p a b : string) : p ++ a = p ++ b -> a = b.
Proof.
  induction p as [ | c p IH ]; simpl; intros H; [ exact H | ].
  injection H as H. exact (IH H).
Qed.

Lemma length_append (a b : string) :
  String.length (a ++ b) = (String.length a + String.length b)%nat.
Proof. induction a as [ | c a IH ]; simpl; [ reflexivity | now rewrite IH ]. Qed.

Lemma append_cancel_r (a b s : string) : a ++ s = b ++ s -> a = b.
Proof.
  revert b. induction a as [ | c a IH ]; intros [ | d b ] H.
  - reflexivity.
  - apply (f_equal String.length) in H.
    change (String d b ++ s) with (String d (b ++ s)) in H.
    simpl in H. rewrite length_append in H. lia.
  - apply (f_equal String.length) in H.
    change (String c a ++ s) with (String c (a ++ s)) in H.
    simpl in H. rewrite length_append in H. lia.
  - simpl in H. injection H as -> H. f_equal. exact (IH _ H).
Qed.

Lemma to_string_inj (a b : Z) : to_string a = to_string b -> a = b.
Proof.
  intros H. apply DecimalZ.to_int_inj.
  pose proof (to_string_decimal a) as Ha. rewrite H, to_string_decimal in Ha.
  injection Ha as Ha. symmetry. exact Ha.
Qed.

Lemma setup_first_access (vehicle_id : Z) (dir_params : string)
    (files : fs.FileSystem) :
  exists rest,
    snd (setup_vehicle_parameters vehicle_id dir_params files) =
      EvExists (vehicle_yaml vehicle_id dir_params) :: rest.
Proof.
  destruct (files (vehicle_yaml vehicle_id dir_params)) as [ rv | ] eqn:Hv.
  - destruct (files (tire_yaml dir_params)) as [ rt | ] eqn:Ht.
    + destruct rv as [ dv | e ].
      * rewrite (setup_loaded _ _ _ _ _ Hv Ht). eexists. reflexivity.
      * rewrite (setup_vehicle_unreadable _ _ _ _ _ Hv Ht).
        eexists. reflexivity.
    + rewrite setup_no_tire; [ eexists; reflexivity | congruence | exact Ht ].
  - rewrite (setup_no_vehicle _ _ _ Hv). eexists. reflexivity.
Qed.

(** X2: different identifiers never share a vehicle document, and the vehicle
    document is never the tire document, whatever the root. *)
Theorem vehicle_documents_are_distinct (a b : Z) (dir_params : string) :
  a <> b ->
  vehicle_yaml a dir_params <> vehicle_yaml b dir_params /\
  vehicle_yaml a dir_params <> tire_yaml dir_params.
Proof.
  intros Hab. split; intros H.
  - rewrite !vehicle_yaml_string in H.
    apply append_cancel_l in H. apply append_cancel_l in H.
    apply (append_cancel_l "vehicle/parameters_vehicle") in H.
    apply append_cancel_r in H. apply Hab. exact (to_string_inj _ _ H).
  - rewrite vehicle_yaml_string, tire_yaml_string in H.
    apply append_cancel_l in H. apply append_cancel_l in H.
    discriminate H.
Qed.

(** X1: the four vehicle functions look, first of all, for four different
    documents: [parameters_vehicleN.yaml] in the [vehicle] directory of
    the root, with [N] from 1 to 4. *)
Theorem parameters_vehicle_documents (dir_params : string)
    (files : fs.FileSystem) :
  let document n :=
    param_root dir_params
      ++ (if fs.has_filename (param_root dir_params) then "/" else "")
      ++ "vehicle/parameters_vehicle" ++ n ++ ".yaml" in
  (exists rest,
      snd (parameters_vehicle1 dir_params files) = EvExists (document "1") :: rest) /\
  (exists rest,
      snd (parameters_vehicle2 dir_params files) = EvExists (document "2") :: rest) /\
  (exists rest,
      snd (parameters_vehicle3 dir_params files) = EvExists (document "3") :: rest) /\
  (exists rest,
      snd (parameters_vehicle4 dir_params files) = EvExists (document "4") :: rest) /\
  NoDup [document "1"; document "2"; document "3"; document "4"].
Proof.
  intros document.
  assert (Hdoc : forall n,
    (exists rest,
        snd (setup_vehicle_parameters n dir_params files) =
          EvExists (document (to_string n)) :: rest)).
  { intros n. destruct (setup_first_access n dir_params files) as (rest & H).
    exists rest. rewrite H, vehicle_yaml_string. reflexivity. }
  repeat split.
  - exact (Hdoc 1%Z).
  - exact (Hdoc 2%Z).
  - exact (Hdoc 3%Z).
  - exact (Hdoc 4%Z).
  - assert (Hne : forall m n, m <> n -> document m <> document n).
    { intros m n Hmn H. unfold document in H.
      apply append_cancel_l in H. apply append_cancel_l in H.
      apply (append_cancel_l "vehicle/parameters_vehicle") in H.
      apply append_cancel_r in H. exact (Hmn H). }
    repeat constructor; simpl; intros H;
      repeat (destruct H as [ H | H ]; [ revert H; apply Hne; discriminate | ]);
      exact H.
Qed.

(** X4: a call makes at most four accesses, in a fixed order: it looks for
    the vehicle document, looks for the tire document, loads the first
    and loads the second; and it sees nothing of the file system but
    those two documents. *)
Theorem setup_reads_two_documents_only (vehicle_id : Z) (dir_params : string)
    (files files' : fs.FileSystem) :
  files (vehicle_yaml vehicle_id dir_params)
    = files' (vehicle_yaml vehicle_id dir_params) ->
  files (tire_yaml dir_params) = files' (tire_yaml dir_params) ->
  setup_vehicle_parameters vehicle_id dir_params files
    = setup_vehicle_parameters vehicle_id dir_params files' /\
  exists n,
    (1 <= n)%nat /\
    snd (setup_vehicle_parameters vehicle_id dir_params files)
      = firstn n (document_accesses vehicle_id dir_params).
Proof.
  intros Ev Et.
  destruct (files (vehicle_yaml vehicle_id dir_params)) as [ rv | ] eqn:Hv.
  - destruct (files (tire_yaml dir_params)) as [ rt | ] eqn:Ht.
    + destruct rv as [ dv | e ].
      * rewrite (setup_loaded _ _ files _ _ Hv Ht).
        rewrite (setup_loaded _ _ files' _ _ (eq_sym Ev) (eq_sym Et)).
        split; [ reflexivity | ]. exists 4%nat. split; [ lia | reflexivity ].
      * rewrite (setup_vehicle_unreadable _ _ files _ _ Hv Ht).
        rewrite (setup_vehicle_unreadable _ _ files' _ _ (eq_sym Ev) (eq_sym Et)).
        split; [ reflexivity | ]. exists 3%nat. split; [ lia | reflexivity ].
    + rewrite (setup_no_tire _ _ files); [ | congruence | exact Ht ].
      rewrite (setup_no_tire _ _ files'); [ | congruence | congruence ].
      split; [ reflexivity | ]. exists 2%nat. split; [ lia | reflexivity ].
  - rewrite (setup_no_vehicle _ _ files Hv).
    rewrite (setup_no_vehicle _ _ files' (eq_sym Ev)).
    split; [ reflexivity | ]. exists 1%nat. split; [ lia | reflexivity ].
Qed.

(** X5: a document that exists and does not parse: the call throws what the
    parser threw.  When it is the vehicle document, the tire document is
    not loaded.  When it is the tire document, the call throws the
    parser's exception whatever the vehicle document holds: no field is
    read before both documents are parsed. *)
Theorem setup_propagates_parser_exception (vehicle_id : Z)
    (dir_params : string) (files : fs.FileSystem) (e : Exception) :
  (files (vehicle_yaml vehicle_id dir_params) = Some (Throw e) ->
   files (tire_yaml dir_params) <> None ->
   setup_vehicle_parameters vehicle_id dir_params files =
     (Throw e, firstn 3 (document_accesses vehicle_id dir_params))) /\
  (forall dv,
      files (vehicle_yaml vehicle_id dir_params) = Some (Return dv) ->
      files (tire_yaml dir_params) = Some (Throw e) ->
      setup_vehicle_parameters vehicle_id dir_params files =
        (Throw e, document_accesses vehicle_id dir_params)).
Proof.
  split.
  - intros Hv Ht.
    destruct (files (tire_yaml dir_params)) as [ rt | ] eqn:Er;
      [ | contradiction ].
    exact (setup_vehicle_unreadable _ _ _ _ _ Hv Er).
  - intros dv Hv Ht. exact (setup_loaded _ _ _ _ _ Hv Ht).
Qed.

(** X3: a separator at the end of [dir_params] makes no difference: the call
    reads the same two documents, and does the same, as without it; and
    no [dir_params] at all stands for ["parameters"]. *)
Theorem dir_params_trailing_separator (vehicle_id : Z) (dir_params : string) :
  fs.has_filename dir_params = true ->
  vehicle_yaml vehicle_id (dir_params ++ "/") = vehicle_yaml vehicle_id dir_params /\
  tire_yaml (dir_params ++ "/") = tire_yaml dir_params /\
  setup_vehicle_parameters vehicle_id (dir_params ++ "/")
    = setup_vehicle_parameters vehicle_id dir_params /\
  setup_vehicle_parameters vehicle_id ""
    = setup_vehicle_parameters vehicle_id "parameters".
Proof.
  intros H.
  assert (Hne : empty dir_params = false)
    by (destruct dir_params; [ discriminate H | reflexivity ]).
  assert (Hne' : empty (dir_params ++ "/") = false)
    by (destruct dir_params; reflexivity).
  assert (Hsep : fs.has_filename (dir_params ++ "/") = false)
    by (rewrite has_filename_app; reflexivity).
  assert (Hv : vehicle_yaml vehicle_id (dir_params ++ "/")
               = vehicle_yaml vehicle_id dir_params).
  { rewrite !vehicle_yaml_string. unfold param_root. rewrite Hne, Hne', H, Hsep.
    rewrite append_assoc. reflexivity. }
  assert (Ht : tire_yaml (dir_params ++ "/") = tire_yaml dir_params).
  { rewrite !tire_yaml_string. unfold param_root. rewrite Hne, Hne', H, Hsep.
    rewrite append_assoc. reflexivity. }
  split; [ exact Hv | ]. split; [ exact Ht | ]. split.
  - unfold setup_vehicle_parameters. rewrite Hv, Ht. reflexivity.
  - reflexivity.
Qed.

(** X6: the identifier and the root only select the documents: two calls
    that find the same two documents, under whatever identifiers and
    roots, have the same outcome. *)
Theorem setup_outcome_from_documents_only (vehicle_id vehicle_id' : Z)
    (dir_params dir_params' : string) (files files' : fs.FileSystem)
    (rv rt : Result Tree) :
  files (vehicle_yaml vehicle_id dir_params) = Some rv ->
  files (tire_yaml dir_params) = Some rt ->
  files' (vehicle_yaml vehicle_id' dir_params') = Some rv ->
  files' (tire_yaml dir_params') = Some rt ->
  fst (setup_vehicle_parameters vehicle_id dir_params files) =
    fst (setup_vehicle_parameters vehicle_id' dir_params' files').
Proof.
  intros Hv Ht Hv' Ht'. destruct rv as [ dv | e ].
  - rewrite (setup_loaded _ _ _ _ _ Hv Ht), (setup_loaded _ _ _ _ _ Hv' Ht').
    reflexivity.
  - rewrite (setup_vehicle_unreadable _ _ _ _ _ Hv Ht).
    rewrite (setup_vehicle_unreadable _ _ _ _ _ Hv' Ht').
    reflexivity.
Qed.

(** ** When a call returns, and what it throws *)

Lemma find_app_none {A : Type} (f : A -> bool) (l1 l2 : list A) :
  List.find f (l1 ++ l2)%list = None ->
  List.find f l1 = None /\ List.find f l2 = None.
Proof.
  rewrite find_app. destruct (List.find f l1); [ discriminate | auto ].
Qed.

Lemma converting_none {A : Type} (c : Result A) (values : list Tree) :
  converting c values ->
  List.find unconvertible values = None ->
  exists a, c = Return a.
Proof. unfold converting. intros H Hn. rewrite Hn in H. exact H. Qed.

Lemma converting_tire (dt x : Tree) (tp : TireParameters.t) :
  find_key dt "tire" = Some x ->
  converting (load_tire (Handle dt) tp) (tire_values dt).
Proof.
  intros H. unfold tire_values. rewrite H.
  destruct (is_map x) eqn:Hx.
  - destruct x as [ mk | mk text | mk items | mk entries ];
      try discriminate Hx.
    rewrite (load_tire_nested _ _ _ _ H).
    apply converting_fields. reflexivity.
  - rewrite (load_tire_fallback _ _ _ H Hx).
    replace (match x with
             | Map mk entries => read_values tire_fields (Map mk entries)
             | _ => read_values tire_fields dt
             end) with (read_values tire_fields dt)
      by (destruct x; try reflexivity; discriminate Hx).
    apply converting_fields. exact (find_key_not_scalar _ _ _ H).
Qed.

Lemma present_values_not_scalar (dv dt : Tree) :
  is_scalar dv = false ->
  present_values dv dt =
    (read_values vehicle_fields dv
     ++ group_values steering_fields dv "steering"
     ++ group_values longitudinal_fields dv "longitudinal"
     ++ group_values trailer_fields dv "trailer"
     ++ tire_values dt)%list.
Proof. intros Hs. unfold present_values. rewrite Hs. reflexivity. Qed.

(** The loads of the vehicle document return when all its values
    convert. *)
Lemma vehicle_loads_return (dv dt : Tree) :
  is_scalar dv = false ->
  List.find unconvertible (present_values dv dt) = None ->
  (exists p, load_vehicle_scalars (Handle dv) VehicleParameters.default = Return p) /\
  (exists s, load_steering (Handle dv) SteeringParameters.default = Return s) /\
  (exists lp,
      load_longitudinal (Handle dv) LongitudinalParameters.default = Return lp) /\
  (exists tr, load_trailer (Handle dv) TrailerParameters.default = Return tr) /\
  List.find unconvertible (tire_values dt) = None.
Proof.
  intros Hs H. rewrite (present_values_not_scalar _ _ Hs) in H.
  apply find_app_none in H. destruct H as (H0 & H).
  apply find_app_none in H. destruct H as (H1 & H).
  apply find_app_none in H. destruct H as (H2 & H).
  apply find_app_none in H. destruct H as (H3 & H4).
  repeat split.
  - rewrite load_vehicle_scalars_fields.
    exact (converting_none _ _ (converting_fields _ _ _ Hs) H0).
  - rewrite load_steering_fields.
    exact (converting_none _ _ (converting_group _ _ _ _ Hs) H1).
  - rewrite load_longitudinal_fields.
    exact (converting_none _ _ (converting_group _ _ _ _ Hs) H2).
  - rewrite load_trailer_fields.
    exact (converting_none _ _ (converting_group _ _ _ _ Hs) H3).
  - exact H4.
Qed.

(** [populate] when the vehicle part returns: the outcome is that of
    [load_tire]. *)
Lemma populate_tire_outcome (dv dt : Tree) :
  is_scalar dv = false ->
  List.find unconvertible (present_values dv dt) = None ->
  exists q,
    populate (Handle dv) (Handle dt) =
      (tp <- load_tire (Handle dt) TireParameters.default;;
       Return (VehicleParameters.set_tire tp q)).
Proof.
  intros Hs H.
  destruct (vehicle_loads_return dv dt Hs H)
    as ((p & Hp) & (s & Hst) & (lp & Hlp) & (tr & Htr) & _).
  rewrite populate_stages, Hp, Hst, Hlp, Htr. cbn [bind].
  exists (VehicleParameters.set_trailer tr
            (VehicleParameters.set_longitudinal lp
               (VehicleParameters.set_steering s p))).
  reflexivity.
Qed.

(** X7: a call on two documents that parse returns a structure exactly when
    the vehicle document is not a bare scalar, the tire document has an
    entry under ["tire"], and every value the call converts does
    convert. *)
Theorem setup_returns_exactly_when (vehicle_id : Z) (dir_params : string)
    (files : fs.FileSystem) (dv dt : Tree) :
  files (vehicle_yaml vehicle_id dir_params) = Some (Return dv) ->
  files (tire_yaml dir_params) = Some (Return dt) ->
  ((exists p,
       fst (setup_vehicle_parameters vehicle_id dir_params files) = Return p)
   <->
   (is_scalar dv = false /\
    find_key dt "tire" <> None /\
    List.find unconvertible (present_values dv dt) = None)).
Proof.
  intros Hv Ht. rewrite (setup_populate _ _ _ _ _ Hv Ht). split.
  - intros (p & Hp).
    pose proof (populate_Return_not_scalar _ _ _ Hp) as Hs.
    split; [ exact Hs | ]. split.
    + intros Hk. apply populate_Return in Hp.
      destruct Hp as (p0 & s & lp & tr & tp & _ & _ & _ & _ & H4 & _).
      destruct (is_scalar dt) eqn:Hst.
      * destruct dt; try discriminate Hst. discriminate H4.
      * rewrite (load_tire_without_key _ _ Hst Hk) in H4. discriminate H4.
    + destruct (List.find unconvertible (present_values dv dt)) as [ x | ] eqn:Hx;
        [ | reflexivity ].
      rewrite (stage_outcome_first _ _ _ (stage_outcome_populate dv dt) Hx) in Hp.
      discriminate Hp.
  - intros (Hs & Hk & Hn).
    destruct (populate_tire_outcome dv dt Hs Hn) as (q & ->).
    destruct (find_key dt "tire") as [ x | ] eqn:Hx; [ | contradiction ].
    destruct (vehicle_loads_return dv dt Hs Hn) as (_ & _ & _ & _ & Hnt).
    destruct (converting_none _ _ (converting_tire dt x TireParameters.default Hx) Hnt)
      as (tp & ->).
    eexists. reflexivity.
Qed.

(** X8: what a call on two documents that parse can throw, and why: the
    conversion error of a value that does not convert; [BadSubscript]
    with the key ["l"] when the vehicle document is a bare scalar;
    [BadSubscript] with the key ["tire"] when the tire document is one;
    [InvalidNode] with the key ["tire"] when the tire document has no
    entry under that key.  Nothing else is thrown. *)
Theorem setup_exceptions (vehicle_id : Z) (dir_params : string)
    (files : fs.FileSystem) (dv dt : Tree) (e : Exception) :
  files (vehicle_yaml vehicle_id dir_params) = Some (Return dv) ->
  files (tire_yaml dir_params) = Some (Return dt) ->
  fst (setup_vehicle_parameters vehicle_id dir_params files) = Throw e ->
  (exists x,
      In x (present_values dv dt) /\ unconvertible x = true /\
      e = TypedBadConversion (mark x)) \/
  (exists mk text, dv = Scalar mk text /\ e = BadSubscript mk "l") \/
  (is_scalar dv = false /\
   exists mk text, dt = Scalar mk text /\ e = BadSubscript mk "tire") \/
  (is_scalar dv = false /\ is_scalar dt = false /\
   find_key dt "tire" = None /\ e = InvalidNode "tire").
Proof.
  intros Hv Ht. rewrite (setup_populate _ _ _ _ _ Hv Ht). intros He.
  destruct (is_scalar dv) eqn:Hs.
  - right. left.
    destruct dv as [ mk | mk text | mk items | mk entries ];
      try discriminate Hs.
    rewrite populate_scalar in He. injection He as <-.
    exists mk, text. split; reflexivity.
  - destruct (List.find unconvertible (present_values dv dt)) as [ x | ] eqn:Hx.
    + left. exists x.
      rewrite (stage_outcome_first _ _ _ (stage_outcome_populate dv dt) Hx) in He.
      injection He as <-.
      apply List.find_some in Hx. destruct Hx as (Hin & Hx). auto.
    + right. right.
      destruct (populate_tire_outcome dv dt Hs Hx) as (q & Hq).
      rewrite Hq in He. clear Hq.
      destruct (find_key dt "tire") as [ x | ] eqn:Hk.
      * destruct (vehicle_loads_return dv dt Hs Hx) as (_ & _ & _ & _ & Hnt).
        destruct (converting_none _ _
                    (converting_tire dt x TireParameters.default Hk) Hnt)
          as (tp & Htp).
        rewrite Htp in He. discriminate He.
      * destruct (is_scalar dt) eqn:Hst.
        -- left. split; [ reflexivity | ].
           destruct dt as [ mk | mk text | mk items | mk entries ];
             try discriminate Hst.
           change (load_tire (Handle (Scalar mk text)) TireParameters.default)
             with (@Throw TireParameters.t (BadSubscript mk "tire")) in He.
           injection He as <-. exists mk, text. split; reflexivity.
        -- right. rewrite (load_tire_without_key _ _ Hst Hk) in He.
           injection He as <-. repeat split; reflexivity.
Qed.

(** ** The value of every field *)

Lemma lenses_untouched {T : Type} (get : T -> double)
    (ls : list (string * (double -> T -> T) * (T -> double))) :
  Forall (fun l' => forall v x, get (snd (fst l') v x) = get x) ls ->
  untouched get (setters ls).
Proof.
  unfold untouched, setters. induction 1 as [ | l' ls H _ IH ]; simpl.
  - apply Forall_nil.
  - apply Forall_cons; [ exact H | exact IH ].
Qed.

Lemma assign_fields_lenses {T : Type} (t : Tree)
    (ls : list (string * (double -> T -> T) * (T -> double))) :
  is_scalar t = false -> lenses_wf ls ->
  forall target target',
    assign_fields (Handle t) (setters ls) target = Return target' ->
    Forall (fun l =>
              Some (snd l target') =
                match find_key t (fst (fst l)) with
                | Some x => converted x
                | None => Some (snd l target)
                end) ls.
Proof.
  intros Hs. induction ls as [ | [[key set] get] ls IH ]; intros Hwf target target' H.
  - apply Forall_nil.
  - destruct Hwf as (Hget & Hothers & Hwf).
    cbn [setters List.map fst assign_fields] in H.
    apply bind_Return_inv in H. destruct H as (t1 & H1 & H).
    fold (setters ls) in H.
    cbn [fst snd] in Hget.
    assert (Hblind : untouched get (setters ls)).
    { apply lenses_untouched.
      apply (Forall_impl _ (fun l' Hl' => proj2 Hl') Hothers). }
    pose proof (assign_fields_untouched get _ _ Hblind _ _ H) as Hkeep.
    apply Forall_cons.
    + cbn [fst snd]. rewrite Hkeep.
      destruct (find_key t key) as [ x | ] eqn:Hk.
      * rewrite (assign_if_present_found _ _ _ _ _ Hk), as_double_convertible in H1.
        destruct (converted x) as [ v | ]; [ | discriminate H1 ].
        injection H1 as <-. rewrite Hget. reflexivity.
      * rewrite (assign_if_present_absent _ _ _ _ Hs Hk) in H1.
        injection H1 as <-. reflexivity.
    + pose proof (IH Hwf _ _ H) as Hrest.
      rewrite Forall_forall in Hrest, Hothers. rewrite Forall_forall.
      intros l' Hin. rewrite (Hrest l' Hin).
      destruct (find_key t (fst (fst l'))); [ reflexivity | ].
      f_equal.
      apply assign_if_present_Return in H1.
      destruct H1 as [ -> | (v & ->) ]; [ reflexivity | ].
      exact (proj1 (Hothers l' Hin) v target).
Qed.

Ltac lenses_wf_by_computation :=
  simpl;
  repeat match goal with
         | |- _ /\ _ => split
         | |- Forall _ _ => constructor
         | |- True => exact I
         | |- forall _, _ => intros v [ ]; reflexivity
         end.

Lemma vehicle_lenses_wf : lenses_wf vehicle_lenses.
Proof. lenses_wf_by_computation. Qed.

Lemma steering_lenses_wf : lenses_wf steering_lenses.
Proof. lenses_wf_by_computation. Qed.

Lemma longitudinal_lenses_wf : lenses_wf longitudinal_lenses.
Proof. lenses_wf_by_computation. Qed.

Lemma trailer_lenses_wf : lenses_wf trailer_lenses.
Proof. lenses_wf_by_computation. Qed.

Lemma tire_lenses_wf : lenses_wf tire_lenses.
Proof. lenses_wf_by_computation. Qed.

(** A structure read from a source, or left at its default: every field
    holds what is expected of it. *)
Lemma lenses_values {T : Type}
    (ls : list (string * (double -> T -> T) * (T -> double)))
    (default target' : T) (source : option Tree) :
  lenses_wf ls ->
  Forall (fun l => snd l default = zero) ls ->
  match source with
  | Some t =>
      is_scalar t = false /\
      assign_fields (Handle t) (setters ls) default = Return target'
  | None => target' = default
  end ->
  Forall (fun l => Some (snd l target') = expected_in source (fst (fst l))) ls.
Proof.
  intros Hwf Hzero H. destruct source as [ t | ].
  - destruct H as (Hs & H).
    pose proof (assign_fields_lenses t ls Hs Hwf _ _ H) as Hv.
    rewrite Forall_forall in Hv, Hzero. rewrite Forall_forall.
    intros l Hin. rewrite (Hv l Hin). unfold expected_in, expected.
    rewrite (Hzero l Hin). reflexivity.
  - subst target'. rewrite Forall_forall in Hzero. rewrite Forall_forall.
    intros l Hin. simpl. rewrite (Hzero l Hin). reflexivity.
Qed.

(** The loaders in terms of their sources. *)
Lemma group_load_source {T : Type} (dv : Tree) (group : string)
    (fields : list (string * (double -> T -> T))) (target : T) :
  is_scalar dv = false ->
  (n <- index (Handle dv) group;;
   c <- undefined_or_not_map n;;
   if c then Return target else assign_fields n fields target) =
  match group_source dv group with
  | Some t => assign_fields (Handle t) fields target
  | None => Return target
  end.
Proof.
  intros Hs. rewrite (index_not_scalar _ _ Hs). unfold group_source.
  destruct (find_key dv group) as [ [ mk | mk text | mk items | mk entries ] | ];
    reflexivity.
Qed.

Lemma group_source_not_scalar (dv t : Tree) (group : string) :
  group_source dv group = Some t -> is_scalar t = false.
Proof.
  unfold group_source.
  destruct (find_key dv group) as [ [ mk | mk text | mk items | mk entries ] | ];
    intros H; try discriminate H.
  injection H as <-. reflexivity.
Qed.

Lemma tire_load_source (dt : Tree) (tp : TireParameters.t) :
  is_scalar dt = false ->
  load_tire (Handle dt) tp =
    match tire_source dt with
    | Some t => assign_fields (Handle t) tire_fields tp
    | None => Throw (InvalidNode "tire")
    end.
Proof.
  intros Hs. unfold tire_source.
  destruct (find_key dt "tire") as [ x | ] eqn:H.
  - destruct (is_map x) eqn:Hx.
    + destruct x as [ mk | mk text | mk items | mk entries ];
        try discriminate Hx.
      exact (load_tire_nested _ _ _ _ H).
    + rewrite (load_tire_fallback _ _ _ H Hx).
      destruct x; try reflexivity; discriminate Hx.
  - exact (load_tire_without_key _ _ Hs H).
Qed.

Lemma tire_source_not_scalar (dt t : Tree) :
  is_scalar dt = false -> tire_source dt = Some t -> is_scalar t = false.
Proof.
  unfold tire_source. intros Hs.
  destruct (find_key dt "tire") as [ [ mk | mk text | mk items | mk entries ] | ];
    intros H; try discriminate H; injection H as <-; auto.
Qed.

Lemma load_tire_Return_not_scalar (dt : Tree) (tp tp' : TireParameters.t) :
  load_tire (Handle dt) tp = Return tp' -> is_scalar dt = false.
Proof. destruct dt; try reflexivity. intros H. discriminate H. Qed.

Ltac all_zero := repeat constructor.

(** X9: when a call returns, every field of the structure holds the double
    that the first entry under its key converts to, and zero when there
    is no such entry: the top-level scalars are read from the vehicle
    document, each group from the map under its key, and the tire
    coefficients from the map under ["tire"] of the tire document, or
    from its top level when it holds something else under that key. *)
Theorem setup_field_values (vehicle_id : Z) (dir_params : string)
    (files : fs.FileSystem) (dv dt : Tree) (p : VehicleParameters.t) :
  files (vehicle_yaml vehicle_id dir_params) = Some (Return dv) ->
  files (tire_yaml dir_params) = Some (Return dt) ->
  fst (setup_vehicle_parameters vehicle_id dir_params files) = Return p ->
  Forall (fun l => Some (snd l p) = expected dv (fst (fst l))) vehicle_lenses /\
  Forall (fun l =>
            Some (snd l (VehicleParameters.steering p)) =
              expected_in (group_source dv "steering") (fst (fst l)))
    steering_lenses /\
  Forall (fun l =>
            Some (snd l (VehicleParameters.longitudinal p)) =
              expected_in (group_source dv "longitudinal") (fst (fst l)))
    longitudinal_lenses /\
  Forall (fun l =>
            Some (snd l (VehicleParameters.trailer p)) =
              expected_in (group_source dv "trailer") (fst (fst l)))
    trailer_lenses /\
  Forall (fun l =>
            Some (snd l (VehicleParameters.tire p)) =
              expected_in (tire_source dt) (fst (fst l)))
    tire_lenses.
Proof.
  intros Hv Ht. rewrite (setup_populate _ _ _ _ _ Hv Ht). intros Hp.
  pose proof (populate_Return_not_scalar _ _ _ Hp) as Hs.
  apply populate_Return in Hp.
  destruct Hp as (p0 & s & lp & tr & tp & H0 & H1 & H2 & H3 & H4 & ->).
  destruct (with_groups_projections s lp tr tp p0) as (-> & -> & -> & ->).
  split; [ | split; [ | split; [ | split ] ] ].
  - rewrite load_vehicle_scalars_fields in H0.
    assert (Hsame : Forall (fun l => snd l (with_groups s lp tr tp p0) = snd l p0)
                      vehicle_lenses)
      by (destruct p0; all_zero).
    assert (Hval : Forall (fun l => Some (snd l p0) =
                             expected_in (Some dv) (fst (fst l))) vehicle_lenses).
    { apply (lenses_values vehicle_lenses VehicleParameters.default p0 (Some dv)
               vehicle_lenses_wf); [ all_zero | ].
      split; [ exact Hs | exact H0 ]. }
    rewrite Forall_forall in Hsame, Hval. rewrite Forall_forall.
    intros l Hin. rewrite (Hsame l Hin). exact (Hval l Hin).
  - rewrite load_steering_fields, (group_load_source _ _ _ _ Hs) in H1.
    apply (lenses_values steering_lenses SteeringParameters.default s _
             steering_lenses_wf); [ all_zero | ].
    destruct (group_source dv "steering") as [ t | ] eqn:Hg.
    + split; [ exact (group_source_not_scalar _ _ _ Hg) | exact H1 ].
    + injection H1 as <-. reflexivity.
  - rewrite load_longitudinal_fields, (group_load_source _ _ _ _ Hs) in H2.
    apply (lenses_values longitudinal_lenses LongitudinalParameters.default lp _
             longitudinal_lenses_wf); [ all_zero | ].
    destruct (group_source dv "longitudinal") as [ t | ] eqn:Hg.
    + split; [ exact (group_source_not_scalar _ _ _ Hg) | exact H2 ].
    + injection H2 as <-. reflexivity.
  - rewrite load_trailer_fields, (group_load_source _ _ _ _ Hs) in H3.
    apply (lenses_values trailer_lenses TrailerParameters.default tr _
             trailer_lenses_wf); [ all_zero | ].
    destruct (group_source dv "trailer") as [ t | ] eqn:Hg.
    + split; [ exact (group_source_not_scalar _ _ _ Hg) | exact H3 ].
    + injection H3 as <-. reflexivity.
  - pose proof (load_tire_Return_not_scalar _ _ _ H4) as Hst.
    rewrite (tire_load_source _ _ Hst) in H4.
    destruct (tire_source dt) as [ t | ] eqn:Hg; [ | discriminate H4 ].
    apply (lenses_values tire_lenses TireParameters.default tp (Some t)
             tire_lenses_wf); [ all_zero | ].
    split; [ exact (tire_source_not_scalar _ _ Hst Hg) | exact H4 ].
Qed.

(** ** What the outcome depends on *)

Lemma assign_fields_same_fields {T : Type} (t t' : Tree)
    (fields : list (string * (double -> T -> T))) (target : T) :
  is_scalar t = false -> is_scalar t' = false ->
  same_fields fields t t' ->
  assign_fields (Handle t) fields target = assign_fields (Handle t') fields target.
Proof.
  intros Hs Hs' H. apply assign_fields_ext. intros key Hk.
  rewrite (index_not_scalar _ _ Hs), (index_not_scalar _ _ Hs'), (H key Hk).
  reflexivity.
Qed.

Lemma group_load_same_source {T : Type} (dv dv' : Tree) (group : string)
    (fields : list (string * (double -> T -> T))) (target : T) :
  is_scalar dv = false -> is_scalar dv' = false ->
  same_source fields (group_source dv group) (group_source dv' group) ->
  (n <- index (Handle dv) group;;
   c <- undefined_or_not_map n;;
   if c then Return target else assign_fields n fields target) =
  (n <- index (Handle dv') group;;
   c <- undefined_or_not_map n;;
   if c then Return target else assign_fields n fields target).
Proof.
  intros Hs Hs' H.
  rewrite (group_load_source _ _ _ _ Hs), (group_load_source _ _ _ _ Hs').
  destruct (group_source dv group) as [ t | ] eqn:Hg;
    destruct (group_source dv' group) as [ t' | ] eqn:Hg';
    try contradiction; [ | reflexivity ].
  apply assign_fields_same_fields;
    [ exact (group_source_not_scalar _ _ _ Hg)
    | exact (group_source_not_scalar _ _ _ Hg')
    | exact H ].
Qed.

Lemma populate_same_sources (dv dv' dt dt' : Tree) :
  is_scalar dv = false -> is_scalar dv' = false ->
  is_scalar dt = false -> is_scalar dt' = false ->
  same_fields vehicle_fields dv dv' ->
  same_source steering_fields
    (group_source dv "steering") (group_source dv' "steering") ->
  same_source longitudinal_fields
    (group_source dv "longitudinal") (group_source dv' "longitudinal") ->
  same_source trailer_fields
    (group_source dv "trailer") (group_source dv' "trailer") ->
  same_source tire_fields (tire_source dt) (tire_source dt') ->
  populate (Handle dv) (Handle dt) = populate (Handle dv') (Handle dt').
Proof.
  intros Hs Hs' Hst Hst' Hv H1 H2 H3 H4.
  rewrite !populate_stages.
  rewrite (load_vehicle_scalars_ext dv dv' _ Hs Hs' Hv).
  rewrite (load_steering_fields (Handle dv)), (load_steering_fields (Handle dv')).
  rewrite (group_load_same_source dv dv' "steering" _ _ Hs Hs' H1).
  rewrite (load_longitudinal_fields (Handle dv)),
    (load_longitudinal_fields (Handle dv')).
  rewrite (group_load_same_source dv dv' "longitudinal" _ _ Hs Hs' H2).
  rewrite (load_trailer_fields (Handle dv)), (load_trailer_fields (Handle dv')).
  rewrite (group_load_same_source dv dv' "trailer" _ _ Hs Hs' H3).
  rewrite (tire_load_source dt _ Hst), (tire_load_source dt' _ Hst').
  destruct (tire_source dt) as [ t | ] eqn:Hg;
    destruct (tire_source dt') as [ t' | ] eqn:Hg';
    try contradiction; [ | reflexivity ].
  rewrite (assign_fields_same_fields t t' tire_fields TireParameters.default
             (tire_source_not_scalar _ _ Hst Hg)
             (tire_source_not_scalar _ _ Hst' Hg') H4).
  reflexivity.
Qed.

(** X10: the outcome of a call, structure or exception, depends on the two
    documents only through the first entry under each key that a loader
    reads: two pairs of documents whose vehicle documents agree under the
    top-level scalar keys, whose groups agree under their keys, and
    whose tire sources agree under the tire keys, give the same outcome.
    The order of the entries, entries under other keys and repeated
    entries make no difference. *)
Theorem setup_depends_on_read_entries_only (vehicle_id : Z)
    (dir_params : string) (files files' : fs.FileSystem)
    (dv dv' dt dt' : Tree) :
  files (vehicle_yaml vehicle_id dir_params) = Some (Return dv) ->
  files (tire_yaml dir_params) = Some (Return dt) ->
  files' (vehicle_yaml vehicle_id dir_params) = Some (Return dv') ->
  files' (tire_yaml dir_params) = Some (Return dt') ->
  is_scalar dv = false -> is_scalar dv' = false ->
  is_scalar dt = false -> is_scalar dt' = false ->
  same_fields vehicle_fields dv dv' ->
  same_source steering_fields
    (group_source dv "steering") (group_source dv' "steering") ->
  same_source longitudinal_fields
    (group_source dv "longitudinal") (group_source dv' "longitudinal") ->
  same_source trailer_fields
    (group_source dv "trailer") (group_source dv' "trailer") ->
  same_source tire_fields (tire_source dt) (tire_source dt') ->
  fst (setup_vehicle_parameters vehicle_id dir_params files) =
    fst (setup_vehicle_parameters vehicle_id dir_params files').
Proof.
  intros Hv Ht Hv' Ht'.
  rewrite (setup_populate _ _ _ _ _ Hv Ht), (setup_populate _ _ _ _ _ Hv' Ht').
  apply populate_same_sources.
Qed.

Lemma find_entry_without (before after : list (Tree * Tree)) (k v : Tree)
    (key : string) :
  key_equals k key = false ->
  find_entry (before ++ (k, v) :: after)%list key =
    find_entry (before ++ after)%list key.
Proof.
  intros Hk. induction before as [ | [k0 v0] before IH ]; simpl.
  - rewrite Hk. reflexivity.
  - destruct (key_equals k0 key); [ reflexivity | exact IH ].
Qed.

Lemma group_source_without (mk : Mark) (before after : list (Tree * Tree))
    (k v : Tree) (group : string) :
  key_equals k group = false ->
  group_source (Map mk (before ++ (k, v) :: after)) group =
    group_source (Map mk (before ++ after)) group.
Proof.
  intros Hk. unfold group_source, find_key.
  rewrite (find_entry_without _ _ _ _ _ Hk). reflexivity.
Qed.

Lemma same_source_refl {T : Type} (fields : list (string * (double -> T -> T)))
    (s : option Tree) :
  same_source fields s s.
Proof. destruct s as [ t | ]; simpl; [ intros key _; reflexivity | exact I ]. Qed.

(** X11: an entry of the vehicle document whose key is none of those the
    loaders read, wherever it stands among the top-level entries, changes
    nothing: the call has the outcome it has without that entry. *)
Theorem setup_ignores_unknown_key (vehicle_id : Z) (dir_params : string)
    (files files' : fs.FileSystem) (mk : Mark)
    (before after : list (Tree * Tree)) (k v dt : Tree) :
  files (vehicle_yaml vehicle_id dir_params)
    = Some (Return (Map mk (before ++ (k, v) :: after))) ->
  files' (vehicle_yaml vehicle_id dir_params)
    = Some (Return (Map mk (before ++ after))) ->
  files (tire_yaml dir_params) = Some (Return dt) ->
  files' (tire_yaml dir_params) = Some (Return dt) ->
  (forall key,
      In key (List.map fst vehicle_fields
              ++ ["steering"; "longitudinal"; "trailer"])%list ->
      key_equals k key = false) ->
  fst (setup_vehicle_parameters vehicle_id dir_params files) =
    fst (setup_vehicle_parameters vehicle_id dir_params files').
Proof.
  intros Hv Hv' Ht Ht' Hk.
  rewrite (setup_populate _ _ _ _ _ Hv Ht), (setup_populate _ _ _ _ _ Hv' Ht').
  assert (Hgroup : forall group,
             In group ["steering"; "longitudinal"; "trailer"] ->
             group_source (Map mk (before ++ (k, v) :: after)) group =
               group_source (Map mk (before ++ after)) group).
  { intros group Hin. apply group_source_without. apply Hk.
    apply in_or_app. right. exact Hin. }
  destruct (is_scalar dt) eqn:Hst.
  - rewrite !populate_stages.
    rewrite (load_vehicle_scalars_ext
               (Map mk (before ++ (k, v) :: after)) (Map mk (before ++ after))
               _ eq_refl eq_refl).
    + rewrite !load_steering_fields, !load_longitudinal_fields,
        !load_trailer_fields.
      rewrite !(group_load_source (Map mk (before ++ (k, v) :: after)))
        by reflexivity.
      rewrite !(group_load_source (Map mk (before ++ after))) by reflexivity.
      rewrite !Hgroup by (simpl; auto). reflexivity.
    + intros key Hin. apply find_entry_without. apply Hk.
      apply in_or_app. left. exact Hin.
  - apply populate_same_sources; try reflexivity; try exact Hst.
    + intros key Hin. apply find_entry_without. apply Hk.
      apply in_or_app. left. exact Hin.
    + rewrite Hgroup by (simpl; auto). apply same_source_refl.
    + rewrite Hgroup by (simpl; auto). apply same_source_refl.
    + rewrite Hgroup by (simpl; auto). apply same_source_refl.
    + apply same_source_refl.
Qed.

(** X12: when the tire document holds a map under ["tire"], that map is all
    the call reads of it: two tire documents with the same map under
    ["tire"] give the same outcome, whatever else they hold. *)
Theorem setup_reads_nested_tire_map_only (vehicle_id : Z) (dir_params : string)
    (files files' : fs.FileSystem) (dv dt dt' : Tree) (mk : Mark)
    (entries : list (Tree * Tree)) :
  files (vehicle_yaml vehicle_id dir_params) = Some (Return dv) ->
  files' (vehicle_yaml vehicle_id dir_params) = Some (Return dv) ->
  files (tire_yaml dir_params) = Some (Return dt) ->
  files' (tire_yaml dir_params) = Some (Return dt') ->
  find_key dt "tire" = Some (Map mk entries) ->
  find_key dt' "tire" = Some (Map mk entries) ->
  fst (setup_vehicle_parameters vehicle_id dir_params files) =
    fst (setup_vehicle_parameters vehicle_id dir_params files').
Proof.
  intros Hv Hv' Ht Ht' H H'.
  rewrite (setup_populate _ _ _ _ _ Hv Ht), (setup_populate _ _ _ _ _ Hv' Ht').
  rewrite !populate_stages.
  rewrite (load_tire_nested _ _ _ _ H), (load_tire_nested _ _ _ _ H').
  reflexivity.
Qed.

Lemma assign_fields_no_key {T : Type} (t : Tree)
    (fields : list (string * (double -> T -> T))) (target : T) :
  is_scalar t = false -> (forall key, find_key t key = None) ->
  assign_fields (Handle t) fields target = Return target.
Proof.
  intros Hs H. induction fields as [ | [key set] rest IH ]; simpl.
  - reflexivity.
  - rewrite (assign_if_present_absent _ _ _ _ Hs (H key)). exact IH.
Qed.

(** X13: a vehicle document in which no key finds anything (an empty
    mapping, the null document of an empty file, a sequence) sets no
    field: the call returns the default structure with the tire group
    that the tire document gives, or throws what [load_tire] throws. *)
Theorem setup_vehicle_document_without_entries (vehicle_id : Z)
    (dir_params : string) (files : fs.FileSystem) (dv dt : Tree) :
  files (vehicle_yaml vehicle_id dir_params) = Some (Return dv) ->
  files (tire_yaml dir_params) = Some (Return dt) ->
  is_scalar dv = false ->
  (forall key, find_key dv key = None) ->
  fst (setup_vehicle_parameters vehicle_id dir_params files) =
    (tp <- load_tire (Handle dt) TireParameters.default;;
     Return (VehicleParameters.set_tire tp VehicleParameters.default)).
Proof.
  intros Hv Ht Hs Hnone.
  rewrite (setup_populate _ _ _ _ _ Hv Ht), populate_stages.
  rewrite load_vehicle_scalars_fields, (assign_fields_no_key _ _ _ Hs Hnone).
  rewrite load_steering_fields, load_longitudinal_fields, load_trailer_fields.
  rewrite !(group_load_source dv) by exact Hs.
  unfold group_source. rewrite !Hnone. reflexivity.
Qed.


(** ** A tire document whose ["tire"] entry is no map *)

(** C10: when the tire document holds something other than a map under
    ["tire"], the top level of the document is the source of the tire
    fields: [load_tire] does what it would do for that same top level
    nested under a ["tire"] key, whatever the value under ["tire"] is.
    It returns when the coefficients at the top level convert, and
    every field of what it returns then holds the double that the entry
    under its key, next to the ["tire"] entry, converts to, the fields
    without such an entry keeping their value. *)
Theorem C10_tire_entry_that_is_no_map (dt x : Tree) (tp : TireParameters.t) :
  find_key dt "tire" = Some x -> is_map x = false ->
  load_tire (Handle dt) tp = assign_fields (Handle dt) tire_fields tp /\
  (forall mk mk',
      load_tire (Handle dt) tp =
        load_tire (Handle (Map mk [(Scalar mk' "tire", dt)])) tp) /\
  (forall key set, In (key, set) tire_fields ->
   forall mk mk1 mk2 mk3 text v,
     decode text = Some v ->
     load_tire
       (Handle (Map mk [(Scalar mk1 "tire", x); (Scalar mk2 key, Scalar mk3 text)]))
       tp = Return (set v tp)) /\
  (List.find unconvertible (read_values tire_fields dt) = None ->
   exists tp', load_tire (Handle dt) tp = Return tp') /\
  (forall tp',
      load_tire (Handle dt) tp = Return tp' ->
      Forall (fun l =>
                Some (snd l tp') =
                  match find_key dt (fst (fst l)) with
                  | Some y => converted y
                  | None => Some (snd l tp)
                  end) tire_lenses).
Proof.
  intros H Hx.
  pose proof (find_key_not_scalar _ _ _ H) as Hs.
  split; [ | split; [ | split; [ | split ] ] ].
  - exact (load_tire_fallback _ _ _ H Hx).
  - intros mk mk'. rewrite (load_tire_fallback _ _ _ H Hx).
    destruct dt as [ m | m text | m items | m entries ]; try discriminate H.
    symmetry. apply load_tire_nested. reflexivity.
  - intros key set Hin mk mk1 mk2 mk3 text v Hv.
    rewrite (load_tire_fallback _ x); [ | reflexivity | exact Hx ].
    destruct tp.
    each_field Hin; cbv; rewrite Hv; reflexivity.
  - intros Hn. rewrite (load_tire_fallback _ _ _ H Hx).
    exact (converting_none _ _ (converting_fields dt tire_fields tp Hs) Hn).
  - intros tp' Hload. rewrite (load_tire_fallback _ _ _ H Hx) in Hload.
    exact (assign_fields_lenses dt tire_lenses Hs tire_lenses_wf tp tp' Hload).
Qed.

End Resolver.

(** * Closed instances *)

Import YAML YAMLOps.

(** C1, as stated, fails: a vehicle document that carries tire
    coefficients, nested under ["tire"] and at its top level, leaves the
    tire group as the tire document has it. *)
Lemma C1_vehicle_document_does_not_override :
  exists p,
    fst (setup_vehicle_parameters Sample.decode Sample.no_failure 1 ""
           (Sample.files Sample.vehicle_with_tire_entries Sample.tire_one))
      = Return p /\
    find_key Sample.vehicle_with_tire_entries "p_cx1" = Some (Doc.scalar "2") /\
    find_key Sample.vehicle_with_tire_entries "tire"
      = Some (Doc.map_of [("p_cx1", Doc.scalar "2")]) /\
    Sample.decode "2" = Some Sample.two /\
    TireParameters.p_cx1 (VehicleParameters.tire p) = Sample.one /\
    Sample.one <> Sample.two.
Proof.
  eexists. repeat split; try reflexivity. discriminate.
Qed.

Lemma C1_witness :
  load_tire Sample.decode (Handle Sample.tire_one) TireParameters.default =
    Return (TireParameters.set_p_cx1 Sample.one TireParameters.default) /\
  VehicleParameters.tire
    (VehicleParameters.set_tire
       (TireParameters.set_p_cx1 Sample.one TireParameters.default)
       VehicleParameters.default) =
  TireParameters.set_p_cx1 Sample.one TireParameters.default.
Proof.
  apply (C1_tire_group_from_tire_document_only Sample.decode Sample.no_failure 1 ""
           (Sample.files Sample.vehicle_with_tire_entries Sample.tire_one)
           (Sample.files Sample.no_field Sample.tire_one)
           Sample.vehicle_with_tire_entries Sample.no_field Sample.tire_one
           (VehicleParameters.set_tire
              (TireParameters.set_p_cx1 Sample.one TireParameters.default)
              VehicleParameters.default)
           (VehicleParameters.set_tire
              (TireParameters.set_p_cx1 Sample.one TireParameters.default)
              VehicleParameters.default));
    reflexivity.
Defined.

Lemma C2_witness :
  setup_vehicle_parameters Sample.decode Sample.no_failure 1 "" Sample.no_files =
    (Throw (runtime_error
              "Vehicle parameter file not found: parameters/vehicle/parameters_vehicle1.yaml"),
     [EvExists "parameters/vehicle/parameters_vehicle1.yaml"]) /\
  setup_vehicle_parameters Sample.decode Sample.name_too_long 1 "" Sample.no_files =
    (Throw (filesystem_error "File name too long"
              "parameters/vehicle/parameters_vehicle1.yaml"),
     [EvExists "parameters/vehicle/parameters_vehicle1.yaml"]) /\
  setup_vehicle_parameters Sample.decode Sample.no_failure 1 ""
    (Sample.only_vehicle Sample.no_field) =
    (Throw (runtime_error
              "Tire parameter file not found: parameters/tire/parameters_tire.yaml"),
     [EvExists "parameters/vehicle/parameters_vehicle1.yaml";
      EvExists "parameters/tire/parameters_tire.yaml"]) /\
  setup_vehicle_parameters Sample.decode Sample.name_too_long 1 ""
    (Sample.only_vehicle Sample.no_field) =
    (Throw (filesystem_error "File name too long"
              "parameters/tire/parameters_tire.yaml"),
     [EvExists "parameters/vehicle/parameters_vehicle1.yaml";
      EvExists "parameters/tire/parameters_tire.yaml"]).
Proof.
  split; [ | split; [ | split ] ].
  - apply (proj1 (proj1 (C2_missing_documents_fail_first Sample.decode
                           Sample.no_failure 1 "" Sample.no_files) eq_refl)).
    reflexivity.
  - apply (proj2 (proj1 (C2_missing_documents_fail_first Sample.decode
                           Sample.name_too_long 1 "" Sample.no_files) eq_refl)).
    reflexivity.
  - refine (proj1 (proj1 (proj2 (C2_missing_documents_fail_first Sample.decode
                                   Sample.no_failure 1 ""
                                   (Sample.only_vehicle Sample.no_field)))
                     _ eq_refl) eq_refl).
    discriminate.
  - refine (proj2 (proj1 (proj2 (C2_missing_documents_fail_first Sample.decode
                                   Sample.name_too_long 1 ""
                                   (Sample.only_vehicle Sample.no_field)))
                     _ eq_refl) "File name too long" eq_refl).
    discriminate.
Defined.

(** C3: the nested tire document resolves; the flat one, with the same
    coefficient and no ["tire"] key, makes the call throw [InvalidNode]
    at the assignment [n = root]; and a nested map, when there is one,
    is preferred to coefficients at the top level. *)
Theorem C3_flat_tire_document_throws :
  fst (setup_vehicle_parameters Sample.decode Sample.no_failure 1 ""
         (Sample.files Sample.no_field Sample.nested_tire))
    = Return (VehicleParameters.set_tire
                (TireParameters.set_p_cx1 Sample.one_and_a_half
                   TireParameters.default)
                VehicleParameters.default) /\
  fst (setup_vehicle_parameters Sample.decode Sample.no_failure 1 ""
         (Sample.files Sample.no_field Sample.flat_tire))
    = Throw (InvalidNode "tire") /\
  fst (setup_vehicle_parameters Sample.decode Sample.no_failure 1 ""
         (Sample.files Sample.no_field Sample.nested_and_flat_tire))
    = Return (VehicleParameters.set_tire
                (TireParameters.set_p_cx1 Sample.one TireParameters.default)
                VehicleParameters.default).
Proof. repeat split; reflexivity. Qed.

(** C4: with an empty mapping for each document the call throws
    [InvalidNode], because the empty tire document has no ["tire"] key;
    with a tire document that holds an empty ["tire"] map it returns the
    structure whose fields are all zero. *)
Theorem C4_empty_documents_throw :
  fst (setup_vehicle_parameters Sample.decode Sample.no_failure 1 ""
         (Sample.files (Doc.map_of []) (Doc.map_of [])))
    = Throw (InvalidNode "tire") /\
  fst (setup_vehicle_parameters Sample.decode Sample.no_failure 1 ""
         (Sample.files (Doc.map_of []) Sample.no_tire_field))
    = Return
        {| VehicleParameters.l := zero;
           VehicleParameters.w := zero;
           VehicleParameters.steering :=
          {| SteeringParameters.min := zero;
                SteeringParameters.max := zero;
                SteeringParameters.v_min := zero;
                SteeringParameters.v_max := zero;
                SteeringParameters.kappa_dot_max := zero;
                SteeringParameters.kappa_dot_dot_max := zero |};
           VehicleParameters.longitudinal :=
          {| LongitudinalParameters.v_min := zero;
                LongitudinalParameters.v_max := zero;
                LongitudinalParameters.v_switch := zero;
                LongitudinalParameters.a_max := zero;
                LongitudinalParameters.j_max := zero;
                LongitudinalParameters.j_dot_max := zero |};
           VehicleParameters.m := zero;
           VehicleParameters.m_s := zero;
           VehicleParameters.m_uf := zero;
           VehicleParameters.m_ur := zero;
           VehicleParameters.a := zero;
           VehicleParameters.b := zero;
           VehicleParameters.I_Phi_s := zero;
           VehicleParameters.I_y_s := zero;
           VehicleParameters.I_z := zero;
           VehicleParameters.I_xz_s := zero;
           VehicleParameters.K_sf := zero;
           VehicleParameters.K_sdf := zero;
           VehicleParameters.K_sr := zero;
           VehicleParameters.K_sdr := zero;
           VehicleParameters.T_f := zero;
           VehicleParameters.T_r := zero;
           VehicleParameters.K_ras := zero;
           VehicleParameters.K_tsf := zero;
           VehicleParameters.K_tsr := zero;
           VehicleParameters.K_rad := zero;
           VehicleParameters.K_zt := zero;
           VehicleParameters.h_cg := zero;
           VehicleParameters.h_raf := zero;
           VehicleParameters.h_rar := zero;
           VehicleParameters.h_s := zero;
           VehicleParameters.I_uf := zero;
           VehicleParameters.I_ur := zero;
           VehicleParameters.I_y_w := zero;
           VehicleParameters.K_lt := zero;
           VehicleParameters.R_w := zero;
           VehicleParameters.T_sb := zero;
           VehicleParameters.T_se := zero;
           VehicleParameters.D_f := zero;
           VehicleParameters.D_r := zero;
           VehicleParameters.E_f := zero;
           VehicleParameters.E_r := zero;
           VehicleParameters.tire :=
          {| TireParameters.p_cx1 := zero;
                TireParameters.p_dx1 := zero;
                TireParameters.p_dx3 := zero;
                TireParameters.p_ex1 := zero;
                TireParameters.p_kx1 := zero;
                TireParameters.p_hx1 := zero;
                TireParameters.p_vx1 := zero;
                TireParameters.r_bx1 := zero;
                TireParameters.r_bx2 := zero;
                TireParameters.r_cx1 := zero;
                TireParameters.r_ex1 := zero;
                TireParameters.r_hx1 := zero;
                TireParameters.p_cy1 := zero;
                TireParameters.p_dy1 := zero;
                TireParameters.p_dy3 := zero;
                TireParameters.p_ey1 := zero;
                TireParameters.p_ky1 := zero;
                TireParameters.p_hy1 := zero;
                TireParameters.p_hy3 := zero;
                TireParameters.p_vy1 := zero;
                TireParameters.p_vy3 := zero;
                TireParameters.r_by1 := zero;
                TireParameters.r_by2 := zero;
                TireParameters.r_by3 := zero;
                TireParameters.r_cy1 := zero;
                TireParameters.r_ey1 := zero;
                TireParameters.r_hy1 := zero;
                TireParameters.r_vy1 := zero;
                TireParameters.r_vy3 := zero;
                TireParameters.r_vy4 := zero;
                TireParameters.r_vy5 := zero;
                TireParameters.r_vy6 := zero |};
           VehicleParameters.trailer :=
          {| TrailerParameters.l := zero;
                TrailerParameters.w := zero;
                TrailerParameters.l_hitch := zero;
                TrailerParameters.l_total := zero;
                TrailerParameters.l_wb := zero |} |}.
Proof. split; reflexivity. Qed.

(** C5: a vehicle document that sets the mass alone, resolved with an
    empty tire document, and a flat tire document that sets one
    coefficient alone, make the call throw [InvalidNode]: the fallback
    of [load_tire] assigns to the invalid handle.  With the empty
    ["tire"] map in the tire document, and with the coefficient inside
    the ["tire"] map, the call returns the structure of zeros in which
    that one field holds the value. *)
Theorem C5_single_field_with_flat_or_empty_tire_throws :
  fst (setup_vehicle_parameters Sample.decode Sample.no_failure 1 ""
         (Sample.files (Doc.map_of [("m", Doc.scalar "1.5")]) (Doc.map_of [])))
    = Throw (InvalidNode "tire") /\
  fst (setup_vehicle_parameters Sample.decode Sample.no_failure 1 ""
         (Sample.files (Doc.map_of []) (Doc.map_of [("r_vy6", Doc.scalar "1.5")])))
    = Throw (InvalidNode "tire") /\
  fst (setup_vehicle_parameters Sample.decode Sample.no_failure 1 ""
         (Sample.files (Doc.map_of [("m", Doc.scalar "1.5")])
            Sample.no_tire_field))
    = Return
        {| VehicleParameters.l := zero;
           VehicleParameters.w := zero;
           VehicleParameters.steering :=
          {| SteeringParameters.min := zero;
                SteeringParameters.max := zero;
                SteeringParameters.v_min := zero;
                SteeringParameters.v_max := zero;
                SteeringParameters.kappa_dot_max := zero;
                SteeringParameters.kappa_dot_dot_max := zero |};
           VehicleParameters.longitudinal :=
          {| LongitudinalParameters.v_min := zero;
                LongitudinalParameters.v_max := zero;
                LongitudinalParameters.v_switch := zero;
                LongitudinalParameters.a_max := zero;
                LongitudinalParameters.j_max := zero;
                LongitudinalParameters.j_dot_max := zero |};
           VehicleParameters.m := Sample.one_and_a_half;
           VehicleParameters.m_s := zero;
           VehicleParameters.m_uf := zero;
           VehicleParameters.m_ur := zero;
           VehicleParameters.a := zero;
           VehicleParameters.b := zero;
           VehicleParameters.I_Phi_s := zero;
           VehicleParameters.I_y_s := zero;
           VehicleParameters.I_z := zero;
           VehicleParameters.I_xz_s := zero;
           VehicleParameters.K_sf := zero;
           VehicleParameters.K_sdf := zero;
           VehicleParameters.K_sr := zero;
           VehicleParameters.K_sdr := zero;
           VehicleParameters.T_f := zero;
           VehicleParameters.T_r := zero;
           VehicleParameters.K_ras := zero;
           VehicleParameters.K_tsf := zero;
           VehicleParameters.K_tsr := zero;
           VehicleParameters.K_rad := zero;
           VehicleParameters.K_zt := zero;
           VehicleParameters.h_cg := zero;
           VehicleParameters.h_raf := zero;
           VehicleParameters.h_rar := zero;
           VehicleParameters.h_s := zero;
           VehicleParameters.I_uf := zero;
           VehicleParameters.I_ur := zero;
           VehicleParameters.I_y_w := zero;
           VehicleParameters.K_lt := zero;
           VehicleParameters.R_w := zero;
           VehicleParameters.T_sb := zero;
           VehicleParameters.T_se := zero;
           VehicleParameters.D_f := zero;
           VehicleParameters.D_r := zero;
           VehicleParameters.E_f := zero;
           VehicleParameters.E_r := zero;
           VehicleParameters.tire :=
          {| TireParameters.p_cx1 := zero;
                TireParameters.p_dx1 := zero;
                TireParameters.p_dx3 := zero;
                TireParameters.p_ex1 := zero;
                TireParameters.p_kx1 := zero;
                TireParameters.p_hx1 := zero;
                TireParameters.p_vx1 := zero;
                TireParameters.r_bx1 := zero;
                TireParameters.r_bx2 := zero;
                TireParameters.r_cx1 := zero;
                TireParameters.r_ex1 := zero;
                TireParameters.r_hx1 := zero;
                TireParameters.p_cy1 := zero;
                TireParameters.p_dy1 := zero;
                TireParameters.p_dy3 := zero;
                TireParameters.p_ey1 := zero;
                TireParameters.p_ky1 := zero;
                TireParameters.p_hy1 := zero;
                TireParameters.p_hy3 := zero;
                TireParameters.p_vy1 := zero;
                TireParameters.p_vy3 := zero;
                TireParameters.r_by1 := zero;
                TireParameters.r_by2 := zero;
                TireParameters.r_by3 := zero;
                TireParameters.r_cy1 := zero;
                TireParameters.r_ey1 := zero;
                TireParameters.r_hy1 := zero;
                TireParameters.r_vy1 := zero;
                TireParameters.r_vy3 := zero;
                TireParameters.r_vy4 := zero;
                TireParameters.r_vy5 := zero;
                TireParameters.r_vy6 := zero |};
           VehicleParameters.trailer :=
          {| TrailerParameters.l := zero;
                TrailerParameters.w := zero;
                TrailerParameters.l_hitch := zero;
                TrailerParameters.l_total := zero;
                TrailerParameters.l_wb := zero |} |} /\
  fst (setup_vehicle_parameters Sample.decode Sample.no_failure 1 ""
         (Sample.files (Doc.map_of [])
            (Doc.map_of [("tire", Doc.map_of [("r_vy6", Doc.scalar "1.5")])])))
    = Return
        {| VehicleParameters.l := zero;
           VehicleParameters.w := zero;
           VehicleParameters.steering :=
          {| SteeringParameters.min := zero;
                SteeringParameters.max := zero;
                SteeringParameters.v_min := zero;
                SteeringParameters.v_max := zero;
                SteeringParameters.kappa_dot_max := zero;
                SteeringParameters.kappa_dot_dot_max := zero |};
           VehicleParameters.longitudinal :=
          {| LongitudinalParameters.v_min := zero;
                LongitudinalParameters.v_max := zero;
                LongitudinalParameters.v_switch := zero;
                LongitudinalParameters.a_max := zero;
                LongitudinalParameters.j_max := zero;
                LongitudinalParameters.j_dot_max := zero |};
           VehicleParameters.m := zero;
           VehicleParameters.m_s := zero;
           VehicleParameters.m_uf := zero;
           VehicleParameters.m_ur := zero;
           VehicleParameters.a := zero;
           VehicleParameters.b := zero;
           VehicleParameters.I_Phi_s := zero;
           VehicleParameters.I_y_s := zero;
           VehicleParameters.I_z := zero;
           VehicleParameters.I_xz_s := zero;
           VehicleParameters.K_sf := zero;
           VehicleParameters.K_sdf := zero;
           VehicleParameters.K_sr := zero;
           VehicleParameters.K_sdr := zero;
           VehicleParameters.T_f := zero;
           VehicleParameters.T_r := zero;
           VehicleParameters.K_ras := zero;
           VehicleParameters.K_tsf := zero;
           VehicleParameters.K_tsr := zero;
           VehicleParameters.K_rad := zero;
           VehicleParameters.K_zt := zero;
           VehicleParameters.h_cg := zero;
           VehicleParameters.h_raf := zero;
           VehicleParameters.h_rar := zero;
           VehicleParameters.h_s := zero;
           VehicleParameters.I_uf := zero;
           VehicleParameters.I_ur := zero;
           VehicleParameters.I_y_w := zero;
           VehicleParameters.K_lt := zero;
           VehicleParameters.R_w := zero;
           VehicleParameters.T_sb := zero;
           VehicleParameters.T_se := zero;
           VehicleParameters.D_f := zero;
           VehicleParameters.D_r := zero;
           VehicleParameters.E_f := zero;
           VehicleParameters.E_r := zero;
           VehicleParameters.tire :=
          {| TireParameters.p_cx1 := zero;
                TireParameters.p_dx1 := zero;
                TireParameters.p_dx3 := zero;
                TireParameters.p_ex1 := zero;
                TireParameters.p_kx1 := zero;
                TireParameters.p_hx1 := zero;
                TireParameters.p_vx1 := zero;
                TireParameters.r_bx1 := zero;
                TireParameters.r_bx2 := zero;
                TireParameters.r_cx1 := zero;
                TireParameters.r_ex1 := zero;
                TireParameters.r_hx1 := zero;
                TireParameters.p_cy1 := zero;
                TireParameters.p_dy1 := zero;
                TireParameters.p_dy3 := zero;
                TireParameters.p_ey1 := zero;
                TireParameters.p_ky1 := zero;
                TireParameters.p_hy1 := zero;
                TireParameters.p_hy3 := zero;
                TireParameters.p_vy1 := zero;
                TireParameters.p_vy3 := zero;
                TireParameters.r_by1 := zero;
                TireParameters.r_by2 := zero;
                TireParameters.r_by3 := zero;
                TireParameters.r_cy1 := zero;
                TireParameters.r_ey1 := zero;
                TireParameters.r_hy1 := zero;
                TireParameters.r_vy1 := zero;
                TireParameters.r_vy3 := zero;
                TireParameters.r_vy4 := zero;
                TireParameters.r_vy5 := zero;
                TireParameters.r_vy6 := Sample.one_and_a_half |};
           VehicleParameters.trailer :=
          {| TrailerParameters.l := zero;
                TrailerParameters.w := zero;
                TrailerParameters.l_hitch := zero;
                TrailerParameters.l_total := zero;
                TrailerParameters.l_wb := zero |} |}.
Proof. repeat split; reflexivity. Qed.

Lemma C6_witness :
  VehicleParameters.set_m Sample.one
    (VehicleParameters.set_steering
       (SteeringParameters.set_max Sample.two SteeringParameters.default)
       VehicleParameters.default) =
  VehicleParameters.set_steering
    (SteeringParameters.set_max Sample.two SteeringParameters.default)
    (VehicleParameters.set_m Sample.one
       (VehicleParameters.set_steering
          (SteeringParameters.set_max Sample.one SteeringParameters.default)
          VehicleParameters.default)).
Proof.
  refine (proj1 (C6_group_isolation Sample.decode Sample.no_failure 1 ""
                   (Sample.files (Sample.vehicle_steering "1") Sample.no_tire_field)
                   (Sample.files (Sample.vehicle_steering "2") Sample.no_tire_field)
                   (Sample.vehicle_steering "1") (Sample.vehicle_steering "2")
                   Sample.no_tire_field Sample.no_tire_field
                   (VehicleParameters.set_m Sample.one
                      (VehicleParameters.set_steering
                         (SteeringParameters.set_max Sample.one
                            SteeringParameters.default)
                         VehicleParameters.default))
                   (VehicleParameters.set_m Sample.one
                      (VehicleParameters.set_steering
                         (SteeringParameters.set_max Sample.two
                            SteeringParameters.default)
                         VehicleParameters.default))
                   eq_refl eq_refl eq_refl eq_refl eq_refl eq_refl)
            eq_refl _).
  intros k Hk. unfold find_key, Sample.vehicle_steering, Doc.map_of.
  cbn [List.map fst snd find_entry key_equals Doc.scalar].
  destruct (String.eqb "m" k); [ reflexivity | ].
  destruct (String.eqb_spec "steering" k) as [ E | _ ]; [ | reflexivity ].
  destruct (Hk (eq_sym E)).
Defined.



Lemma C9_witness :
  (forall s,
      load_steering Sample.decode (Handle Sample.vehicle_scalar_steering) s
        = Return s) /\
  VehicleParameters.steering
    (VehicleParameters.set_m Sample.one VehicleParameters.default)
    = SteeringParameters.mk zero zero zero zero zero zero.
Proof.
  destruct (proj1 (C9_group_without_map_stays_default Sample.decode Sample.no_failure 1 ""
                     (Sample.files Sample.vehicle_scalar_steering
                        Sample.no_tire_field)
                     Sample.vehicle_scalar_steering Sample.no_tire_field
                     eq_refl eq_refl eq_refl) eq_refl) as [ Hload Hgroup ].
  split; [ exact Hload | apply Hgroup; reflexivity ].
Defined.

Lemma C10_witness :
  exists tp',
    load_tire Sample.decode (Handle Sample.scalar_tire_entry)
      TireParameters.default = Return tp' /\
    TireParameters.p_cx1 tp' = Sample.one_and_a_half /\
    TireParameters.p_dx1 tp' = zero.
Proof.
  destruct (C10_tire_entry_that_is_no_map Sample.decode
              Sample.scalar_tire_entry (Doc.scalar "1")
              TireParameters.default eq_refl eq_refl)
    as (_ & _ & _ & Hreturns & Hfields).
  destruct (Hreturns eq_refl) as (tp' & Hload).
  exists tp'. split; [ exact Hload | ].
  pose proof (Hfields tp' Hload) as H.
  inversion H as [ | l1 ls1 H1 Hrest1 ]; subst.
  inversion Hrest1 as [ | l2 ls2 H2 Hrest2 ]; subst.
  simpl in H1, H2. injection H1 as H1. injection H2 as H2. split; assumption.
Defined.

(** * Closed instances of the further properties *)

Lemma vehicle_documents_are_distinct_witness :
  vehicle_yaml 1 "" <> vehicle_yaml 2 "" /\ vehicle_yaml 1 "" <> tire_yaml "".
Proof.
  apply (vehicle_documents_are_distinct 1 2 ""). discriminate.
Defined.

Lemma setup_reads_two_documents_only_witness :
  setup_vehicle_parameters Sample.decode Sample.no_failure 1 ""
    (Sample.files Sample.vehicle_two_fields Sample.no_tire_field)
  = setup_vehicle_parameters Sample.decode Sample.no_failure 1 ""
      (Sample.crowded Sample.vehicle_two_fields Sample.no_tire_field) /\
  exists n,
    (1 <= n)%nat /\
    snd (setup_vehicle_parameters Sample.decode Sample.no_failure 1 ""
           (Sample.files Sample.vehicle_two_fields Sample.no_tire_field))
      = firstn n (document_accesses 1 "").
Proof.
  apply (setup_reads_two_documents_only Sample.decode Sample.no_failure 1 ""
           (Sample.files Sample.vehicle_two_fields Sample.no_tire_field)
           (Sample.crowded Sample.vehicle_two_fields Sample.no_tire_field));
    reflexivity.
Defined.

Lemma setup_propagates_parser_exception_witness :
  setup_vehicle_parameters Sample.decode Sample.no_failure 1 ""
    (Sample.malformed_vehicle Sample.no_tire_field)
  = (Throw Sample.syntax_error, firstn 3 (document_accesses 1 "")) /\
  setup_vehicle_parameters Sample.decode Sample.no_failure 1 ""
    (Sample.malformed_tire Sample.vehicle_bad_mass)
  = (Throw Sample.syntax_error, document_accesses 1 "").
Proof.
  split.
  - apply (proj1 (setup_propagates_parser_exception Sample.decode Sample.no_failure 1 ""
                    (Sample.malformed_vehicle Sample.no_tire_field)
                    Sample.syntax_error)).
    + reflexivity.
    + discriminate.
  - apply (proj2 (setup_propagates_parser_exception Sample.decode Sample.no_failure 1 ""
                    (Sample.malformed_tire Sample.vehicle_bad_mass)
                    Sample.syntax_error) Sample.vehicle_bad_mass);
      reflexivity.
Defined.

Lemma setup_returns_exactly_when_witness :
  exists p,
    fst (setup_vehicle_parameters Sample.decode Sample.no_failure 1 ""
           (Sample.files Sample.vehicle_two_fields Sample.no_tire_field))
      = Return p.
Proof.
  apply (proj2 (setup_returns_exactly_when Sample.decode Sample.no_failure 1 ""
                  (Sample.files Sample.vehicle_two_fields Sample.no_tire_field)
                  Sample.vehicle_two_fields Sample.no_tire_field
                  eq_refl eq_refl)).
  split; [ reflexivity | split; [ discriminate | reflexivity ] ].
Defined.

Lemma setup_exceptions_witness :
  (exists x,
      In x (present_values Sample.no_field Sample.flat_tire) /\
      unconvertible Sample.decode x = true /\
      InvalidNode "tire" = TypedBadConversion (mark x)) \/
  (exists mk text,
      Sample.no_field = Scalar mk text /\ InvalidNode "tire" = BadSubscript mk "l") \/
  (is_scalar Sample.no_field = false /\
   exists mk text,
     Sample.flat_tire = Scalar mk text /\
     InvalidNode "tire" = BadSubscript mk "tire") \/
  (is_scalar Sample.no_field = false /\ is_scalar Sample.flat_tire = false /\
   find_key Sample.flat_tire "tire" = None /\
   InvalidNode "tire" = InvalidNode "tire").
Proof.
  apply (setup_exceptions Sample.decode Sample.no_failure 1 ""
           (Sample.files Sample.no_field Sample.flat_tire)
           Sample.no_field Sample.flat_tire (InvalidNode "tire"));
    reflexivity.
Defined.

Lemma setup_field_values_witness :
  let p :=
    VehicleParameters.set_m Sample.one
      (VehicleParameters.set_a Sample.two
         (VehicleParameters.set_tire
            (TireParameters.set_p_cx1 Sample.one_and_a_half
               TireParameters.default)
            VehicleParameters.default)) in
  Forall (fun l =>
            Some (snd l p) =
              expected Sample.decode Sample.vehicle_two_fields (fst (fst l)))
    vehicle_lenses /\
  Forall (fun l =>
            Some (snd l (VehicleParameters.tire p)) =
              expected_in Sample.decode (tire_source Sample.nested_tire)
                (fst (fst l)))
    tire_lenses.
Proof.
  intros p.
  destruct (setup_field_values Sample.decode Sample.no_failure 1 ""
              (Sample.files Sample.vehicle_two_fields Sample.nested_tire)
              Sample.vehicle_two_fields Sample.nested_tire p
              eq_refl eq_refl eq_refl) as (Hv & _ & _ & _ & Ht).
  split; [ exact Hv | exact Ht ].
Defined.

Lemma setup_depends_on_read_entries_only_witness :
  fst (setup_vehicle_parameters Sample.decode Sample.no_failure 1 ""
         (Sample.files Sample.vehicle_two_fields Sample.nested_tire))
  = fst (setup_vehicle_parameters Sample.decode Sample.no_failure 1 ""
           (Sample.files Sample.vehicle_two_fields_reordered
              Sample.tire_with_siblings)).
Proof.
  apply (setup_depends_on_read_entries_only Sample.decode Sample.no_failure 1 ""
           (Sample.files Sample.vehicle_two_fields Sample.nested_tire)
           (Sample.files Sample.vehicle_two_fields_reordered
              Sample.tire_with_siblings)
           Sample.vehicle_two_fields Sample.vehicle_two_fields_reordered
           Sample.nested_tire Sample.tire_with_siblings);
    try reflexivity; try exact I.
  - intros key Hin. simpl in Hin.
    repeat (destruct Hin as [ <- | Hin ]; [ reflexivity | ]).
    destruct Hin.
  - intros key _. reflexivity.
Defined.

Lemma setup_ignores_unknown_key_witness :
  fst (setup_vehicle_parameters Sample.decode Sample.no_failure 1 ""
         (Sample.files
            (Doc.map_of [("m", Doc.scalar "1"); ("note", Doc.scalar "spare");
                         ("a", Doc.scalar "2")])
            Sample.no_tire_field))
  = fst (setup_vehicle_parameters Sample.decode Sample.no_failure 1 ""
           (Sample.files Sample.vehicle_two_fields Sample.no_tire_field)).
Proof.
  apply (setup_ignores_unknown_key Sample.decode Sample.no_failure 1 ""
           (Sample.files
              (Doc.map_of [("m", Doc.scalar "1"); ("note", Doc.scalar "spare");
                           ("a", Doc.scalar "2")])
              Sample.no_tire_field)
           (Sample.files Sample.vehicle_two_fields Sample.no_tire_field)
           Doc.nowhere
           [(Doc.scalar "m", Doc.scalar "1")]
           [(Doc.scalar "a", Doc.scalar "2")]
           (Doc.scalar "note") (Doc.scalar "spare") Sample.no_tire_field);
    try reflexivity.
  intros key Hin. simpl in Hin.
  repeat (destruct Hin as [ <- | Hin ]; [ reflexivity | ]).
  destruct Hin.
Defined.

Lemma setup_reads_nested_tire_map_only_witness :
  fst (setup_vehicle_parameters Sample.decode Sample.no_failure 1 ""
         (Sample.files Sample.no_field Sample.nested_tire))
  = fst (setup_vehicle_parameters Sample.decode Sample.no_failure 1 ""
           (Sample.files Sample.no_field Sample.tire_with_siblings)).
Proof.
  apply (setup_reads_nested_tire_map_only Sample.decode Sample.no_failure 1 ""
           (Sample.files Sample.no_field Sample.nested_tire)
           (Sample.files Sample.no_field Sample.tire_with_siblings)
           Sample.no_field Sample.nested_tire Sample.tire_with_siblings
           Doc.nowhere [(Doc.scalar "p_cx1", Doc.scalar "1.5")]);
    reflexivity.
Defined.

Lemma setup_vehicle_document_without_entries_witness :
  fst (setup_vehicle_parameters Sample.decode Sample.no_failure 1 ""
         (Sample.files Sample.null_document Sample.nested_tire))
  = (tp <- load_tire Sample.decode (Handle Sample.nested_tire)
             TireParameters.default;;
     Return (VehicleParameters.set_tire tp VehicleParameters.default)).
Proof.
  apply (setup_vehicle_document_without_entries Sample.decode Sample.no_failure 1 ""
           (Sample.files Sample.null_document Sample.nested_tire)
           Sample.null_document Sample.nested_tire);
    try reflexivity.
Defined.

Lemma dir_params_trailing_separator_witness :
  vehicle_yaml 2 "cfg/" = vehicle_yaml 2 "cfg" /\
  tire_yaml "cfg/" = tire_yaml "cfg" /\
  setup_vehicle_parameters Sample.decode Sample.no_failure 2 "cfg/"
    = setup_vehicle_parameters Sample.decode Sample.no_failure 2 "cfg" /\
  setup_vehicle_parameters Sample.decode Sample.no_failure 2 ""
    = setup_vehicle_parameters Sample.decode Sample.no_failure 2 "parameters".
Proof.
  apply (dir_params_trailing_separator Sample.decode Sample.no_failure 2 "cfg"). reflexivity.
Defined.

Lemma setup_outcome_from_documents_only_witness :
  fst (setup_vehicle_parameters Sample.decode Sample.no_failure 1 ""
         (Sample.files Sample.vehicle_two_fields Sample.nested_tire))
  = fst (setup_vehicle_parameters Sample.decode Sample.no_failure 3 "cfg"
           (Sample.elsewhere Sample.vehicle_two_fields Sample.nested_tire)).
Proof.
  apply (setup_outcome_from_documents_only Sample.decode Sample.no_failure 1 3 "" "cfg"
           (Sample.files Sample.vehicle_two_fields Sample.nested_tire)
           (Sample.elsewhere Sample.vehicle_two_fields Sample.nested_tire)
           (Return Sample.vehicle_two_fields) (Return Sample.nested_tire));
    reflexivity.
Defined.
